(** * Opticode: the account and session-history backend

    A shallow embedding of [database.py] (the MongoDB layer) and of the
    routes of [app.py] that use it, followed by the properties of the
    tenant-isolated session store.

    Layout:
    - [Py]        the Python values the code handles: exceptions, JSON
                  values as returned by [request.get_json], truthiness,
                  strings with [len], [str.strip], [str.encode] and [in];
    - [Mongo]     the two collections, the documents stored in them and
                  the operations of pymongo the code calls;
    - [Libs]      bcrypt, PyJWT, datetime formatting, [str.lower] and the
                  optimizer, as an interface;
    - [database]  the functions of database.py;
    - [app]       the route handlers of app.py, each a function of the
                  parsed request body and of the identity [require_auth]
                  extracted from the token;
    - [Server]    the server as a transition system over the routes;
    - [Interleaving] requests running [toggle_star] concurrently, each
                  pymongo call being one atomic step;
    - the vocabulary of the specification, sample data, and the
      properties. *)

From Stdlib Require Import ZArith String Ascii List Bool Lia.
From stdpp Require Import base option gmap strings pretty list fin_maps sorting.

Set Warnings "-register-all".
Local Open Scope string_scope.
Local Open Scope Z_scope.

(* ===================================================================== *)
(** * Python values                                                       *)
(* ===================================================================== *)

Module Py.

(** An exception: its class name and [str(e)]. Every exception modelled
    here derives from [Exception]. *)
Record exn := Exn { exn_class : string; exn_str : string }.

(** The outcome of evaluating a Python expression. *)
Inductive result (A : Type) : Type :=
| Ok (a : A)
| Raise (e : exn).
Arguments Ok {A} a.
Arguments Raise {A} e.

(** Values produced by [json.loads] and consumed by [jsonify]. [None] is
    [JNull]; a dict is an association list in insertion order. Numbers are
    restricted to integers: no path below looks at a number except for
    its truth value and its type. *)
Inductive json : Type :=
| JNull
| JBool (b : bool)
| JNum (z : Z)
| JStr (s : string)
| JArr (l : list json)
| JObj (d : list (string * json)).

Abbreviation dict := (list (string * json)).

(** [bool(v)] *)
Definition truthy (v : json) : bool :=
  match v with
  | JNull => false
  | JBool b => b
  | JNum z => negb (z =? 0)
  | JStr s => negb (String.eqb s "")
  | JArr l => match l with [] => false | _ => true end
  | JObj d => match d with [] => false | _ => true end
  end.

(** [a or b] *)
Definition or_ (a b : json) : json := if truthy a then a else b.

(** [type(v).__name__] *)
Definition type_name (v : json) : string :=
  match v with
  | JNull => "NoneType"
  | JBool _ => "bool"
  | JNum _ => "int"
  | JStr _ => "str"
  | JArr _ => "list"
  | JObj _ => "dict"
  end.

Definition AttributeError (v : json) (attr : string) : exn :=
  Exn "AttributeError"
      ("'" ++ type_name v ++ "' object has no attribute '" ++ attr ++ "'").

Definition TypeError_unhashable (v : json) : exn :=
  Exn "TypeError" ("unhashable type: '" ++ type_name v ++ "'").

(** Lookup in a dict, first binding of the key. *)
Fixpoint dict_lookup (k : string) (d : dict) : option json :=
  match d with
  | [] => None
  | (k', v) :: d' => if String.eqb k k' then Some v else dict_lookup k d'
  end.

(** [d[k] = v]: replaces the binding in place, or appends a new one. *)
Fixpoint dict_set (k : string) (v : json) (d : dict) : dict :=
  match d with
  | [] => [(k, v)]
  | (k', v') :: d' =>
      if String.eqb k k' then (k', v) :: d' else (k', v') :: dict_set k v d'
  end.

(** [d.get(k, default)] on a dict. *)
Definition dict_get (d : dict) (k : string) (default : json) : json :=
  match dict_lookup k d with Some v => v | None => default end.

(** [v.get(k, default)] on an arbitrary value: only a dict has [get]. *)
Definition get (v : json) (k : string) (default : json) : result json :=
  match v with
  | JObj d => Ok (dict_get d k default)
  | _ => Raise (AttributeError v "get")
  end.

(** [hash(v)] succeeds on every JSON value but lists and dicts. *)
Definition hashable (v : json) : bool :=
  match v with
  | JArr _ | JObj _ => false
  | _ => true
  end.

(** ** Strings

    A [str] is written as the bytes of its UTF-8 encoding, so that a
    string literal of this file is the Python string it shows. A lone
    surrogate, which [json.loads] lets through, is written as the three
    bytes of its code point (as the [surrogatepass] handler encodes it):
    237, then a byte from 160 to 191, then a continuation byte. *)

(** A byte that continues a character. *)
Definition is_continuation (c : ascii) : bool :=
  let n := nat_of_ascii c in ((128 <=? n) && (n <=? 191))%nat.

(** [len(s)]: the number of characters, one for each byte that starts
    one. *)
Fixpoint len (s : string) : nat :=
  match s with
  | EmptyString => 0%nat
  | String c r => ((if is_continuation c then 0 else 1) + len r)%nat
  end.

(** [c.isspace()] for an ASCII character: tab, newline, vertical tab,
    form feed, carriage return, the four separators 0x1c to 0x1f, and
    space. *)
Definition is_space (c : ascii) : bool :=
  let n := nat_of_ascii c in
  ((9 <=? n) && (n <=? 13) || (28 <=? n) && (n <=? 32))%nat.

(** The whitespace characters of two bytes: U+0085 and U+00A0. *)
Definition is_space2 (a b : ascii) : bool :=
  let n := nat_of_ascii a in let m := nat_of_ascii b in
  ((n =? 194) && ((m =? 133) || (m =? 160)))%nat.

(** The whitespace characters of three bytes: U+1680, U+2000 to U+200A,
    U+2028, U+2029, U+202F, U+205F and U+3000. *)
Definition is_space3 (a b c : ascii) : bool :=
  let n := nat_of_ascii a in
  let m := nat_of_ascii b in
  let k := nat_of_ascii c in
  ((n =? 225) && (m =? 154) && (k =? 128)
   || (n =? 226) && (m =? 128)
      && ((128 <=? k) && (k <=? 138) || (k =? 168) || (k =? 169) || (k =? 175))
   || (n =? 226) && (m =? 129) && (k =? 159)
   || (n =? 227) && (m =? 128) && (k =? 128))%nat.

(** The number of bytes of the whitespace character [s] starts with, 0
    when it starts with none. *)
Definition space_width (s : string) : nat :=
  match s with
  | String a r =>
      if is_space a then 1%nat
      else match r with
           | String b r' =>
               if is_space2 a b then 2%nat
               else match r' with
                    | String c _ => if is_space3 a b c then 3%nat else 0%nat
                    | EmptyString => 0%nat
                    end
           | EmptyString => 0%nat
           end
  | EmptyString => 0%nat
  end.

(** The same for the whitespace character [s] ends with, [s] being given
    last byte first. *)
Definition space_width_rev (s : string) : nat :=
  match s with
  | String c r =>
      if is_space c then 1%nat
      else match r with
           | String b r' =>
               if is_space2 b c then 2%nat
               else match r' with
                    | String a _ => if is_space3 a b c then 3%nat else 0%nat
                    | EmptyString => 0%nat
                    end
           | EmptyString => 0%nat
           end
  | EmptyString => 0%nat
  end.

Fixpoint drop_bytes (n : nat) (s : string) : string :=
  match n, s with
  | S n', String _ r => drop_bytes n' r
  | _, _ => s
  end.

(** Removes leading whitespace characters, whose width [width] gives, at
    most [fuel] of them. *)
Fixpoint strip_front (width : string -> nat) (fuel : nat) (s : string)
  : string :=
  match fuel with
  | O => s
  | S fuel' =>
      match width s with
      | O => s
      | k => strip_front width fuel' (drop_bytes k s)
      end
  end.

Fixpoint rev_onto (s acc : string) : string :=
  match s with
  | EmptyString => acc
  | String c r => rev_onto r (String c acc)
  end.

(** The bytes of [s], last one first. *)
Definition reverse (s : string) : string := rev_onto s EmptyString.

(** [s.lstrip()] *)
Definition lstrip (s : string) : string :=
  strip_front space_width (String.length s) s.

(** [s.rstrip()] *)
Definition rstrip (s : string) : string :=
  reverse (strip_front space_width_rev (String.length s) (reverse s)).

(** [s.strip()] *)
Definition strip (s : string) : string := lstrip (rstrip s).

(** ASCII lowercasing, which is [s.lower()] for a string of ASCII
    characters; the other bytes are kept. *)
Definition is_upper (c : ascii) : bool :=
  let n := nat_of_ascii c in ((65 <=? n) && (n <=? 90))%nat.

Definition lower_char (c : ascii) : ascii :=
  if is_upper c then ascii_of_nat (nat_of_ascii c + 32) else c.

Fixpoint lower (s : string) : string :=
  match s with
  | EmptyString => EmptyString
  | String c r => String (lower_char c) (lower r)
  end.

(** ** [str.encode()]

    UTF-8 has no encoding for a surrogate: [s.encode()] raises on the
    first run of them. *)

(** [s] starts with a surrogate. *)
Definition starts_with_surrogate (s : string) : bool :=
  match s with
  | String a (String b _) =>
      ((nat_of_ascii a =? 237) && (160 <=? nat_of_ascii b))%nat
  | _ => false
  end.

(** The number of surrogates [s] starts with, counting at most [fuel]. *)
Fixpoint surrogate_run (fuel : nat) (s : string) : nat :=
  match fuel with
  | O => 0%nat
  | S fuel' =>
      if starts_with_surrogate s then S (surrogate_run fuel' (drop_bytes 3 s))
      else 0%nat
  end.

Definition hex_digit (n : nat) : string :=
  String (ascii_of_nat (if (n <? 10)%nat then 48 + n else 87 + n)) EmptyString.

(** The escape ["\udXYZ"] of the surrogate [s] starts with, as the
    message of the exception shows it. *)
Definition surrogate_escape (s : string) : string :=
  match s with
  | String _ (String b (String c _)) =>
      let m := (nat_of_ascii b - 128)%nat in
      let k := (nat_of_ascii c - 128)%nat in
      "\ud" ++ hex_digit (m / 4) ++ hex_digit (m mod 4 * 4 + k / 16)
      ++ hex_digit (k mod 16)
  | _ => EmptyString
  end.

Definition UnicodeEncodeError (position : nat) (s : string) : exn :=
  let run := surrogate_run (String.length s) s in
  Exn "UnicodeEncodeError"
      (if (run <=? 1)%nat then
         "'utf-8' codec can't encode character '" ++ surrogate_escape s
         ++ "' in position " ++ pretty position ++ ": surrogates not allowed"
       else
         "'utf-8' codec can't encode characters in position "
         ++ pretty position ++ "-" ++ pretty (position + run - 1)%nat
         ++ ": surrogates not allowed").

(** [s.encode()], [position] characters into the string. *)
Fixpoint encode_from (position : nat) (s : string) : result string :=
  match s with
  | EmptyString => Ok EmptyString
  | String c r =>
      if starts_with_surrogate s then Raise (UnicodeEncodeError position s)
      else match encode_from
                   (if is_continuation c then position else S position) r with
           | Ok r' => Ok (String c r')
           | Raise e => Raise e
           end
  end.

(** [s.encode()] *)
Definition encode (s : string) : result string :=
  encode_from 0 s.

(** [v.strip()] on an arbitrary value. *)
Definition strip_ (v : json) : result string :=
  match v with
  | JStr s => Ok (strip s)
  | _ => Raise (AttributeError v "strip")
  end.

(** [sub in s] for strings. *)
Fixpoint contains (sub s : string) : bool :=
  String.prefix sub s ||
  match s with
  | EmptyString => false
  | String _ r => contains sub r
  end.

(** [not s] for a string. *)
Definition is_empty (s : string) : bool := String.eqb s "".

End Py.
Import Py.

(* ===================================================================== *)
(** * The MongoDB collections                                             *)
(* ===================================================================== *)

Module Mongo.

(** A naive UTC [datetime], as microseconds since the epoch. *)
Abbreviation datetime := Z.

(** A date as BSON keeps it: in milliseconds, the microseconds below
    dropped. A document read back from a collection holds this date. *)
Definition bson_datetime (t : datetime) : datetime := t - t mod 1000.

(** A document of [users], as [create_user] builds it. *)
Module UserDoc.
Record t := Make
  { name : string;
    email : string;
    password : string;
    created_at : datetime }.

Definition set_created_at (t' : datetime) (d : t) : t :=
  Make (name d) (email d) (password d) t'.
End UserDoc.

(** A document of [optimizations], as [save_optimization] builds it: the
    only writer of the collection, so every field is present. The code
    and analysis fields hold whatever the pipeline returned. *)
Module OptDoc.
Record t := Make
  { user_id : string;
    name : string;
    original_code : json;
    optimized_code : json;
    level : string;
    changes : json;
    original_analysis : json;
    optimized_analysis : json;
    error : json;
    starred : bool;
    created_at : datetime }.

Definition set_name (n : string) (d : t) : t :=
  Make (user_id d) n (original_code d) (optimized_code d) (level d)
       (changes d) (original_analysis d) (optimized_analysis d) (error d)
       (starred d) (created_at d).

Definition set_starred (b : bool) (d : t) : t :=
  Make (user_id d) (name d) (original_code d) (optimized_code d) (level d)
       (changes d) (original_analysis d) (optimized_analysis d) (error d)
       b (created_at d).

Definition set_created_at (t' : datetime) (d : t) : t :=
  Make (user_id d) (name d) (original_code d) (optimized_code d) (level d)
       (changes d) (original_analysis d) (optimized_analysis d) (error d)
       (starred d) t'.
End OptDoc.

(** The state a request can observe and change: the two collections, keyed
    by [_id] (an ObjectId, written as its 24 lowercase hex digits; the
    [_id] index of a collection is always unique), and what was printed on
    standard error. *)
Record World := MkWorld
  { users : gmap string UserDoc.t;
    optimizations : gmap string OptDoc.t;
    stderr : list exn }.

Definition set_users (u : gmap string UserDoc.t) (w : World) : World :=
  MkWorld u (optimizations w) (stderr w).
Definition set_optimizations (o : gmap string OptDoc.t) (w : World) : World :=
  MkWorld (users w) o (stderr w).

(** What a request draws from outside the program: the successive results
    of [datetime.utcnow()] and of [datetime.now(timezone.utc)] during the
    request, the salt of [bcrypt.gensalt], the ObjectId the driver
    generates for an insert, and the error, if any, with which that
    insert fails for a reason other than a duplicate key: the driver
    cannot encode the document (a string with a lone surrogate, an
    integer over 64 bits), the connection is lost, the server refuses the
    write. The inserts are the calls the program wraps in [try]; the
    other operations are modelled on a server that answers. *)
Record Env := MkEnv
  { utcnow : nat -> datetime;
    now_utc : nat -> datetime;
    gensalt : string;
    new_oid : string;
    server_error : option exn }.

(** ** Computations: state, and exceptions that keep the state *)

Definition M (A : Type) : Type := World -> result A * World.

Definition ret {A} (a : A) : M A := fun w => (Ok a, w).
Definition raise {A} (e : exn) : M A := fun w => (Raise e, w).
Definition bind {A B} (m : M A) (k : A -> M B) : M B :=
  fun w => match m w with
           | (Ok a, w') => k a w'
           | (Raise e, w') => (Raise e, w')
           end.
(** [try: m  except Exception as e: h e] *)
Definition try_except {A} (m : M A) (h : exn -> M A) : M A :=
  fun w => match m w with
           | (Ok a, w') => (Ok a, w')
           | (Raise e, w') => h e w'
           end.
Definition lift {A} (r : result A) : M A := fun w => (r, w).
Definition gets {A} (f : World -> A) : M A := fun w => (Ok (f w), w).
Definition modify (f : World -> World) : M unit := fun w => (Ok tt, f w).

(** [traceback.print_exc()] in a handler of [e]. *)
Definition print_exc (e : exn) : M unit :=
  modify (fun w => MkWorld (users w) (optimizations w) (stderr w ++ [e])).

Declare Scope py_scope.
Delimit Scope py_scope with py.
Notation "x <- m ;; k" := (bind m (fun x => k))
  (at level 100, m at next level, right associativity) : py_scope.
Notation "m1 ;; m2" := (bind m1 (fun _ => m2))
  (at level 100, right associativity) : py_scope.

(** ** ObjectId *)

Definition is_hex (c : ascii) : bool :=
  let n := nat_of_ascii c in
  ((48 <=? n) && (n <=? 57) || (65 <=? n) && (n <=? 70)
   || (97 <=? n) && (n <=? 102))%nat.

Fixpoint all_hex (s : string) : bool :=
  match s with
  | EmptyString => true
  | String c r => is_hex c && all_hex r
  end.

Definition InvalidId (s : string) : exn :=
  Exn "InvalidId"
      ("'" ++ s ++ "' is not a valid ObjectId, it must be a 12-byte input "
       ++ "or a 24-character hex string").

(** [ObjectId(s)] for a string: 24 hex digits of either case, kept as
    [str] prints them. A string of 24 characters with whitespace among
    its digits, which [bytes.fromhex] reads as fewer than 12 bytes, is
    counted with the refused ones: no property below is about such an
    id. *)
Definition ObjectId (s : string) : result string :=
  if (String.length s =? 24)%nat && all_hex s then Ok (lower s)
  else Raise (InvalidId s).

(** ** Operations on [users] *)

Definition dquote : string := String "034"%char EmptyString.

Definition DuplicateKeyError (index key value : string) : exn :=
  Exn "DuplicateKeyError"
      ("E11000 duplicate key error collection: opticode.users index: "
       ++ index ++ " dup key: { " ++ key ++ ": " ++ dquote ++ value
       ++ dquote ++ " }").

(** [users_collection.insert_one(doc)]. The collection has the unique
    index on [email] created when database.py is loaded. The document in
    the collection has the date as BSON keeps it. *)
Definition users_insert_one (env : Env) (doc : UserDoc.t) : M string :=
  fun w =>
    match server_error env with
    | Some e => (Raise e, w)
    | None =>
        if decide (is_Some (users w !! new_oid env)) then
          (Raise (DuplicateKeyError "_id_" "_id" (new_oid env)), w)
        else if decide (map_Exists
                          (fun _ d => UserDoc.email d = UserDoc.email doc)
                          (users w)) then
          (Raise (DuplicateKeyError "email_1" "email" (UserDoc.email doc)), w)
        else
          (Ok (new_oid env),
           set_users
             (<[new_oid env :=
                  UserDoc.set_created_at
                    (bson_datetime (UserDoc.created_at doc)) doc]> (users w))
             w)
    end.

(** [users_collection.find_one({"email": e})] *)
Definition users_find_one_by_email (e : string)
  : M (option (string * UserDoc.t)) :=
  gets (fun w =>
          head (filter (fun kv => UserDoc.email kv.2 = e)
                       (map_to_list (users w)))).

(** [users_collection.find_one({"_id": oid})] *)
Definition users_find_one_by_id (oid : string)
  : M (option (string * UserDoc.t)) :=
  gets (fun w => (fun d => (oid, d)) <$> users w !! oid).

(** ** Operations on [optimizations] *)

(** A query document [{"_id": q_id}] or [{"_id": q_id, "user_id": u}]. *)
Record query := Query { q_id : string; q_user_id : option string }.

Definition matches (q : query) (d : OptDoc.t) : bool :=
  match q_user_id q with
  | Some u => bool_decide (OptDoc.user_id d = u)
  | None => true
  end.

(** [optimizations_collection.find_one(q)] *)
Definition find_one (q : query) : M (option OptDoc.t) :=
  gets (fun w =>
          match optimizations w !! q_id q with
          | Some d => if matches q d then Some d else None
          | None => None
          end).

(** [optimizations_collection.insert_one(doc)] *)
Definition insert_one (env : Env) (doc : OptDoc.t) : M string :=
  fun w =>
    match server_error env with
    | Some e => (Raise e, w)
    | None =>
        if decide (is_Some (optimizations w !! new_oid env)) then
          (Raise (DuplicateKeyError "_id_" "_id" (new_oid env)), w)
        else
          (Ok (new_oid env),
           set_optimizations
             (<[new_oid env :=
                  OptDoc.set_created_at
                    (bson_datetime (OptDoc.created_at doc)) doc]>
                (optimizations w))
             w)
    end.

(** [DeleteResult] *)
Record DeleteResult := { deleted_count : Z }.

(** [optimizations_collection.delete_one(q)] *)
Definition delete_one (q : query) : M DeleteResult :=
  fun w =>
    match optimizations w !! q_id q with
    | Some d =>
        if matches q d then
          (Ok {| deleted_count := 1 |},
           set_optimizations (delete (q_id q) (optimizations w)) w)
        else (Ok {| deleted_count := 0 |}, w)
    | None => (Ok {| deleted_count := 0 |}, w)
    end.

(** The update documents the code uses. *)
Inductive update :=
| SetName (n : string)       (* {"$set": {"name": n}} *)
| SetStarred (b : bool).     (* {"$set": {"starred": b}} *)

Definition apply_update (u : update) (d : OptDoc.t) : OptDoc.t :=
  match u with
  | SetName n => OptDoc.set_name n d
  | SetStarred b => OptDoc.set_starred b d
  end.

(** Whether the update changes the document: the server counts a matched
    document as modified only then. *)
Definition changes_doc (u : update) (d : OptDoc.t) : bool :=
  match u with
  | SetName n => negb (String.eqb (OptDoc.name d) n)
  | SetStarred b => negb (Bool.eqb (OptDoc.starred d) b)
  end.

(** [UpdateResult] *)
Record UpdateResult := { matched_count : Z; modified_count : Z }.

(** [optimizations_collection.update_one(q, u)] *)
Definition update_one (q : query) (u : update) : M UpdateResult :=
  fun w =>
    match optimizations w !! q_id q with
    | Some d =>
        if matches q d then
          (Ok {| matched_count := 1;
                 modified_count := if changes_doc u d then 1 else 0 |},
           set_optimizations
             (<[q_id q := apply_update u d]> (optimizations w)) w)
        else (Ok {| matched_count := 0; modified_count := 0 |}, w)
    | None => (Ok {| matched_count := 0; modified_count := 0 |}, w)
    end.

(** [optimizations_collection.find({"user_id": u})], in the order of the
    collection. *)
Definition find_by_user (u : string) (w : World) : list (string * OptDoc.t) :=
  filter (fun kv => OptDoc.user_id kv.2 = u) (map_to_list (optimizations w)).

(** [cursor.sort("created_at", DESCENDING)]; documents with equal dates
    keep the order of the cursor. *)
Definition newer_first (a b : string * OptDoc.t) : Prop :=
  OptDoc.created_at b.2 <= OptDoc.created_at a.2.

#[global] Instance newer_first_dec : RelDecision newer_first :=
  fun a b => decide (OptDoc.created_at b.2 <= OptDoc.created_at a.2).

Definition sort_created_at_desc (l : list (string * OptDoc.t))
  : list (string * OptDoc.t) :=
  merge_sort newer_first l.

(** One output row of the [$group] stage of [get_user_stats]. *)
Record StatsRow := MkRow
  { total : Z;
    level1_count : Z;
    level2_count : Z;
    starred_count : Z;
    last_active : option datetime }.

(** [{"$max": "$created_at"}]: null sorts below every date. *)
Definition acc_max (a : option datetime) (t : datetime) : option datetime :=
  match a with
  | None => Some t
  | Some m => Some (Z.max m t)
  end.

(** The accumulators of the [$group] stage, applied to one document. *)
Definition group_step (r : StatsRow) (d : OptDoc.t) : StatsRow :=
  MkRow (total r + 1)
        (level1_count r + (if String.eqb (OptDoc.level d) "level1" then 1 else 0))
        (level2_count r + (if String.eqb (OptDoc.level d) "level2" then 1 else 0))
        (starred_count r + (if OptDoc.starred d then 1 else 0))
        (acc_max (last_active r) (OptDoc.created_at d)).

Definition group_init : StatsRow := MkRow 0 0 0 0 None.

(** [{"$group": {"_id": None, ...}}]: one row for all the documents that
    reach the stage, and no row when none does. *)
Definition group_all (docs : list OptDoc.t) : list StatsRow :=
  match docs with
  | [] => []
  | _ => [fold_left group_step docs group_init]
  end.

(** [optimizations_collection.aggregate([{"$match": {"user_id": u}},
    {"$group": ...}])] *)
Definition aggregate (u : string) : M (list StatsRow) :=
  gets (fun w => group_all (snd <$> find_by_user u w)).

End Mongo.
Import Mongo.

(* ===================================================================== *)
(** * The libraries the program imports                                   *)
(* ===================================================================== *)

(** The payload [_make_token] signs. *)
Module Payload.
Record t := Make
  { sub : json; name : json; email : json; iat : datetime; exp : datetime }.
End Payload.

(** Functions of bcrypt, PyJWT, datetime and of the optimizer
    ([core.pipeline], an opaque collaborator), which the embedding calls
    and does not look into, and [str.lower], whose table of the letters
    of Unicode is not written out. The functions of bcrypt take bytes and
    may raise (a password over 72 bytes with bcrypt 5, a salt or a hash
    it cannot read). *)
Class Libs := MkLibs
  { (* bcrypt.hashpw(password, salt).decode() *)
    bcrypt_hashpw : string -> string -> result string;
    (* bcrypt.checkpw(password, hashed) *)
    bcrypt_checkpw : string -> string -> result bool;
    (* pyjwt.encode(payload, JWT_SECRET, algorithm=JWT_ALGO) *)
    jwt_encode : Payload.t -> string;
    (* _run_async(run_pipeline(code, level)) *)
    run_pipeline : string -> string -> result dict;
    (* t.isoformat() *)
    isoformat : datetime -> string;
    (* t.strftime('%d %b %Y, %H:%M') *)
    strftime_name : datetime -> string;
    (* s.lower() *)
    str_lower : string -> string;
    (* only the empty string has an empty lowercase form *)
    str_lower_empty : forall s, str_lower s = EmptyString <-> s = EmptyString }.

(* ===================================================================== *)
(** * database.py                                                         *)
(* ===================================================================== *)

Module database.
Section database.
Context `{Libs}.
Local Open Scope py_scope.

(** [_serialize_user(doc)] for a document; [_id] is kept apart from the
    other fields of the document. *)
Definition _serialize_user_dict (oid : string) (d : UserDoc.t) : dict :=
  [("_id", JStr oid);
   ("name", JStr (UserDoc.name d));
   ("email", JStr (UserDoc.email d));
   ("created_at", JStr (isoformat (UserDoc.created_at d)))].

(** [_serialize_user(doc)], [doc] being a document or [None]. *)
Definition _serialize_user (doc : option (string * UserDoc.t)) : json :=
  match doc with
  | None => JNull
  | Some (oid, d) => JObj (_serialize_user_dict oid d)
  end.

(** [_serialize_optimization(doc)] for a document. *)
Definition _serialize_optimization_dict (oid : string) (d : OptDoc.t) : dict :=
  [("_id", JStr oid);
   ("user_id", JStr (OptDoc.user_id d));
   ("name", JStr (OptDoc.name d));
   ("original_code", OptDoc.original_code d);
   ("optimized_code", OptDoc.optimized_code d);
   ("level", JStr (OptDoc.level d));
   ("changes", OptDoc.changes d);
   ("original_analysis", OptDoc.original_analysis d);
   ("optimized_analysis", OptDoc.optimized_analysis d);
   ("error", OptDoc.error d);
   ("starred", JBool (OptDoc.starred d));
   ("created_at", JStr (isoformat (OptDoc.created_at d)))].

(** [_serialize_optimization(doc)], [doc] being a document or [None]. *)
Definition _serialize_optimization (doc : option (string * OptDoc.t)) : json :=
  match doc with
  | None => JNull
  | Some (oid, d) => JObj (_serialize_optimization_dict oid d)
  end.

Definition create_user (name email hashed_password : string) (env : Env)
  : M dict :=
  let doc := UserDoc.Make name (strip (str_lower email)) hashed_password
                          (utcnow env 0) in
  inserted_id <- users_insert_one env doc ;;
  ret (_serialize_user_dict inserted_id doc).

Definition find_user_by_email (email : string)
  : M (option (string * UserDoc.t)) :=
  users_find_one_by_email (strip (str_lower email)).

Definition find_user_by_id (user_id : string) : M json :=
  oid <- lift (ObjectId user_id) ;;
  doc <- users_find_one_by_id oid ;;
  ret (_serialize_user doc).

Definition save_optimization
    (user_id : string) (original_code optimized_code : json) (level : string)
    (changes original_analysis optimized_analysis error : json) (env : Env)
  : M dict :=
  let name := "Session · " ++ strftime_name (utcnow env 0) in
  let doc := OptDoc.Make user_id name original_code optimized_code level
                         changes original_analysis optimized_analysis error
                         false (utcnow env 1) in
  inserted_id <- insert_one env doc ;;
  ret (_serialize_optimization_dict inserted_id doc).

Definition get_user_optimizations (user_id : string) : M (list json) :=
  cursor <- gets (fun w => sort_created_at_desc (find_by_user user_id w)) ;;
  ret ((fun doc => _serialize_optimization (Some doc)) <$> cursor).

Definition get_optimization_by_id (optimization_id user_id : string) : M json :=
  oid <- lift (ObjectId optimization_id) ;;
  doc <- find_one (Query oid (Some user_id)) ;;
  ret (_serialize_optimization ((fun d => (oid, d)) <$> doc)).

Definition delete_optimization (optimization_id user_id : string) : M bool :=
  oid <- lift (ObjectId optimization_id) ;;
  result <- delete_one (Query oid (Some user_id)) ;;
  ret (0 <? deleted_count result).

Definition rename_optimization (optimization_id user_id new_name : string)
  : M bool :=
  oid <- lift (ObjectId optimization_id) ;;
  result <- update_one (Query oid (Some user_id)) (SetName new_name) ;;
  ret (0 <? modified_count result).

Definition toggle_star (optimization_id user_id : string) : M (option bool) :=
  oid <- lift (ObjectId optimization_id) ;;
  doc <- find_one (Query oid (Some user_id)) ;;
  match doc with
  | None => ret None
  | Some d =>
      let new_val := negb (OptDoc.starred d) in
      oid' <- lift (ObjectId optimization_id) ;;
      _ <- update_one (Query oid' None) (SetStarred new_val) ;;
      ret (Some new_val)
  end.

Definition get_user_stats (user_id : string) : M dict :=
  results <- aggregate user_id ;;
  match results with
  | [] =>
      ret [("total", JNum 0); ("level1_count", JNum 0);
           ("level2_count", JNum 0); ("starred_count", JNum 0);
           ("last_active", JNull)]
  | row :: _ =>
      ret [("total", JNum (total row));
           ("level1_count", JNum (level1_count row));
           ("level2_count", JNum (level2_count row));
           ("starred_count", JNum (starred_count row));
           ("last_active",
            match last_active row with
            | Some t => JStr (isoformat t)
            | None => JNull
            end)]
  end.

End database.
End database.
Import database.

(* ===================================================================== *)
(** * app.py                                                              *)
(* ===================================================================== *)

Module app.
Section app.
Context `{Libs}.
Local Open Scope py_scope.

(** What a route returns: [jsonify(body), status]. *)
Record Response := MkResponse { body : json; status : Z }.

(** [timedelta(days=7)], in microseconds. *)
Definition JWT_EXPIRES : Z := 7 * 86400 * 1000000.

Definition VALID_LEVELS : list string := ["none"; "level1"; "level2"].

Definition _LEVEL_ALIASES : list (string * string) :=
  [("LEVEL_1", "level1"); ("LEVEL_2", "level2");
   ("level_1", "level1"); ("level_2", "level2")].

Definition _error (message : string) (status : Z) : Response :=
  MkResponse (JObj [("error", JStr message)]) status.

Definition _make_token (user_id name email : json) (env : Env) : string :=
  jwt_encode (Payload.Make user_id name email
                           (now_utc env 0) (now_utc env 1 + JWT_EXPIRES)).

(** The attributes [require_auth] stores on [flask.g] once the token is
    decoded: the authenticated identity of the request. *)
Record G := MkG { user_id : string; user_name : json; user_email : json }.

(** [(body.get(key, "") or "").strip()] *)
Definition field (body : json) (key : string) : Py.result string :=
  match get body key (JStr "") with
  | Ok v => strip_ (or_ v (JStr ""))
  | Raise e => Raise e
  end.

(** [k in _LEVEL_ALIASES] / [_LEVEL_ALIASES[k]] for a string key. *)
Fixpoint alias_lookup (k : string) (l : list (string * string))
  : option string :=
  match l with
  | [] => None
  | (a, c) :: l' => if String.eqb k a then Some c else alias_lookup k l'
  end.

(** [_LEVEL_ALIASES.get(v, v)]: the key is hashed first; a key that is not
    a string equals none of the aliases. *)
Definition _LEVEL_ALIASES_get (v : json) : result json :=
  if hashable v then
    Ok match v with
       | JStr s =>
           match alias_lookup s _LEVEL_ALIASES with
           | Some c => JStr c
           | None => v
           end
       | _ => v
       end
  else Raise (TypeError_unhashable v).

Definition str_in (s : string) (l : list string) : bool :=
  existsb (String.eqb s) l.

(** [bcrypt.hashpw(password.encode(), salt).decode()] *)
Definition hashpw (password salt : string) : Py.result string :=
  match encode password with
  | Ok password_bytes => bcrypt_hashpw password_bytes salt
  | Raise e => Raise e
  end.

(** [bcrypt.checkpw(password.encode(), hashed.encode())] *)
Definition checkpw (password hashed : string) : Py.result bool :=
  match encode password with
  | Ok password_bytes =>
      match encode hashed with
      | Ok hashed_bytes => bcrypt_checkpw password_bytes hashed_bytes
      | Raise e => Raise e
      end
  | Raise e => Raise e
  end.

(** POST /api/auth/register; [body] is the value of
    [request.get_json(force=True, silent=True)], [JNull] when the request
    body does not parse. *)
Definition register (body : json) (env : Env) : M Response :=
  let body := or_ body (JObj []) in
  name <- lift (field body "name") ;;
  email <- lift (field body "email") ;;
  let email := str_lower email in
  password <- lift (field body "password") ;;
  if is_empty name || is_empty email || is_empty password then
    ret (_error "name, email and password are all required" 400)
  else if (len password <? 6)%nat then
    ret (_error "Password must be at least 6 characters" 400)
  else
    hashed <- lift (hashpw password (gensalt env)) ;;
    r <- try_except
           (user <- create_user name email hashed env ;; ret (inl user))
           (fun e =>
              if contains "duplicate" (str_lower (exn_str e))
                 || contains "11000" (exn_str e) then
                ret (inr (_error "An account with that email already exists"
                                 409))
              else
                print_exc e ;;
                ret (inr (_error "Could not create account" 500))) ;;
    match r with
    | inr resp => ret resp
    | inl user =>
        let token := _make_token (dict_get user "_id" JNull)
                                 (dict_get user "name" JNull)
                                 (dict_get user "email" JNull) env in
        ret (MkResponse (JObj [("token", JStr token); ("user", JObj user)])
                        201)
    end.

(** POST /api/auth/login *)
Definition login (body : json) (env : Env) : M Response :=
  let body := or_ body (JObj []) in
  email <- lift (field body "email") ;;
  let email := str_lower email in
  password <- lift (field body "password") ;;
  if is_empty email || is_empty password then
    ret (_error "email and password are required" 400)
  else
    user_doc <- find_user_by_email email ;;
    match user_doc with
    | None => ret (_error "Invalid email or password" 401)
    | Some (oid, doc) =>
        verified <- lift (checkpw password (UserDoc.password doc)) ;;
        if negb verified then
          ret (_error "Invalid email or password" 401)
        else
          let user := [("_id", JStr oid);
                       ("name", JStr (UserDoc.name doc));
                       ("email", JStr (UserDoc.email doc))] in
          let token := _make_token (JStr oid) (JStr (UserDoc.name doc))
                                   (JStr (UserDoc.email doc)) env in
          ret (MkResponse (JObj [("token", JStr token); ("user", JObj user)])
                          200)
    end.

(** GET /api/auth/me *)
Definition me (g : G) : M Response :=
  user <- find_user_by_id (user_id g) ;;
  if negb (truthy user) then ret (_error "User not found" 404)
  else ret (MkResponse (JObj [("user", user)]) 200).

(** The change list [analyse] saves for a level: its [if]/[elif]/[else]
    on [optimization_level]. *)
Definition changes_for (optimization_level : string) (result : dict)
  : Py.result json :=
  if String.eqb optimization_level "level1" then
    Ok (dict_get result "l1_changes" (JArr []))
  else if String.eqb optimization_level "level2" then
    get (dict_get result "l2" (JObj [])) "changes_applied" (JArr [])
  else Ok (JArr []).

(** POST /api/analyse *)
Definition analyse (body : json) (g : G) (env : Env) : M Response :=
  match body with
  | JNull => ret (_error "Request body must be valid JSON" 400)
  | _ =>
    code <- lift (get body "code" (JStr "")) ;;
    match code with
    | JStr code_s =>
      if is_empty (strip code_s) then
        ret (_error "'code' field is required and must be a non-empty string"
                    400)
      else
        optimization_level <-
          lift (get body "optimization_level" (JStr "none")) ;;
        optimization_level <- lift (_LEVEL_ALIASES_get optimization_level) ;;
        match optimization_level with
        | JStr level =>
          if negb (str_in level VALID_LEVELS) then
            ret (_error ("'optimization_level' must be one of: "
                         ++ "['level1', 'level2', 'none']") 400)
          else
            r <- try_except
                   (result <- lift (run_pipeline code_s level) ;;
                    ret (inl result))
                   (fun e =>
                      print_exc e ;;
                      ret (inr (_error ("Internal server error — check "
                                        ++ "server logs for details.") 500))) ;;
            match r with
            | inr resp => ret resp
            | inl result =>
              session_id <-
                (if truthy (dict_get result "passed_error_check" JNull) then
                   changes <- lift (changes_for level result) ;;
                   try_except
                     (saved <- save_optimization
                                 (user_id g)
                                 (dict_get result "original_code" (JStr ""))
                                 (dict_get result "optimized_code" (JStr ""))
                                 level
                                 changes
                                 (or_ (dict_get result "original_analysis"
                                                JNull) (JObj []))
                                 (or_ (dict_get result "optimized_analysis"
                                                JNull) (JObj []))
                                 (dict_get result "error" JNull)
                                 env ;;
                      ret (dict_get saved "_id" JNull))
                     (fun e => print_exc e ;; ret JNull)
                 else ret JNull) ;;
              ret (MkResponse (JObj (dict_set "session_id" session_id result))
                              200)
            end
        | _ =>
          ret (_error ("'optimization_level' must be one of: "
                       ++ "['level1', 'level2', 'none']") 400)
        end
    | _ =>
      ret (_error "'code' field is required and must be a non-empty string"
                  400)
    end
  end.

(** GET /api/history *)
Definition get_history (g : G) : M Response :=
  sessions <- get_user_optimizations (user_id g) ;;
  ret (MkResponse (JObj [("sessions", JArr sessions)]) 200).

(** DELETE /api/history/<session_id> *)
Definition delete_session (session_id : string) (g : G) : M Response :=
  success <- delete_optimization session_id (user_id g) ;;
  if negb success then ret (_error "Session not found or not yours" 404)
  else ret (MkResponse (JObj [("deleted", JBool true)]) 200).

(** PATCH /api/history/<session_id>/rename *)
Definition rename_session (session_id : string) (body : json) (g : G)
  : M Response :=
  let body := or_ body (JObj []) in
  new_name <- lift (field body "name") ;;
  if is_empty new_name then ret (_error "'name' is required" 400)
  else
    success <- rename_optimization session_id (user_id g) new_name ;;
    if negb success then ret (_error "Session not found or not yours" 404)
    else ret (MkResponse (JObj [("renamed", JBool true)]) 200).

(** PATCH /api/history/<session_id>/star *)
Definition star_session (session_id : string) (g : G) : M Response :=
  new_val <- toggle_star session_id (user_id g) ;;
  match new_val with
  | None => ret (_error "Session not found or not yours" 404)
  | Some b => ret (MkResponse (JObj [("starred", JBool b)]) 200)
  end.

(** GET /api/profile/stats *)
Definition profile_stats (g : G) : M Response :=
  stats <- get_user_stats (user_id g) ;;
  ret (MkResponse (JObj [("stats", JObj stats)]) 200).

(** GET /api/health *)
Definition health : M Response :=
  ret (MkResponse (JObj [("status", JStr "ok")]) 200).

(** What Flask sends when a view raises: the view's response, or the
    "500 Internal Server Error" page for an exception the view let
    through. *)
Definition flask (view : M Response) (w : World) : Response * World :=
  match view w with
  | (Ok resp, w') => (resp, w')
  | (Raise _, w') => (MkResponse (JStr "Internal Server Error") 500, w')
  end.

End app.
End app.
Import app.

(* ===================================================================== *)
(** * The server as a transition system                                   *)
(* ===================================================================== *)

Module Server.
Section Server.
Context `{Libs}.

(** A request to one of the routes; the routes behind [require_auth]
    carry the identity the decorator extracted from the token. *)
Inductive request :=
| PostRegister (body : json)
| PostLogin (body : json)
| GetMe (g : G)
| PostAnalyse (body : json) (g : G)
| GetHistory (g : G)
| DeleteHistory (session_id : string) (g : G)
| PatchRename (session_id : string) (body : json) (g : G)
| PatchStar (session_id : string) (g : G)
| GetStats (g : G)
| GetHealth.

Definition view (r : request) (env : Env) : M Response :=
  match r with
  | PostRegister body => register body env
  | PostLogin body => login body env
  | GetMe g => me g
  | PostAnalyse body g => analyse body g env
  | GetHistory g => get_history g
  | DeleteHistory sid g => delete_session sid g
  | PatchRename sid body g => rename_session sid body g
  | PatchStar sid g => star_session sid g
  | GetStats g => profile_stats g
  | GetHealth => health
  end.

Definition empty_world : World := MkWorld ∅ ∅ [].

(** The worlds the server can be in: it starts on empty collections and
    serves requests one after the other. *)
Inductive reachable : World -> Prop :=
| reachable_init : reachable empty_world
| reachable_step w r env :
    reachable w -> reachable (flask (view r env) w).2.

(** The worlds the server can be in once it has been in [w], after any
    number of further requests. *)
Inductive later (w : World) : World -> Prop :=
| later_now : later w w
| later_step w' r env :
    later w w' -> later w (flask (view r env) w').2.

End Server.
End Server.
Import Server.

(* ===================================================================== *)
(** * Concurrent star toggles                                             *)
(* ===================================================================== *)

Module Interleaving.
Section Interleaving.
Local Open Scope py_scope.

(** A request inside [toggle_star]. Each pymongo call is one atomic
    operation of the server on one document; between [find_one] and
    [update_one] the request only holds the value it computed. *)
Inductive thread :=
| Start (optimization_id user_id : string)
| Found (optimization_id : string) (new_val : bool)
| Done (r : result (option bool)).

(** The next pymongo call of a request. *)
Definition step (t : thread) (w : World) : thread * World :=
  match t with
  | Start optimization_id user_id =>
      match (oid <- lift (ObjectId optimization_id) ;;
             find_one (Query oid (Some user_id))) w with
      | (Ok None, w') => (Done (Ok None), w')
      | (Ok (Some d), w') => (Found optimization_id (negb (OptDoc.starred d)), w')
      | (Raise e, w') => (Done (Raise e), w')
      end
  | Found optimization_id new_val =>
      match (oid' <- lift (ObjectId optimization_id) ;;
             update_one (Query oid' None) (SetStarred new_val)) w with
      | (Ok _, w') => (Done (Ok (Some new_val)), w')
      | (Raise e, w') => (Done (Raise e), w')
      end
  | Done r => (Done r, w)
  end.

(** A schedule names, step after step, the request that moves. *)
Fixpoint run (schedule : list nat) (ts : list thread) (w : World)
  : list thread * World :=
  match schedule with
  | [] => (ts, w)
  | i :: schedule' =>
      match ts !! i with
      | Some t => let '(t', w') := step t w in run schedule' (<[i := t']> ts) w'
      | None => run schedule' ts w
      end
  end.

(** The schedule that runs the requests to completion one at a time, in
    the given order. *)
Definition serial (order : list nat) : list nat :=
  order ≫= (fun i => [i; i]).

Definition is_done (t : thread) : bool :=
  match t with Done _ => true | _ => false end.

(** A run is linearizable when some order of the requests, each run to
    completion before the next starts, gives the same answers and the
    same final state. *)
Definition linearizable (schedule : list nat) (ts : list thread) (w : World)
  : Prop :=
  exists order, order ≡ₚ seq 0 (length ts)
                /\ run (serial order) ts w = run schedule ts w.

End Interleaving.
End Interleaving.
Import Interleaving.

(* ===================================================================== *)
(** * app.py: the [require_auth] decorator                                *)
(* ===================================================================== *)

Module auth.

(** The fields of a decoded payload the decorator reads. A token that
    verifies was signed with the secret by [_make_token], which puts the
    [_id] string of the user under [sub]. *)
Record Claims := MkClaims
  { claim_sub : option string;
    claim_name : option json;
    claim_email : option json }.

(** The outcome of [pyjwt.decode(token, JWT_SECRET, algorithms=[JWT_ALGO])]:
    the payload, or one of the two exceptions the decorator catches
    ([InvalidTokenError] stands for itself and its other subclasses). *)
Inductive decoded :=
| Decoded (payload : Claims)
| ExpiredSignatureError
| InvalidTokenError.

(** PyJWT's decoder, as an interface. *)
Class Jwt := MkJwt { jwt_decode : string -> decoded }.

Section auth.
Context `{Jwt}.
Local Open Scope py_scope.

(** [s.split(" ", 1)] *)
Fixpoint split_space_1 (s : string) : list string :=
  match s with
  | EmptyString => [EmptyString]
  | String c r =>
      if Ascii.eqb c " " then [EmptyString; r]
      else match split_space_1 r with
           | h :: t => String c h :: t
           | [] => [String c EmptyString]
           end
  end.

(** [l[1]] *)
Definition item_1 (l : list string) : result string :=
  match l !! 1%nat with
  | Some x => Ok x
  | None => Raise (Exn "IndexError" "list index out of range")
  end.

Definition KeyError (key : string) : exn :=
  Exn "KeyError" ("'" ++ key ++ "'").

(** [payload.get(key, default)], the key being one the record keeps. *)
Definition payload_get (v : option json) (default : json) : json :=
  match v with
  | Some x => x
  | None => default
  end.

(** [request.headers.get(name, default)], for the value of the header if
    the request has it. *)
Definition header_get (v : option string) (default : string) : string :=
  match v with
  | Some x => x
  | None => default
  end.

(** [require_auth(f)] called on a request: [authorization] is the
    Authorization header of the request, if it has one. *)
Definition require_auth (f : G -> M Response) (authorization : option string)
  : M Response :=
  let auth_header := header_get authorization "" in
  if negb (String.prefix "Bearer " auth_header) then
    ret (_error "Missing or invalid Authorization header" 401)
  else
    token <- lift (item_1 (split_space_1 auth_header)) ;;
    match jwt_decode token with
    | ExpiredSignatureError =>
        ret (_error "Token has expired — please log in again" 401)
    | InvalidTokenError => ret (_error "Invalid token" 401)
    | Decoded payload =>
        match claim_sub payload with
        | None => raise (KeyError "sub")
        | Some sub =>
            f (MkG sub (payload_get (claim_name payload) (JStr ""))
                       (payload_get (claim_email payload) (JStr "")))
        end
    end.

End auth.
End auth.
Import auth.

(* ===================================================================== *)
(** * Vocabulary of the specification                                     *)
(* ===================================================================== *)

Section Vocabulary.
Context `{Libs}.

(** The error a history route answers when the record is missing or
    belongs to someone else. *)
Definition NotFoundOrForbidden : Response :=
  _error "Session not found or not yours" 404.

(** The store once the flag of a record has been written. *)
Definition with_starred (oid : string) (b : bool) (d : OptDoc.t) (w : World)
  : World :=
  set_optimizations (<[oid := OptDoc.set_starred b d]> (optimizations w)) w.

(** The number of records of a list that satisfy a condition. *)
Definition count_where (P : OptDoc.t -> Prop) `{forall d, Decision (P d)}
    (l : list OptDoc.t) : Z :=
  Z.of_nat (length (filter P l)).

(** [m] is the latest creation date among the records of [l]. *)
Definition latest (l : list OptDoc.t) (m : datetime) : Prop :=
  (exists d, d ∈ l /\ OptDoc.created_at d = m)
  /\ forall d, d ∈ l -> OptDoc.created_at d <= m.

(** The address the program keeps for the address [e] of a request:
    [register] and [login] trim and lowercase it, [create_user] and
    [find_user_by_email] lowercase and trim it again. *)
Definition stored_address (e : string) : string :=
  strip (str_lower (str_lower (strip e))).

(** Two addresses are case or surrounding-whitespace variants of each
    other when, trimmed and lowercased, they are the same string. *)
Definition email_variant (e e' : string) : Prop :=
  str_lower (strip e) = str_lower (strip e').

(** A string of whitespace characters only. *)
Inductive blank : string -> Prop :=
| blank_nil : blank ""
| blank_1 a s : is_space a = true -> blank s -> blank (String a s)
| blank_2 a b s :
    is_space2 a b = true -> blank s -> blank (String a (String b s))
| blank_3 a b c s :
    is_space3 a b c = true -> blank s ->
    blank (String a (String b (String c s))).

(** The same, for a string given last byte first. *)
Inductive blank_rev : string -> Prop :=
| blank_rev_nil : blank_rev ""
| blank_rev_1 a s : is_space a = true -> blank_rev s -> blank_rev (String a s)
| blank_rev_2 a b s :
    is_space2 a b = true -> blank_rev s -> blank_rev (String b (String a s))
| blank_rev_3 a b c s :
    is_space3 a b c = true -> blank_rev s ->
    blank_rev (String c (String b (String a s))).

(** The request body is a JSON object with the string [s] under [key]. *)
Definition carries (body : json) (key s : string) : Prop :=
  exists d, body = JObj d /\ dict_lookup key d = Some (JStr s).

(** Every address in the collection is the lowercased, trimmed form the
    program derives from an address it was given. *)
Definition normalized_emails (m : gmap string UserDoc.t) : Prop :=
  forall i d, m !! i = Some d -> exists e, UserDoc.email d = stored_address e.

(** No two users share an address. *)
Definition unique_emails (m : gmap string UserDoc.t) : Prop :=
  forall i j di dj,
    m !! i = Some di -> m !! j = Some dj ->
    UserDoc.email di = UserDoc.email dj -> i = j.

(** Both together: no two users share a normalized address. *)
Definition users_inv (m : gmap string UserDoc.t) : Prop :=
  normalized_emails m /\ unique_emails m.

(** A computation that leaves the [users] collection alone. *)
Definition keeps_users {A} (m : M A) : Prop :=
  forall w, users (m w).2 = users w.

(** A run of requests that toggle one record is serialized when it is
    linearizable: each toggle then reads what the one before it wrote. *)
Definition toggles_linearize : Prop :=
  forall w sid uid oid d schedule (n : nat),
    ObjectId sid = Ok oid ->
    optimizations w !! oid = Some d ->
    OptDoc.user_id d = uid ->
    let ts := replicate n (Start sid uid) in
    forallb is_done (run schedule ts w).1 = true ->
    linearizable schedule ts w.

(** The answer of the [k]-th of a series of toggles of a flag [s]. *)
Definition flipped (k : nat) (s : bool) : bool := Nat.iter k negb s.

End Vocabulary.

(* ===================================================================== *)
(** * Sample data                                                         *)
(* ===================================================================== *)

Module Sample.

(** What the stand-in for the optimizer returns. *)
Definition pipeline_result (code : string) : dict :=
  [("original_code", JStr code);
   ("optimized_code", JStr code);
   ("passed_error_check", JBool true);
   ("l1_changes", JArr [JStr "constant folding"]);
   ("l2", JObj [("changes_applied", JArr [JStr "loop unrolling"])])].

(** The decimal digit of [t] of weight [10^k]. *)
Definition digit (t : Z) (k : Z) : string :=
  String (ascii_of_nat (48 + Z.to_nat (t / 10 ^ k mod 10))) EmptyString.

(** [t.isoformat()] for a date within the first second of 1970. *)
Definition isoformat_1970 (t : datetime) : string :=
  if t mod 1000000 =? 0 then "1970-01-01T00:00:00"
  else "1970-01-01T00:00:00." ++ digit t 5 ++ digit t 4 ++ digit t 3
       ++ digit t 2 ++ digit t 1 ++ digit t 0.

(** What bcrypt 5 raises on a password of more than 72 bytes. *)
Definition too_long : exn :=
  Exn "ValueError"
      ("password cannot be longer than 72 bytes, truncate manually if "
       ++ "necessary (e.g. my_password[:72])").

(** A stand-in for [bcrypt.hashpw]: the hash is the salt followed by the
    password, left readable. *)
Definition hashpw (password salt : string) : result string :=
  if (72 <? String.length password)%nat then Raise too_long
  else Ok (salt ++ password).

(** A stand-in for [bcrypt.checkpw]: hashes again with the 7-character
    salt of the stored hash. *)
Definition checkpw (password hashed : string) : result bool :=
  if (72 <? String.length password)%nat then Raise too_long
  else Ok (String.eqb (substring 0 7 hashed ++ password) hashed).

(** [lower] keeps the law of [str.lower] the interface asks for. *)
Definition lower_is_empty (s : string)
  : lower s = EmptyString <-> s = EmptyString :=
  match s with
  | EmptyString => conj (fun _ => eq_refl) (fun _ => eq_refl)
  | String c r =>
      conj (fun h : lower (String c r) = EmptyString =>
              match h in _ = y
                    return match y with
                           | EmptyString => String c r = EmptyString
                           | String _ _ => True
                           end
              with eq_refl => I end)
           (fun h : String c r = EmptyString =>
              match h in _ = y
                    return match y with
                           | EmptyString => lower (String c r) = EmptyString
                           | String _ _ => True
                           end
              with eq_refl => I end)
  end.

(** Stand-ins for the imported libraries, to run the program on examples
    in ASCII dated within the first second of 1970. *)
Definition libs : Libs :=
  MkLibs hashpw checkpw
         (fun payload => "header.payload.signature")
         (fun code level => Ok (pipeline_result code))
         isoformat_1970
         (fun t => "01 Jan 1970, 00:00")
         lower lower_is_empty.

Definition env (oid : string) : Env :=
  MkEnv (fun _ => 600000) (fun _ => 600000) "$2b$12$" oid None.

Definition outage : exn :=
  Exn "ServerSelectionTimeoutError"
      "localhost:27017: [Errno 111] Connection refused".

(** The same, with a server that cannot be reached for the insert. *)
Definition env_down (oid : string) : Env :=
  MkEnv (fun _ => 600000) (fun _ => 600000) "$2b$12$" oid (Some outage).

Definition sid : string := "65a1b2c3d4e5f60718293a4b".

Definition session (owner : string) (level : string) (starred : bool)
    (created_at : datetime) : OptDoc.t :=
  OptDoc.Make owner "Session · 01 Jan 1970, 00:00" (JStr "x = 1 + 1")
              (JStr "x = 2") level (JArr []) (JObj []) (JObj []) JNull
              starred created_at.

(** A store with one session, owned by alice. *)
Definition world : World :=
  MkWorld ∅ {[ sid := session "alice" "level1" false 100000 ]} [].

(** The owner of the example of the aggregation: two level1 sessions, a
    level2 one and a starred one without optimization, and a session of
    somebody else. *)
Definition world_stats : World :=
  MkWorld ∅
          (list_to_map
             [("65a1b2c3d4e5f60718293a01", session "alice" "level1" false 100000);
              ("65a1b2c3d4e5f60718293a02", session "alice" "level1" false 400000);
              ("65a1b2c3d4e5f60718293a03", session "alice" "level2" false 300000);
              ("65a1b2c3d4e5f60718293a04", session "alice" "none" true 200000);
              ("65a1b2c3d4e5f60718293a05", session "bob" "level1" true 500000)])
          [].

Definition alice : G := MkG "alice" (JStr "Alice") (JStr "alice@x.com").

Definition registration (email : string) : json :=
  JObj [("name", JStr "Ada"); ("email", JStr email);
        ("password", JStr "secret1")].

(** The store once Ada has registered. *)
Definition world_ada : World :=
  (@register libs (registration "ada@x.com") (env sid) empty_world).2.

Definition ada : UserDoc.t :=
  UserDoc.Make "Ada" "ada@x.com" "$2b$12$secret1" 600000.

Definition credentials (email password : string) : json :=
  JObj [("email", JStr email); ("password", JStr password)].

Definition analysis_request : json :=
  JObj [("code", JStr "x = 1 + 1"); ("optimization_level", JStr "LEVEL_1")].

End Sample.

(* ===================================================================== *)
(** * Further vocabulary                                                  *)
(* ===================================================================== *)

Section MoreVocabulary.
Context `{Libs}.

(** What Flask answers for an exception a view lets through. *)
Definition InternalServerError : Response :=
  MkResponse (JStr "Internal Server Error") 500.

(** What [login] answers once it has found the user, by the outcome of
    [bcrypt.checkpw(password.encode(), user_doc["password"].encode())]:
    the token, which expires 7 days (604800000000 microseconds) after it
    is made, and the public fields of the user; the 401 of a failed
    login; or Flask's answer to the exception. *)
Definition login_answer (oid : string) (d : UserDoc.t) (env : Env)
    (verified : Py.result bool) : Response :=
  match verified with
  | Ok true =>
      MkResponse
        (JObj [("token",
                JStr (jwt_encode
                        (Payload.Make (JStr oid) (JStr (UserDoc.name d))
                                      (JStr (UserDoc.email d))
                                      (now_utc env 0)
                                      (now_utc env 1 + 604800000000))));
               ("user", JObj [("_id", JStr oid);
                              ("name", JStr (UserDoc.name d));
                              ("email", JStr (UserDoc.email d))])]) 200
  | Ok false =>
      MkResponse (JObj [("error", JStr "Invalid email or password")]) 401
  | Raise _ => MkResponse (JStr "Internal Server Error") 500
  end.


(** The store once a session is deleted. *)
Definition without_session (oid : string) (w : World) : World :=
  set_optimizations (delete oid (optimizations w)) w.

(** The store once a session is written under [oid]. *)
Definition with_session (oid : string) (d : OptDoc.t) (w : World) : World :=
  set_optimizations (<[oid := d]> (optimizations w)) w.

(** The store once a user is written under [oid]. *)
Definition with_user (oid : string) (d : UserDoc.t) (w : World) : World :=
  set_users (<[oid := d]> (users w)) w.

(** The store with one more line on standard error. *)
Definition with_traceback (e : exn) (w : World) : World :=
  MkWorld (users w) (optimizations w) (stderr w ++ [e]).

(** The two stores hold the same sessions of [u]. *)
Definition same_sessions_of (u : string) (w w' : World) : Prop :=
  forall oid d, OptDoc.user_id d = u ->
                (optimizations w !! oid = Some d
                 <-> optimizations w' !! oid = Some d).

(** A character [bytes.fromhex] neither reads as a digit nor skips as
    whitespace. *)
Definition not_hex_nor_blank (c : ascii) : bool :=
  let n := nat_of_ascii c in
  negb (is_hex c) && negb ((9 <=? n) && (n <=? 13) || (n =? 32))%nat.

Fixpoint has_stray_char (s : string) : bool :=
  match s with
  | EmptyString => false
  | String c r => not_hex_nor_blank c || has_stray_char r
  end.

(** A string [ObjectId] refuses: it has not 24 characters, or one of
    them is neither a hexadecimal digit nor whitespace. *)
Definition malformed_id (s : string) : Prop :=
  String.length s <> 24%nat \/ has_stray_char s = true.

(** One entry of the statistics of a user, as [get_user_stats] returns
    them. *)
Definition stat (key u : string) (w : World) : json :=
  match (get_user_stats u w).1 with
  | Ok stats => dict_get stats key JNull
  | Raise _ => JNull
  end.

(** The body of an analysis request passes the checks of [analyse]: it
    is an object with the non-blank string [code] under "code", and its
    level, the default "none" when absent, is or stands for the
    canonical [level]. *)
Definition valid_analysis (body : json) (code level : string) : Prop :=
  carries body "code" code
  /\ is_empty (strip code) = false
  /\ (exists d, body = JObj d
                /\ _LEVEL_ALIASES_get (dict_get d "optimization_level"
                                                (JStr "none"))
                   = Ok (JStr level))
  /\ str_in level VALID_LEVELS = true.

(** The session [analyse] saves for a pipeline result. *)
Definition session_of_result (uid level : string) (changes : json)
    (result : dict) (env : Env) : OptDoc.t :=
  OptDoc.Make uid ("Session · " ++ strftime_name (utcnow env 0))
              (dict_get result "original_code" (JStr ""))
              (dict_get result "optimized_code" (JStr ""))
              level changes
              (or_ (dict_get result "original_analysis" JNull) (JObj []))
              (or_ (dict_get result "optimized_analysis" JNull) (JObj []))
              (dict_get result "error" JNull)
              false (utcnow env 1).

End MoreVocabulary.

(* ===================================================================== *)
(** * Further sample data                                                 *)
(* ===================================================================== *)

Module MoreSamples.

(** The stand-ins of [Sample.libs] around another optimizer, with a
    token that is the subject itself, left readable. *)
Definition libs_with (pipeline : string -> string -> result dict) : Libs :=
  MkLibs Sample.hashpw Sample.checkpw
         (fun payload =>
            match Payload.sub payload with JStr s => s | _ => "" end)
         pipeline
         Sample.isoformat_1970
         (fun t => "01 Jan 1970, 00:00")
         lower Sample.lower_is_empty.

Definition libs : Libs := libs_with (fun code level => Ok (Sample.pipeline_result code)).

Definition crash : exn := Exn "RecursionError" "maximum recursion depth exceeded".

(** An optimizer that raises. *)
Definition libs_crashing : Libs := libs_with (fun code level => Raise crash).

Definition rejected_result (code : string) : dict :=
  [("original_code", JStr code);
   ("passed_error_check", JBool false);
   ("error", JStr "SyntaxError: invalid syntax")].

(** An optimizer whose result does not pass the error check. *)
Definition libs_rejecting : Libs :=
  libs_with (fun code level => Ok (rejected_result code)).

Definition result_without_l2 (code : string) : dict :=
  [("original_code", JStr code);
   ("passed_error_check", JBool true);
   ("l2", JNull)].

(** An optimizer that leaves "l2" null. *)
Definition libs_null_l2 : Libs :=
  libs_with (fun code level => Ok (result_without_l2 code)).

(** A decoder for the readable tokens of [libs_with]. *)
Definition jwt : Jwt :=
  MkJwt (fun token =>
           if String.eqb token "" then InvalidTokenError
           else if String.eqb token "expired" then ExpiredSignatureError
           else Decoded (MkClaims (Some token) None None)).

Definition other_sid : string := "65a1b2c3d4e5f60718293a4c".

(** Ada, once her token is decoded. *)
Definition ada_g : G := MkG Sample.sid (JStr "Ada") (JStr "ada@x.com").


(** What Ada's registration is answered. *)
Definition registered : Response :=
  MkResponse
    (JObj [("token", JStr "header.payload.signature");
           ("user", JObj [("_id", JStr Sample.sid);
                          ("name", JStr "Ada");
                          ("email", JStr "ada@x.com");
                          ("created_at",
                           JStr "1970-01-01T00:00:00.600000")])])
    201.

(** Ada's address in capitals, after a tab and before a no-break space
    (U+00A0). *)
Definition ada_variant : string :=
  String "009" "ADA@X.COM" ++ String "194" (String "160" EmptyString).

(** The store once Ada has registered and saved an analysis. *)
Definition world_ada_later : World :=
  (@flask (@analyse Sample.libs Sample.analysis_request ada_g
                    (Sample.env other_sid)) Sample.world_ada).2.

(** The lone surrogate U+D800, as [json.loads] reads it from the six
    characters of its escape. *)
Definition lone_surrogate : string :=
  String "237" (String "160" (String "128" EmptyString)).

(** A request served 600 milliseconds and 250 microseconds into 1970. *)
Definition env_micro (oid : string) : Env :=
  MkEnv (fun _ => 600250) (fun _ => 600250) "$2b$12$" oid None.

Definition letters_73 : string :=
  "aaaaaaaaaaaaaaaaaaaaaaaaaaaaaaaaaaaaaaaaaaaaaaaaaaaaaaaaaaaaaaaaaaaaaaaaa".

Definition analysis_request (level : string) : json :=
  JObj [("code", JStr "x = 1 + 1"); ("optimization_level", JStr level)].

End MoreSamples.

(* ===================================================================== *)
(** * Properties of the session store                                     *)
(* ===================================================================== *)

Section Properties.
Context `{Libs}.

Lemma set_optimizations_id w : set_optimizations (optimizations w) w = w.
Proof. by destruct w. Qed.

Lemma set_starred_id d : OptDoc.set_starred (OptDoc.starred d) d = d.
Proof. by destruct d. Qed.

Lemma set_starred_twice b b' d :
  OptDoc.set_starred b (OptDoc.set_starred b' d) = OptDoc.set_starred b d.
Proof. by destruct d. Qed.


(** The ways a query on [_id] and [user_id] can turn out. *)
Lemma find_one_owned w oid uid d :
  optimizations w !! oid = Some d -> OptDoc.user_id d = uid ->
  find_one (Query oid (Some uid)) w = (Ok (Some d), w).
Proof.
  intros Hd Hu. unfold find_one, gets; cbn. rewrite Hd.
  by rewrite bool_decide_eq_true_2.
Qed.

Lemma find_one_foreign w oid uid d :
  optimizations w !! oid = Some d -> OptDoc.user_id d <> uid ->
  find_one (Query oid (Some uid)) w = (Ok None, w).
Proof.
  intros Hd Hu. unfold find_one, gets; cbn. rewrite Hd.
  by rewrite bool_decide_eq_false_2.
Qed.

Lemma with_starred_lookup oid b d w :
  optimizations (with_starred oid b d w) !! oid
  = Some (OptDoc.set_starred b d).
Proof. unfold with_starred; cbn. apply lookup_insert_eq. Qed.

Lemma with_starred_same oid d w :
  optimizations w !! oid = Some d ->
  with_starred oid (OptDoc.starred d) d w = w.
Proof.
  intros Hd. unfold with_starred.
  rewrite set_starred_id, (insert_id _ _ _ Hd). apply set_optimizations_id.
Qed.

Lemma with_starred_again oid b b' d w :
  with_starred oid b' (OptDoc.set_starred b d) (with_starred oid b d w)
  = with_starred oid b' d w.
Proof.
  unfold with_starred; cbn. by rewrite insert_insert_eq, set_starred_twice.
Qed.

(** What [toggle_star] does on a record of the caller. *)
Lemma toggle_star_owned w sid oid uid d :
  ObjectId sid = Ok oid ->
  optimizations w !! oid = Some d -> OptDoc.user_id d = uid ->
  toggle_star sid uid w =
    (Ok (Some (negb (OptDoc.starred d))),
     with_starred oid (negb (OptDoc.starred d)) d w).
Proof.
  intros Hid Hd Hu. unfold toggle_star, bind, lift. rewrite Hid.
  rewrite (find_one_owned _ _ _ _ Hd Hu).
  unfold update_one; cbn. by rewrite Hd.
Qed.






(** C4. On a session of the caller, [toggle_star] reads the flag, writes
    its negation on the record and returns that new value. Two toggles
    in a row therefore return the negation and then the original value,
    and leave the store exactly as it was; a third one returns the
    negation again. *)
Theorem toggle_star_flips w sid oid d uid :
  ObjectId sid = Ok oid ->
  optimizations w !! oid = Some d ->
  OptDoc.user_id d = uid ->
  let s := OptDoc.starred d in
  let w1 := with_starred oid (negb s) d w in
  let toggle := toggle_star sid uid in
  toggle w = (Ok (Some (negb s)), w1)
  /\ optimizations w1 !! oid = Some (OptDoc.set_starred (negb s) d)
  /\ (a <- toggle ;; b <- toggle ;; ret (a, b))%py w
     = (Ok (Some (negb s), Some s), w)
  /\ (a <- toggle ;; b <- toggle ;; c <- toggle ;; ret (a, b, c))%py w
     = (Ok (Some (negb s), Some s, Some (negb s)), w1).
Proof.
  intros Hid Hd Hu s w1 toggle.
  assert (H1 : toggle w = (Ok (Some (negb s)), w1))
    by exact (toggle_star_owned _ _ _ _ _ Hid Hd Hu).
  assert (Hd1 : optimizations w1 !! oid = Some (OptDoc.set_starred (negb s) d))
    by apply with_starred_lookup.
  assert (H2 : toggle w1 = (Ok (Some s), w)).
  { unfold toggle.
    rewrite (toggle_star_owned w1 sid oid uid _ Hid Hd1) by (by destruct d).
    change (OptDoc.starred (OptDoc.set_starred (negb s) d)) with (negb s).
    rewrite negb_involutive. f_equal.
    unfold w1. rewrite with_starred_again. by apply with_starred_same. }
  repeat split; try assumption.
  - unfold bind. rewrite H1, H2. reflexivity.
  - unfold bind. rewrite H1, H2, H1. reflexivity.
Qed.


(** ** Aggregate statistics *)

Lemma find_by_user_spec w uid oid d :
  (oid, d) ∈ find_by_user uid w
  <-> optimizations w !! oid = Some d /\ OptDoc.user_id d = uid.
Proof.
  unfold find_by_user. rewrite list_elem_of_filter, elem_of_map_to_list.
  cbn. tauto.
Qed.

Lemma find_by_user_NoDup w uid : NoDup (find_by_user uid w).*1.
Proof.
  unfold find_by_user.
  apply (sublist_NoDup _ (map_to_list (optimizations w)).*1).
  - apply NoDup_fst_map_to_list.
  - apply fmap_sublist, sublist_filter.
Qed.

Lemma fold_acc_max_Some l m :
  exists m', fold_left acc_max l (Some m) = Some m'
             /\ m <= m'
             /\ (forall t, t ∈ l -> t <= m')
             /\ (m' = m \/ m' ∈ l).
Proof.
  revert m. induction l as [|t l IH]; intros m; cbn.
  - exists m. repeat split; [lia | | by left].
    intros t Ht. by apply elem_of_nil in Ht.
  - destruct (IH (Z.max m t)) as (m' & Hf & Hle & Hall & Hin).
    exists m'. repeat split; [done | lia | |].
    + intros t' [->|Ht']%elem_of_cons; [lia | by apply Hall].
    + destruct Hin as [->|Hin].
      * destruct (Z.max_spec m t) as [[_ ->]|[_ ->]];
          [right; apply elem_of_cons; by left | by left].
      * right. apply elem_of_cons. by right.
Qed.

Lemma group_fold l r :
  fold_left group_step l r
  = MkRow (total r + Z.of_nat (length l))
          (level1_count r
           + Z.of_nat (length (filter (fun d => OptDoc.level d = "level1") l)))
          (level2_count r
           + Z.of_nat (length (filter (fun d => OptDoc.level d = "level2") l)))
          (starred_count r
           + Z.of_nat (length (filter (fun d => OptDoc.starred d = true) l)))
          (fold_left acc_max (OptDoc.created_at <$> l) (last_active r)).
Proof.
  revert r. induction l as [|d l IH]; intros r.
  - destruct r; cbn. f_equal; lia.
  - cbn [fold_left]. rewrite IH. rewrite !filter_cons. cbn.
    f_equal.
    + lia.
    + destruct (String.eqb_spec (OptDoc.level d) "level1");
        case_decide; try done; cbn; lia.
    + destruct (String.eqb_spec (OptDoc.level d) "level2");
        case_decide; try done; cbn; lia.
    + destruct (OptDoc.starred d); case_decide; try done; cbn; lia.
Qed.

(** C2. [get_user_stats] counts the records of the owner: [total] is
    their number, [level1_count] and [level2_count] the number of those
    whose level is "level1" and "level2", [starred_count] the number of
    starred ones, and [last_active] the latest [created_at] among them
    (a date of one of them that none exceeds), in ISO format. An owner
    with no record gets zeros and a null [last_active], not an error.
    The records counted are exactly the documents of the collection
    whose [user_id] is the owner, each once. The store is not changed. *)
Theorem get_user_stats_correct w uid :
  let owned := (find_by_user uid w).*2 in
  (forall oid d, (oid, d) ∈ find_by_user uid w
                 <-> optimizations w !! oid = Some d
                     /\ OptDoc.user_id d = uid)
  /\ NoDup (find_by_user uid w).*1
  /\ exists last,
      get_user_stats uid w
      = (Ok [("total", JNum (Z.of_nat (length owned)));
             ("level1_count", JNum (count_where (fun d => OptDoc.level d = "level1") owned));
             ("level2_count", JNum (count_where (fun d => OptDoc.level d = "level2") owned));
             ("starred_count", JNum (count_where (fun d => OptDoc.starred d = true) owned));
             ("last_active", last)], w)
      /\ (owned = [] -> last = JNull)
      /\ (owned <> [] -> exists m, last = JStr (isoformat m) /\ latest owned m).
Proof.
  intros owned. split; [intros; apply find_by_user_spec|].
  split; [apply find_by_user_NoDup|].
  unfold get_user_stats, bind, aggregate, gets, group_all.
  fold owned. destruct owned as [|d l] eqn:Ho.
  - exists JNull. cbn. split; [reflexivity|]. split; [reflexivity|].
    intros []; reflexivity.
  - rewrite group_fold. cbn [total level1_count level2_count starred_count
                              last_active group_init fmap list_fmap fold_left
                              acc_max Z.add].
    destruct (fold_acc_max_Some (OptDoc.created_at <$> l) (OptDoc.created_at d))
      as (m & Hf & Hle & Hall & Hin).
    change (list_fmap _ _ OptDoc.created_at l) with (OptDoc.created_at <$> l).
    rewrite Hf. exists (JStr (isoformat m)). split; [|split].
    + reflexivity.
    + discriminate.
    + intros _. exists m. split; [reflexivity|]. split.
      * destruct Hin as [->|Hin].
        -- exists d. split; [apply elem_of_cons; by left | done].
        -- apply list_elem_of_fmap in Hin as (d' & -> & Hd').
           exists d'. split; [apply elem_of_cons; by right | done].
      * intros d' [->|Hd']%elem_of_cons; [done|].
        apply Hall. apply list_elem_of_fmap. by exists d'.
Qed.

(** ** Normalisation of e-mail addresses *)

Lemma is_empty_true s : is_empty s = true <-> s = "".
Proof. unfold is_empty. apply String.eqb_eq. Qed.

Lemma is_empty_false s : is_empty s = false <-> s <> "".
Proof. unfold is_empty. apply String.eqb_neq. Qed.

Lemma is_empty_str_lower s : is_empty (str_lower s) = is_empty s.
Proof.
  unfold is_empty.
  destruct (String.eqb_spec s "") as [->|Hs].
  - apply String.eqb_eq. by apply (proj2 (str_lower_empty _)).
  - apply String.eqb_neq. intros He. by apply (proj1 (str_lower_empty _)) in He.
Qed.

(** Variants of an address are kept as the same address. *)
Lemma variant_stored e e' :
  email_variant e e' -> stored_address e = stored_address e'.
Proof. unfold email_variant, stored_address. by intros ->. Qed.

(** A string has at most as many characters as bytes. *)
Lemma len_le_length s : (len s <= String.length s)%nat.
Proof.
  induction s as [|c s IH]; cbn [len String.length]; [lia|].
  destruct (is_continuation c); lia.
Qed.

Lemma len_empty s : (0 < len s)%nat -> s <> "".
Proof. intros Hl ->. cbn in Hl. lia. Qed.


(** ** Who writes the [users] collection *)

Lemma keeps_ret {A} (a : A) : keeps_users (ret a).
Proof. by intros w. Qed.

Lemma keeps_raise {A} e : keeps_users (@raise A e).
Proof. by intros w. Qed.

Lemma keeps_lift {A} (r : result A) : keeps_users (lift r).
Proof. by intros w. Qed.

Lemma keeps_gets {A} (f : World -> A) : keeps_users (gets f).
Proof. by intros w. Qed.

Lemma keeps_bind {A B} (m : M A) (k : A -> M B) :
  keeps_users m -> (forall a, keeps_users (k a)) -> keeps_users (bind m k).
Proof.
  intros Hm Hk w. unfold bind. specialize (Hm w).
  destruct (m w) as [[a|e] w']; cbn in *; [|done].
  by rewrite Hk.
Qed.

Lemma keeps_try_except {A} (m : M A) (h : exn -> M A) :
  keeps_users m -> (forall e, keeps_users (h e)) ->
  keeps_users (try_except m h).
Proof.
  intros Hm Hh w. unfold try_except. specialize (Hm w).
  destruct (m w) as [[a|e] w']; cbn in *; [done|].
  by rewrite Hh.
Qed.

Lemma keeps_print_exc e : keeps_users (print_exc e).
Proof. by intros w. Qed.

Lemma keeps_find_one q : keeps_users (find_one q).
Proof. by intros w. Qed.

Lemma keeps_aggregate u : keeps_users (aggregate u).
Proof. by intros w. Qed.

Lemma keeps_users_find_one_by_email e : keeps_users (users_find_one_by_email e).
Proof. by intros w. Qed.

Lemma keeps_users_find_one_by_id o : keeps_users (users_find_one_by_id o).
Proof. by intros w. Qed.

Lemma keeps_insert_one env d : keeps_users (insert_one env d).
Proof.
  intros w. unfold insert_one.
  destruct (server_error env); [done|]. by case_decide.
Qed.

Lemma keeps_delete_one q : keeps_users (delete_one q).
Proof.
  intros w. unfold delete_one.
  destruct (optimizations w !! q_id q); [|done]. by destruct (matches q _).
Qed.

Lemma keeps_update_one q u : keeps_users (update_one q u).
Proof.
  intros w. unfold update_one.
  destruct (optimizations w !! q_id q); [|done]. by destruct (matches q _).
Qed.

Create HintDb keeps.
#[local] Hint Resolve keeps_ret keeps_raise keeps_lift keeps_gets
  keeps_print_exc keeps_find_one keeps_aggregate
  keeps_users_find_one_by_email keeps_users_find_one_by_id
  keeps_insert_one keeps_delete_one keeps_update_one : keeps.

(** Decompose a computation along its binds, handlers and branches. *)
Ltac keeps :=
  repeat first
    [ progress auto with keeps
    | apply keeps_bind
    | apply keeps_try_except
    | match goal with
      | |- forall _, _ => intro
      | |- keeps_users (match ?x with _ => _ end) => destruct x
      | |- keeps_users (let _ := _ in _) => cbv zeta
      end ].

Lemma keeps_login body env : keeps_users (login body env).
Proof. unfold login, find_user_by_email. keeps. Qed.

Lemma keeps_me g : keeps_users (me g).
Proof. unfold me, find_user_by_id. keeps. Qed.

Lemma keeps_analyse body g env : keeps_users (analyse body g env).
Proof. unfold analyse, save_optimization. keeps. Qed.

Lemma keeps_get_history g : keeps_users (get_history g).
Proof. unfold get_history, get_user_optimizations. keeps. Qed.

Lemma keeps_delete_session sid g : keeps_users (delete_session sid g).
Proof. unfold delete_session, delete_optimization. keeps. Qed.

Lemma keeps_rename_session sid body g : keeps_users (rename_session sid body g).
Proof. unfold rename_session, rename_optimization. keeps. Qed.

Lemma keeps_star_session sid g : keeps_users (star_session sid g).
Proof. unfold star_session, toggle_star. keeps. Qed.

Lemma keeps_profile_stats g : keeps_users (profile_stats g).
Proof. unfold profile_stats, get_user_stats. keeps. Qed.

Lemma flask_world view w : (flask view w).2 = (view w).2.
Proof. unfold flask. by destruct (view w) as [[r|e] w']. Qed.

Lemma flask_status_ok view w resp w' :
  view w = (Ok resp, w') -> flask view w = (resp, w').
Proof. unfold flask. by intros ->. Qed.

(** ** Registration *)

Lemma field_carries body key s :
  carries body key s -> field (or_ body (JObj [])) key = Ok (strip s).
Proof.
  intros (d & -> & Hk). unfold field, or_, get, dict_get.
  destruct d as [|kv d]; [discriminate Hk|]. cbn [truthy]. rewrite Hk.
  cbn. by destruct (String.eqb_spec s "") as [->|].
Qed.

(** What a route reads from a field is trimmed. *)
Lemma field_stripped body key e :
  field body key = Ok e -> exists raw, e = strip raw.
Proof.
  unfold field. destruct (get body key _) as [v|]; [|done].
  unfold strip_. destruct (or_ v _); try done. intros [= <-]. eauto.
Qed.

(** The answer at hand is not a 201. *)
Ltac not_created :=
  let Hr := fresh in
  intros ? Hr; cbn in Hr; try discriminate Hr; injection Hr as <-; by cbn.

(** The two ways a registration can end: nothing is written and the
    answer is not 201, or the user is inserted under a fresh [_id] with
    an address no stored user has and the hash bcrypt made of the
    password. *)
Lemma register_cases body env w :
  let b := or_ body (JObj []) in
  (users (register body env w).2 = users w
   /\ forall resp, (register body env w).1 = Ok resp -> status resp <> 201)
  \/ (exists n e p h,
        field b "name" = Ok n /\ field b "email" = Ok e
        /\ field b "password" = Ok p
        /\ hashpw p (gensalt env) = Ok h
        /\ is_empty (str_lower e) = false
        /\ users w !! new_oid env = None
        /\ ~ map_Exists
               (fun _ d => UserDoc.email d = strip (str_lower (str_lower e)))
               (users w)
        /\ users (register body env w).2
           = <[new_oid env :=
                 UserDoc.Make n (strip (str_lower (str_lower e))) h
                              (bson_datetime (utcnow env 0))]>
               (users w)).
Proof.
  intros b. unfold register. fold b. unfold bind, lift.
  destruct (field b "name") as [n|?]; [|left; split; [done|intros ? [=]]].
  destruct (field b "email") as [e|?]; [|left; split; [done|intros ? [=]]].
  destruct (field b "password") as [p|?]; [|left; split; [done|intros ? [=]]].
  destruct (_ || _) eqn:Hempty; [left; split; [done|not_created]|].
  apply orb_false_elim in Hempty as [[_ He]%orb_false_elim _].
  destruct (_ <? _)%nat; [left; split; [done|not_created]|].
  destruct (hashpw p (gensalt env)) as [h|?] eqn:Hh;
    [|left; split; [done|intros ? [=]]].
  unfold try_except, create_user, bind, users_insert_one, print_exc,
    modify, ret, lift.
  destruct (server_error env) as [err|].
  { left. destruct (_ || _); cbn; (split; [done|not_created]). }
  case_decide as Hfresh.
  { left. destruct (_ || _); cbn; (split; [done|not_created]). }
  case_decide as Hdup.
  { left. destruct (_ || _); cbn; (split; [done|not_created]). }
  right. exists n, e, p, h. cbn.
  repeat split; try done.
  by apply eq_None_not_Some.
Qed.

Lemma users_inv_insert m oid d :
  users_inv m ->
  m !! oid = None ->
  (exists e, UserDoc.email d = stored_address e) ->
  ~ map_Exists (fun _ d' => UserDoc.email d' = UserDoc.email d) m ->
  users_inv (<[oid := d]> m).
Proof.
  intros [Hn Hu] Hfresh Hd Hnew. split.
  - intros i d' [[-> ->]|[_ Hi]]%lookup_insert_Some; [done | by eapply Hn].
  - intros i j di dj [[-> ->]|[? Hi]]%lookup_insert_Some
                     [[-> ->]|[? Hj]]%lookup_insert_Some He; try done.
    + exfalso. apply Hnew. exists j, dj. by split.
    + exfalso. apply Hnew. exists i, di. by split.
    + by eapply Hu.
Qed.

Lemma register_users_inv body env w :
  users_inv (users w) -> users_inv (users (register body env w).2).
Proof.
  intros Hinv.
  destruct (register_cases body env w)
    as [[-> _] | (n & e & p & h & _ & He & _ & _ & _ & Hfresh & Hnew & ->)];
    [done|].
  apply users_inv_insert; try done.
  apply field_stripped in He as [raw ->]. by exists raw.
Qed.

(** In every state of the server, the stored addresses are normalised and
    pairwise distinct. *)
Lemma reachable_users_inv w : reachable w -> users_inv (users w).
Proof.
  induction 1 as [|w r env Hw IH].
  - split; [intros i d | intros i j di dj]; cbn; by rewrite lookup_empty.
  - rewrite flask_world.
    destruct r; cbn [view];
      try (by rewrite ?keeps_login, ?keeps_me, ?keeps_analyse,
             ?keeps_get_history, ?keeps_delete_session,
             ?keeps_rename_session, ?keeps_star_session,
             ?keeps_profile_stats).
    by apply register_users_inv.
Qed.

(** No request removes or rewrites a user. *)
Lemma view_users r env w oid d :
  users w !! oid = Some d -> users (flask (view r env) w).2 !! oid = Some d.
Proof.
  intros Hd. rewrite flask_world.
  destruct r as [b| | | | | | | | |]; cbn [view];
    try (by rewrite ?keeps_login, ?keeps_me, ?keeps_analyse,
           ?keeps_get_history, ?keeps_delete_session,
           ?keeps_rename_session, ?keeps_star_session,
           ?keeps_profile_stats).
  destruct (register_cases b env w)
    as [[-> _] | (n & e & p & h & _ & _ & _ & _ & _ & Hfresh & _ & ->)];
    [done|].
  rewrite lookup_insert_ne; [done|]. intros <-. congruence.
Qed.

Lemma later_users w w' oid d :
  later w w' -> users w !! oid = Some d -> users w' !! oid = Some d.
Proof.
  induction 1 as [|w' r env _ IH]; [done|].
  intros Hd. by apply view_users, IH.
Qed.

Lemma later_reachable w w' : reachable w -> later w w' -> reachable w'.
Proof.
  intros Hw. induction 1 as [|w' r env _ IH]; [done|].
  by apply reachable_step.
Qed.

(** A raised duplicate-key error is recognised by [register], by its
    code. *)
Lemma DuplicateKeyError_recognised index key value :
  contains "11000" (exn_str (DuplicateKeyError index key value)) = true.
Proof. reflexivity. Qed.

(** C6. Once a registration with address E has succeeded, a registration
    whose address is a case or surrounding-whitespace variant of E (the
    same string once trimmed and lowercased), made then or after any
    further requests, creates no user and is not answered 201; when its
    name and password pass validation, bcrypt hashes the password and
    the insert fails for no other reason, it is answered 409 "An account
    with that email already exists" and nothing changes. In the state
    that results, as in every state of the server, every stored address
    is a normalized one and no two users share one. *)
Theorem duplicate_email_rejected w env1 env2 body1 body2 resp1 w1 w2 E E' :
  reachable w ->
  carries body1 "email" E ->
  register body1 env1 w = (Ok resp1, w1) ->
  status resp1 = 201 ->
  later w1 w2 ->
  carries body2 "email" E' ->
  email_variant E E' ->
  let after := flask (register body2 env2) w2 in
  users after.2 = users w2
  /\ status after.1 <> 201
  /\ (forall n p h,
        field (or_ body2 (JObj [])) "name" = Ok n -> n <> "" ->
        field (or_ body2 (JObj [])) "password" = Ok p ->
        (6 <= len p)%nat ->
        hashpw p (gensalt env2) = Ok h ->
        server_error env2 = None ->
        after
        = (MkResponse
             (JObj [("error",
                     JStr "An account with that email already exists")])
             409,
           w2))
  /\ users_inv (users after.2).
Proof.
  intros Hw HE Hreg H201 Hlater HE' Hvar after.
  apply field_carries in HE, HE'.
  pose proof (variant_stored _ _ Hvar) as Hsame.
  (* the first registration stored the normalised address *)
  destruct (register_cases body1 env1 w)
    as [[_ Hno] | (n1 & e1 & p1 & h1 & _ & He1 & _ & _ & Hne1 & _ & _ & Hu1)].
  { exfalso. apply (Hno resp1); [by rewrite Hreg | done]. }
  rewrite Hreg in Hu1. cbn [snd] in Hu1.
  rewrite HE in He1. injection He1 as <-.
  change (strip (str_lower (str_lower (strip E)))) with (stored_address E)
    in Hu1.
  set (doc1 := UserDoc.Make n1 (stored_address E) _ _) in Hu1.
  assert (Hdoc1 : users w2 !! new_oid env1 = Some doc1).
  { apply (later_users w1); [done|]. rewrite Hu1. apply lookup_insert_eq. }
  assert (Hex : map_Exists
                  (fun _ d => UserDoc.email d
                              = strip (str_lower (str_lower (strip E'))))
                  (users w2)).
  { exists (new_oid env1), doc1. split; [done|]. exact Hsame. }
  assert (Hw1 : reachable w1).
  { replace w1 with (flask (view (PostRegister body1) env1) w).2
      by (cbn [view]; by rewrite flask_world, Hreg).
    by apply reachable_step. }
  (* hence the second one cannot insert *)
  assert (Hkeep : users after.2 = users w2
                  /\ forall resp, (register body2 env2 w2).1 = Ok resp ->
                                  status resp <> 201).
  { unfold after. rewrite flask_world.
    destruct (register_cases body2 env2 w2)
      as [Hl | (n2 & e2 & p2 & h2 & _ & He2 & _ & _ & _ & _ & Hnew & _)];
      [done|].
    exfalso. rewrite HE' in He2. injection He2 as <-. by apply Hnew. }
  destruct Hkeep as [Hkeep Hno201].
  split; [done|]. split; [|split].
  - unfold after, flask.
    destruct (register body2 env2 w2) as [[resp|e] w3] eqn:Hr; cbn; [|done].
    by apply Hno201.
  - intros n p h Hn Hnne Hp Hlen Hh Hsrv. unfold after, flask, register.
    unfold bind at 1, lift at 1. rewrite Hn.
    unfold bind at 1, lift at 1. rewrite HE'.
    unfold bind at 1, lift at 1. rewrite Hp.
    apply is_empty_false in Hnne as ->.
    unfold email_variant in Hvar. rewrite <- Hvar, Hne1.
    replace (is_empty p) with false
      by (symmetry; apply is_empty_false, len_empty; lia).
    cbn [orb]. apply Nat.ltb_ge in Hlen as ->.
    unfold bind at 1, lift at 1. rewrite Hh.
    unfold bind, try_except, create_user, bind, users_insert_one.
    rewrite Hsrv. case_decide.
    { by rewrite DuplicateKeyError_recognised, orb_true_r. }
    rewrite decide_True by (by rewrite Hvar).
    by rewrite DuplicateKeyError_recognised, orb_true_r.
  - rewrite Hkeep. by apply reachable_users_inv, (later_reachable w1).
Qed.

(** ** Login *)

Lemma find_user_by_email_unknown w e :
  (forall oid d, users w !! oid = Some d ->
                 UserDoc.email d <> strip (str_lower e)) ->
  find_user_by_email e w = (Ok None, w).
Proof.
  intros Hno. unfold find_user_by_email, users_find_one_by_email, gets.
  f_equal. f_equal.
  destruct (head _) as [[oid d]|] eqn:Hh; [|done].
  apply head_Some_elem_of, list_elem_of_filter in Hh as [He Hin].
  apply elem_of_map_to_list in Hin. by apply Hno in Hin.
Qed.

Lemma find_user_by_email_world w e : (find_user_by_email e w).2 = w.
Proof. reflexivity. Qed.

Lemma find_user_by_email_found w e oid d :
  unique_emails (users w) ->
  users w !! oid = Some d -> UserDoc.email d = strip (str_lower e) ->
  find_user_by_email e w = (Ok (Some (oid, d)), w).
Proof.
  intros Huniq Hd He.
  unfold find_user_by_email, users_find_one_by_email, gets. f_equal. f_equal.
  destruct (head _) as [[oid' d']|] eqn:Hh.
  - apply head_Some_elem_of, list_elem_of_filter in Hh as [He' Hin].
    apply elem_of_map_to_list in Hin. cbn in He'.
    assert (oid' = oid) as -> by (apply (Huniq _ _ _ _ Hin Hd); congruence).
    congruence.
  - apply head_None in Hh.
    assert (Hin : (oid, d) ∈ filter (fun kv => UserDoc.email kv.2
                                               = strip (str_lower e))
                                    (map_to_list (users w)))
      by (apply list_elem_of_filter; split; [done|by apply elem_of_map_to_list]).
    rewrite Hh in Hin. by apply elem_of_nil in Hin.
Qed.

(** [password.encode()] raising makes the check raise, whatever bcrypt
    does. *)
Lemma checkpw_encode_raises password hashed e :
  encode password = Raise e -> checkpw password hashed = Raise e.
Proof. unfold checkpw. by intros ->. Qed.

(** What a login decides on: for a registered address, the answer is
    that of [bcrypt.checkpw] on the trimmed password and the hash stored
    at registration, and nothing else; an exception of the check or of
    [password.encode()] goes through to Flask. *)
Lemma login_checks_stored_hash w env body E P oid d :
  unique_emails (users w) ->
  carries body "email" E ->
  carries body "password" P ->
  is_empty (str_lower (strip E)) = false ->
  is_empty (strip P) = false ->
  users w !! oid = Some d ->
  UserDoc.email d = stored_address E ->
  flask (login body env) w
  = (login_answer oid d env (checkpw (strip P) (UserDoc.password d)), w).
Proof.
  intros Hinv HE HP HEne HPne Hd He.
  apply field_carries in HE, HP.
  unfold flask, login.
  unfold bind at 1, lift at 1. rewrite HE.
  unfold bind at 1, lift at 1. rewrite HP.
  rewrite HEne, HPne. cbn [orb]. unfold bind at 1.
  rewrite (find_user_by_email_found w _ oid d Hinv Hd) by exact He.
  unfold bind, lift.
  by destruct (checkpw _ _) as [[]|].
Qed.

Lemma login_unknown_address w env body E P :
  carries body "email" E ->
  carries body "password" P ->
  is_empty (str_lower (strip E)) = false ->
  is_empty (strip P) = false ->
  (forall oid d, users w !! oid = Some d ->
                 UserDoc.email d <> stored_address E) ->
  flask (login body env) w
  = (MkResponse (JObj [("error", JStr "Invalid email or password")]) 401, w).
Proof.
  intros HE HP HEne HPne Hno.
  apply field_carries in HE, HP.
  unfold flask, login.
  unfold bind at 1, lift at 1. rewrite HE.
  unfold bind at 1, lift at 1. rewrite HP.
  rewrite HEne, HPne. cbn [orb]. unfold bind.
  by rewrite find_user_by_email_unknown.
Qed.

(** A login that fails because no user has the normalised address, and a
    login that fails because [bcrypt.checkpw] returns False on the hash
    of the user found, get the same answer: status 401 with the message
    "Invalid email or password". Nothing is written. *)
Lemma login_failures_identical w env body E P :
  carries body "email" E ->
  carries body "password" P ->
  is_empty (str_lower (strip E)) = false ->
  is_empty (strip P) = false ->
  (forall oid d, users w !! oid = Some d ->
                 UserDoc.email d <> stored_address E)
  \/ (exists oid d,
        (find_user_by_email (str_lower (strip E)) w).1 = Ok (Some (oid, d))
        /\ checkpw (strip P) (UserDoc.password d) = Ok false) ->
  flask (login body env) w
  = (MkResponse (JObj [("error", JStr "Invalid email or password")]) 401, w).
Proof.
  intros HE HP HEne HPne [Hno | (oid & d & Hfound & Hpw)].
  - by apply (login_unknown_address _ _ _ E P).
  - apply field_carries in HE, HP.
    unfold flask, login.
    unfold bind at 1, lift at 1. rewrite HE.
    unfold bind at 1, lift at 1. rewrite HP.
    rewrite HEne, HPne. cbn [orb]. unfold bind at 1.
    pose proof (find_user_by_email_world w (str_lower (strip E))) as Hw.
    destruct (find_user_by_email _ w) as [r w']. cbn in Hfound, Hw.
    subst r w'. unfold bind, lift. by rewrite Hpw.
Qed.

(** C5. The two failures of a login do not always get the same answer.
    With a password [password.encode()] or [bcrypt.checkpw] raises on (a
    lone surrogate; with bcrypt 5, more than 72 bytes), the exception is
    raised once the user is found and only then: the login with a
    registered address is answered 500 by Flask, the same login with an
    address no user has is answered 401 "Invalid email or password". *)
Theorem login_error_reveals_registered_address w env body body' E E' P
    oid d e :
  unique_emails (users w) ->
  carries body "email" E -> carries body "password" P ->
  carries body' "email" E' -> carries body' "password" P ->
  str_lower (strip E) <> "" -> str_lower (strip E') <> "" ->
  strip P <> "" ->
  users w !! oid = Some d -> UserDoc.email d = stored_address E ->
  (forall oid' d', users w !! oid' = Some d' ->
                   UserDoc.email d' <> stored_address E') ->
  checkpw (strip P) (UserDoc.password d) = Raise e ->
  flask (login body env) w
  = (MkResponse (JStr "Internal Server Error") 500, w)
  /\ flask (login body' env) w
     = (MkResponse (JObj [("error", JStr "Invalid email or password")]) 401,
        w).
Proof.
  intros Huniq HE HP HE' HP' HEne HE'ne HPne Hd He Hno Hraise.
  apply is_empty_false in HEne, HE'ne, HPne. split.
  - rewrite (login_checks_stored_hash w env body E P oid d) by done.
    by rewrite Hraise.
  - by apply (login_unknown_address _ _ _ E' P).
Qed.


(** ** Analysis *)

(** [d[k] = v] binds [k] to [v] and leaves the other keys as they were. *)
Lemma dict_lookup_set_eq k v d : dict_lookup k (dict_set k v d) = Some v.
Proof.
  induction d as [|[k' v'] d IH]; cbn [dict_set dict_lookup].
  - by rewrite String.eqb_refl.
  - destruct (String.eqb_spec k k') as [->|Hne]; cbn [dict_lookup].
    + by rewrite String.eqb_refl.
    + destruct (String.eqb_spec k k'); [done | exact IH].
Qed.

Lemma dict_lookup_set_ne k k' v d :
  k' <> k -> dict_lookup k' (dict_set k v d) = dict_lookup k' d.
Proof.
  intros Hne.
  induction d as [|[k0 v0] d IH]; cbn [dict_set dict_lookup].
  - by destruct (String.eqb_spec k' k).
  - destruct (String.eqb_spec k k0) as [->|Hne0]; cbn [dict_lookup].
    + by destruct (String.eqb_spec k' k0).
    + destruct (String.eqb_spec k' k0); [done | exact IH].
Qed.

(** C7. When the pipeline result passes the error check and
    [save_optimization] raises, [analyse] still answers 200 with the
    pipeline result, its [session_id] being null and its other entries
    those of the pipeline; the exception is printed on standard error
    and is not part of the answer. Nothing else changes. *)
Theorem analyse_save_failure_is_silent w w' env (g : G) body code level
    result changes e :
  carries body "code" code ->
  is_empty (strip code) = false ->
  (exists d, body = JObj d
             /\ _LEVEL_ALIASES_get (dict_get d "optimization_level"
                                             (JStr "none"))
                = Ok (JStr level)) ->
  str_in level VALID_LEVELS = true ->
  run_pipeline code level = Ok result ->
  truthy (dict_get result "passed_error_check" JNull) = true ->
  changes_for level result = Ok changes ->
  save_optimization (user_id g)
                    (dict_get result "original_code" (JStr ""))
                    (dict_get result "optimized_code" (JStr ""))
                    level changes
                    (or_ (dict_get result "original_analysis" JNull) (JObj []))
                    (or_ (dict_get result "optimized_analysis" JNull) (JObj []))
                    (dict_get result "error" JNull) env w
  = (Raise e, w') ->
  w' = w
  /\ flask (analyse body g env) w
     = (MkResponse (JObj (dict_set "session_id" JNull result)) 200,
        MkWorld (users w) (optimizations w) (stderr w ++ [e]))
  /\ dict_lookup "session_id" (dict_set "session_id" JNull result)
     = Some JNull
  /\ (forall k, k <> "session_id" ->
                dict_lookup k (dict_set "session_id" JNull result)
                = dict_lookup k result).
Proof.
  intros (d & -> & Hcode) Hne (d' & [= <-] & Hlevel) Hvalid Hrun Hpass
         Hchanges Hsave.
  assert (w' = w) as ->.
  { revert Hsave. unfold save_optimization, bind, insert_one.
    destruct (server_error env); [by intros [= _ <-]|].
    case_decide; by intros [= _ <-]. }
  split; [reflexivity|].
  split; [|split; [apply dict_lookup_set_eq
                  | intros k Hk; by apply dict_lookup_set_ne]].
  unfold flask, analyse. unfold bind at 1, lift at 1, get.
  unfold dict_get at 1. rewrite Hcode, Hne.
  unfold bind at 1, lift at 1. unfold bind at 1, lift at 1. rewrite Hlevel.
  rewrite Hvalid. cbn [negb].
  unfold bind at 1, try_except, bind at 1, lift at 1. rewrite Hrun.
  cbn [ret]. rewrite Hpass.
  unfold bind at 1. unfold bind at 1, lift at 1. rewrite Hchanges.
  unfold try_except, bind at 1. rewrite Hsave. reflexivity.
Qed.

Lemma dict_get_set_eq k v d default :
  dict_get (dict_set k v d) k default = v.
Proof.
  unfold dict_get. induction d as [|[k' v'] d IH]; cbn [dict_set dict_lookup].
  - by rewrite String.eqb_refl.
  - destruct (String.eqb_spec k k') as [->|Hne]; cbn [dict_lookup].
    + by rewrite String.eqb_refl.
    + destruct (String.eqb_spec k k'); [done | exact IH].
Qed.

Lemma dict_get_set_ne k k' v d default :
  k <> k' -> dict_get (dict_set k v d) k' default = dict_get d k' default.
Proof.
  intros Hne. unfold dict_get.
  induction d as [|[k0 v0] d IH]; cbn [dict_set dict_lookup].
  - by destruct (String.eqb_spec k' k).
  - destruct (String.eqb_spec k k0) as [->|Hne0]; cbn [dict_lookup].
    + by destruct (String.eqb_spec k' k0).
    + destruct (String.eqb_spec k' k0); [done | exact IH].
Qed.

Lemma alias_lookup_canonical alias level :
  alias_lookup alias _LEVEL_ALIASES = Some level ->
  alias_lookup level _LEVEL_ALIASES = None.
Proof.
  unfold _LEVEL_ALIASES. cbn [alias_lookup]. intros Ha.
  repeat match type of Ha with
         | context [String.eqb ?a ?b] => destruct (String.eqb_spec a b)
         end; by simplify_eq.
Qed.

(** Submitting an alias is submitting the level it stands for: the
    request with the alias and the same request with the canonical level
    in its place are served alike in every respect (validation, pipeline
    call, change list, stored session, answer). *)
Lemma analyse_alias_equivalent w env (g : G) d alias level :
  dict_lookup "optimization_level" d = Some (JStr alias) ->
  alias_lookup alias _LEVEL_ALIASES = Some level ->
  analyse (JObj d) g env w
  = analyse (JObj (dict_set "optimization_level" (JStr level) d)) g env w.
Proof.
  intros Hd Ha. unfold analyse, bind, lift, get.
  rewrite dict_get_set_eq, dict_get_set_ne by done.
  unfold dict_get at 2. rewrite Hd.
  unfold _LEVEL_ALIASES_get. cbn [hashable].
  by rewrite Ha, (alias_lookup_canonical _ _ Ha).
Qed.

(** A string that is neither a level nor an alias is refused with 400,
    before the pipeline is called. *)
Lemma analyse_unrecognised_string_400 w env (g : G) code level :
  is_empty (strip code) = false ->
  alias_lookup level _LEVEL_ALIASES = None ->
  str_in level VALID_LEVELS = false ->
  flask (analyse (JObj [("code", JStr code);
                        ("optimization_level", JStr level)]) g env) w
  = (_error ("'optimization_level' must be one of: "
             ++ "['level1', 'level2', 'none']") 400, w).
Proof.
  intros Hne Ha Hv. unfold flask, analyse.
  unfold bind at 1, lift at 1. cbn [get dict_get dict_lookup String.eqb
    Ascii.eqb Bool.eqb]. rewrite Hne.
  unfold bind, lift. cbn [get dict_get dict_lookup String.eqb
    Ascii.eqb Bool.eqb]. unfold _LEVEL_ALIASES_get. cbn [hashable].
  rewrite Ha, Hv. reflexivity.
Qed.

(** C8. A request whose [optimization_level] is a JSON array is not
    answered 400: the lookup in [_LEVEL_ALIASES] raises TypeError before
    the level is validated, and the client gets a 500. *)
Theorem analyse_unhashable_level_500 :
  forall w env (g : G),
    analyse (JObj [("code", JStr "x = 1"); ("optimization_level", JArr [])])
            g env w
    = (Raise (Exn "TypeError" "unhashable type: 'list'"), w)
    /\ flask (analyse (JObj [("code", JStr "x = 1");
                             ("optimization_level", JArr [])]) g env) w
       = (MkResponse (JStr "Internal Server Error") 500, w).
Proof. intros w env g. split; reflexivity. Qed.

(** ** Concurrent toggles *)

(** The two steps of a request, run without interruption, are
    [toggle_star]. *)
Lemma step_step_toggle_star sid uid w :
  step (step (Start sid uid) w).1 (step (Start sid uid) w).2
  = (Done (toggle_star sid uid w).1, (toggle_star sid uid w).2).
Proof.
  unfold step, toggle_star, bind, lift.
  destruct (ObjectId sid) as [oid|e] eqn:Hid; [|reflexivity].
  unfold find_one, update_one, gets. cbn [q_id].
  destruct (optimizations w !! oid) as [d|] eqn:Hd; [|reflexivity].
  destruct (matches _ d) eqn:Hm; cbn; [|reflexivity].
  unfold bind, lift, update_one. rewrite Hid. cbn. by rewrite Hd.
Qed.

Lemma step_Start w sid oid uid d :
  ObjectId sid = Ok oid ->
  optimizations w !! oid = Some d -> OptDoc.user_id d = uid ->
  step (Start sid uid) w = (Found sid (negb (OptDoc.starred d)), w).
Proof.
  intros Hid Hd Hu. unfold step, bind, lift. rewrite Hid.
  by rewrite (find_one_owned _ _ _ _ Hd Hu).
Qed.

Lemma step_Found w sid oid d b :
  ObjectId sid = Ok oid ->
  optimizations w !! oid = Some d ->
  step (Found sid b) w = (Done (Ok (Some b)), with_starred oid b d w).
Proof.
  intros Hid Hd. unfold step, bind, lift. rewrite Hid.
  unfold update_one. cbn. by rewrite Hd.
Qed.

Lemma flipped_S k s : flipped k (negb s) = flipped (S k) s.
Proof. unfold flipped. cbn. apply Nat.iter_swap. Qed.

Lemma insert_middle {A} (pre : list A) t t' rest :
  <[length pre := t']> (pre ++ t :: rest)%list = (pre ++ t' :: rest)%list.
Proof. rewrite insert_app_r_alt by lia. by rewrite Nat.sub_diag. Qed.

(** Requests that run one after the other, behind requests that are
    over. *)
Lemma run_serial_from sid oid uid m :
  ObjectId sid = Ok oid ->
  forall pre w d,
    optimizations w !! oid = Some d -> OptDoc.user_id d = uid ->
    run (serial (seq (length pre) m))
        (pre ++ replicate m (Start sid uid))%list w
    = ((pre ++ ((fun k => Done (Ok (Some (flipped k (OptDoc.starred d)))))
                  <$> seq 1 m))%list,
       with_starred oid (flipped m (OptDoc.starred d)) d w).
Proof.
  intros Hid. induction m as [|m IH]; intros pre w d Hd Hu.
  - cbn. by rewrite with_starred_same.
  - cbn [seq serial mbind list_bind app]. cbn [replicate run].
    rewrite list_lookup_middle by done.
    rewrite (step_Start _ _ _ _ _ Hid Hd Hu).
    rewrite insert_middle. cbn [run].
    rewrite list_lookup_middle by done.
    rewrite (step_Found _ _ _ _ _ Hid Hd).
    rewrite insert_middle.
    set (d1 := OptDoc.set_starred (negb (OptDoc.starred d)) d).
    set (w1 := with_starred oid _ d w).
    set (t1 := Done _).
    replace (pre ++ t1 :: replicate m (Start sid uid))%list
      with ((pre ++ [t1]) ++ replicate m (Start sid uid))%list
      by (by rewrite <- app_assoc).
    replace (S (length pre)) with (length (pre ++ [t1])%list)
      by (rewrite length_app; cbn; lia).
    change (seq (length (pre ++ [t1])%list) m ≫= (fun i => [i; i]))
      with (serial (seq (length (pre ++ [t1])%list) m)).
    rewrite (IH (pre ++ [t1])%list w1 d1);
      [| apply with_starred_lookup | by destruct d].
    f_equal.
    + rewrite <- app_assoc. cbn [app fmap list_fmap]. f_equal. f_equal.
      rewrite <- (fmap_S_seq 1 m), <- list_fmap_compose.
      apply list_fmap_ext. intros _ k _. cbn.
      change (OptDoc.starred d1) with (negb (OptDoc.starred d)).
      by rewrite flipped_S.
    + unfold w1, d1. rewrite with_starred_again.
      change (OptDoc.starred (OptDoc.set_starred _ d))
        with (negb (OptDoc.starred d)).
      by rewrite flipped_S.
Qed.

(** C9, as the code has it. [toggle_star] is a [find_one] followed by an
    [update_one], with no atomic flip and no lock on the record. Toggles
    of one record that run one after the other each read the value the
    one before wrote: the k-th answers the flag flipped k times. Two
    toggles that overlap, both reading before either writes, read the
    same old value: both answer its negation and the flag ends flipped
    once. *)
Theorem toggles_serialize_unless_overlapping w sid uid oid d (n : nat) :
  ObjectId sid = Ok oid ->
  optimizations w !! oid = Some d ->
  OptDoc.user_id d = uid ->
  let s := OptDoc.starred d in
  run (serial (seq 0 n)) (replicate n (Start sid uid)) w
  = ((fun k => Done (Ok (Some (flipped k s)))) <$> seq 1 n,
     with_starred oid (flipped n s) d w)
  /\ run [0; 1; 0; 1]%nat [Start sid uid; Start sid uid] w
     = ([Done (Ok (Some (negb s))); Done (Ok (Some (negb s)))],
        with_starred oid (negb s) d w).
Proof.
  intros Hid Hd Hu s. split.
  - exact (run_serial_from sid oid uid n Hid [] w d Hd Hu).
  - cbn [run lookup list_lookup].
    rewrite (step_Start _ _ _ _ _ Hid Hd Hu). cbn [insert list_insert].
    cbn [run lookup list_lookup].
    rewrite (step_Start _ _ _ _ _ Hid Hd Hu). cbn [insert list_insert].
    cbn [run lookup list_lookup].
    rewrite (step_Found _ _ _ _ _ Hid Hd). cbn [insert list_insert].
    cbn [run lookup list_lookup].
    rewrite (step_Found _ _ oid (OptDoc.set_starred (negb s) d) _ Hid)
      by apply with_starred_lookup.
    cbn [insert list_insert run]. by rewrite with_starred_again.
Qed.

End Properties.

(* ===================================================================== *)
(** * The theorems at work on the sample data                             *)
(* ===================================================================== *)


(** The example of the specification: sessions level1, level1, level2 and
    a starred one at level none. *)
Example get_user_stats_example :
  get_user_stats (H := Sample.libs) "alice" Sample.world_stats
  = (Ok [("total", JNum 4); ("level1_count", JNum 2);
         ("level2_count", JNum 1); ("starred_count", JNum 1);
         ("last_active", JStr "1970-01-01T00:00:00.400000")],
     Sample.world_stats).
Proof. reflexivity. Qed.

Lemma get_user_stats_correct_witness :
  exists m,
    latest (find_by_user "alice" Sample.world_stats).*2 m
    /\ get_user_stats (H := Sample.libs) "alice" Sample.world_stats
       = (Ok [("total", JNum 4); ("level1_count", JNum 2);
              ("level2_count", JNum 1); ("starred_count", JNum 1);
              ("last_active", JStr (isoformat (Libs := Sample.libs) m))],
          Sample.world_stats).
Proof.
  destruct (get_user_stats_correct (H := Sample.libs) Sample.world_stats
              "alice") as (_ & _ & last & Hstats & _ & Hlast).
  destruct Hlast as (m & -> & Hm); [by vm_compute|].
  exists m. split; [exact Hm | exact Hstats].
Defined.

Lemma toggle_star_flips_witness :
  (a <- toggle_star Sample.sid "alice" ;;
   b <- toggle_star Sample.sid "alice" ;;
   c <- toggle_star Sample.sid "alice" ;; ret (a, b, c))%py Sample.world
  = (Ok (Some true, Some false, Some true),
     with_starred Sample.sid true (Sample.session "alice" "level1" false 100000)
                  Sample.world).
Proof.
  apply (toggle_star_flips Sample.world Sample.sid Sample.sid
           (Sample.session "alice" "level1" false 100000) "alice");
    reflexivity.
Defined.

Lemma sample_users :
  users Sample.world_ada = {[ Sample.sid := Sample.ada ]}.
Proof. by vm_compute. Qed.

Lemma sample_reachable : reachable (H := Sample.libs) Sample.world_ada.
Proof.
  apply (reachable_step (H := Sample.libs) empty_world
           (PostRegister (Sample.registration "ada@x.com"))
           (Sample.env Sample.sid)).
  apply reachable_init.
Qed.

Lemma sample_later :
  later (H := Sample.libs) Sample.world_ada MoreSamples.world_ada_later.
Proof.
  apply (later_step (H := Sample.libs) Sample.world_ada Sample.world_ada
           (PostAnalyse Sample.analysis_request MoreSamples.ada_g)
           (Sample.env MoreSamples.other_sid)).
  apply later_now.
Qed.



Lemma login_error_reveals_registered_address_witness :
  flask (login (H := Sample.libs)
               (Sample.credentials "ada@x.com" MoreSamples.lone_surrogate)
               (Sample.env Sample.sid)) Sample.world_ada
  = (MkResponse (JStr "Internal Server Error") 500, Sample.world_ada)
  /\ flask (login (H := Sample.libs)
                  (Sample.credentials "bob@x.com" MoreSamples.lone_surrogate)
                  (Sample.env Sample.sid)) Sample.world_ada
     = (MkResponse (JObj [("error", JStr "Invalid email or password")]) 401,
        Sample.world_ada).
Proof.
  apply (login_error_reveals_registered_address (H := Sample.libs)
           Sample.world_ada (Sample.env Sample.sid) _ _
           "ada@x.com" "bob@x.com" MoreSamples.lone_surrogate
           Sample.sid Sample.ada
           (UnicodeEncodeError 0 MoreSamples.lone_surrogate)).
  - apply (reachable_users_inv (H := Sample.libs) _ sample_reachable).
  - eexists; split; reflexivity.
  - eexists; split; reflexivity.
  - eexists; split; reflexivity.
  - eexists; split; reflexivity.
  - by vm_compute.
  - by vm_compute.
  - by vm_compute.
  - reflexivity.
  - reflexivity.
  - intros oid' d'. rewrite sample_users.
    intros [_ <-]%lookup_singleton_Some. by vm_compute.
  - reflexivity.
Defined.

(** The same with the stand-in for bcrypt 5 and a password of 73
    letters. *)
Example login_long_password :
  flask (login (H := Sample.libs)
               (Sample.credentials "ada@x.com" MoreSamples.letters_73)
               (Sample.env Sample.sid)) Sample.world_ada
  = (MkResponse (JStr "Internal Server Error") 500, Sample.world_ada)
  /\ flask (login (H := Sample.libs)
                  (Sample.credentials "bob@x.com" MoreSamples.letters_73)
                  (Sample.env Sample.sid)) Sample.world_ada
     = (MkResponse (JObj [("error", JStr "Invalid email or password")]) 401,
        Sample.world_ada).
Proof. split; reflexivity. Qed.

Lemma duplicate_email_rejected_witness :
  flask (register (H := Sample.libs)
                  (Sample.registration MoreSamples.ada_variant)
                  (Sample.env "65a1b2c3d4e5f60718293a4d"))
        MoreSamples.world_ada_later
  = (MkResponse
       (JObj [("error", JStr "An account with that email already exists")])
       409,
     MoreSamples.world_ada_later).
Proof.
  refine (proj1 (proj2 (proj2
    (duplicate_email_rejected (H := Sample.libs) empty_world
       (Sample.env Sample.sid) (Sample.env "65a1b2c3d4e5f60718293a4d")
       (Sample.registration "ada@x.com")
       (Sample.registration MoreSamples.ada_variant)
       MoreSamples.registered
       Sample.world_ada MoreSamples.world_ada_later
       "ada@x.com" MoreSamples.ada_variant _ _ _ _ _ _ _)))
    "Ada" "secret1" "$2b$12$secret1" _ _ _ _ _ _).
  - apply reachable_init.
  - eexists; split; reflexivity.
  - by vm_compute.
  - reflexivity.
  - apply sample_later.
  - eexists; split; reflexivity.
  - by vm_compute.
  - reflexivity.
  - discriminate.
  - reflexivity.
  - vm_compute. lia.
  - reflexivity.
  - reflexivity.
Defined.

Lemma analyse_save_failure_is_silent_witness :
  flask (analyse (H := Sample.libs) Sample.analysis_request Sample.alice
                 (Sample.env_down Sample.sid)) Sample.world
  = (MkResponse
       (JObj [("original_code", JStr "x = 1 + 1");
              ("optimized_code", JStr "x = 1 + 1");
              ("passed_error_check", JBool true);
              ("l1_changes", JArr [JStr "constant folding"]);
              ("l2", JObj [("changes_applied", JArr [JStr "loop unrolling"])]);
              ("session_id", JNull)]) 200,
     MkWorld (users Sample.world) (optimizations Sample.world)
             (stderr Sample.world ++ [Sample.outage])).
Proof.
  destruct (analyse_save_failure_is_silent (H := Sample.libs) Sample.world
              Sample.world (Sample.env_down Sample.sid) Sample.alice
              Sample.analysis_request "x = 1 + 1" "level1"
              (Sample.pipeline_result "x = 1 + 1")
              (JArr [JStr "constant folding"]) Sample.outage)
    as (_ & Hanswer & _ & _).
  - eexists; split; reflexivity.
  - reflexivity.
  - eexists; split; reflexivity.
  - reflexivity.
  - reflexivity.
  - reflexivity.
  - reflexivity.
  - reflexivity.
  - exact Hanswer.
Defined.


Lemma toggles_serialize_unless_overlapping_witness :
  run (serial [0; 1; 2]%nat)
      (replicate 3 (Start Sample.sid "alice")) Sample.world
  = ([Done (Ok (Some true)); Done (Ok (Some false)); Done (Ok (Some true))],
     with_starred Sample.sid true (Sample.session "alice" "level1" false 100000)
                  Sample.world)
  /\ run [0; 1; 0; 1]%nat
         [Start Sample.sid "alice"; Start Sample.sid "alice"] Sample.world
     = ([Done (Ok (Some true)); Done (Ok (Some true))],
        with_starred Sample.sid true
                     (Sample.session "alice" "level1" false 100000) Sample.world).
Proof.
  apply (toggles_serialize_unless_overlapping Sample.world Sample.sid "alice"
           Sample.sid (Sample.session "alice" "level1" false 100000) 3);
    reflexivity.
Defined.

(** Two requests toggle the session of the sample store, and both run
    [find_one] before either runs [update_one]: both answer true, which
    no order of two toggles run one after the other does. *)
Lemma overlapping_toggles_not_linearizable : ~ toggles_linearize.
Proof.
  intros Hlin.
  destruct (Hlin Sample.world Sample.sid "alice" Sample.sid
              (Sample.session "alice" "level1" false 100000)
              [0; 1; 0; 1]%nat 2%nat)
    as (order & Hperm & Hrun); try reflexivity.
  apply (f_equal fst) in Hrun.
  symmetry in Hperm. apply Permutation_length_2_inv in Hperm as [-> | ->];
    vm_compute in Hrun; discriminate Hrun.
Qed.

(* ===================================================================== *)
(** * Further properties of the program                                   *)
(* ===================================================================== *)

Section MoreProperties.
Context `{Libs} `{Jwt}.

(** ** Session ids that name nothing *)

Lemma ObjectId_malformed sid :
  malformed_id sid -> ObjectId sid = Raise (InvalidId sid).
Proof.
  intros [Hlen | Hstray]; unfold ObjectId.
  - apply Nat.eqb_neq in Hlen. by rewrite Hlen.
  - replace (all_hex sid) with false; [by rewrite andb_false_r|].
    symmetry. induction sid as [|c s IH]; [discriminate Hstray|].
    cbn [has_stray_char all_hex] in *.
    apply orb_true_iff in Hstray as [Hc|Hs].
    + unfold not_hex_nor_blank in Hc.
      apply andb_true_iff in Hc as [Hc _]. apply negb_true_iff in Hc.
      by rewrite Hc.
    + by rewrite (IH Hs), andb_false_r.
Qed.

Lemma unknown_session_404_aux w sid oid (g : G) :
  ObjectId sid = Ok oid ->
  optimizations w !! oid = None ->
  get_optimization_by_id sid (user_id g) w = (Ok JNull, w)
  /\ flask (delete_session sid g) w = (NotFoundOrForbidden, w)
  /\ flask (star_session sid g) w = (NotFoundOrForbidden, w).
Proof.
  intros Hid Hnone. repeat split.
  - unfold get_optimization_by_id, bind, lift, find_one, gets.
    rewrite Hid. cbn. by rewrite Hnone.
  - unfold flask, delete_session, delete_optimization, bind, lift, delete_one.
    rewrite Hid. cbn. by rewrite Hnone.
  - unfold flask, star_session, toggle_star, bind, lift, find_one, gets.
    rewrite Hid. cbn. by rewrite Hnone.
Qed.


(** X2. A session id that has not 24 characters, or has a character that is
    neither a hexadecimal digit nor whitespace, makes [ObjectId] raise
    InvalidId in the store function, which no route catches: the delete,
    rename and star routes answer 500, not 404, and the store is left as
    it was. *)
Theorem malformed_session_id_500 w sid (g : G) :
  malformed_id sid ->
  get_optimization_by_id sid (user_id g) w = (Raise (InvalidId sid), w)
  /\ flask (delete_session sid g) w = (InternalServerError, w)
  /\ (forall body new_name,
        field (or_ body (JObj [])) "name" = Ok new_name ->
        is_empty new_name = false ->
        flask (rename_session sid body g) w = (InternalServerError, w))
  /\ flask (star_session sid g) w = (InternalServerError, w).
Proof.
  intros Hbad%ObjectId_malformed. repeat split.
  - unfold get_optimization_by_id, bind, lift. by rewrite Hbad.
  - unfold flask, delete_session, delete_optimization, bind, lift.
    by rewrite Hbad.
  - intros body n Hn Hne.
    unfold flask, rename_session, rename_optimization, bind, lift.
    by rewrite Hn, Hne, Hbad.
  - unfold flask, star_session, toggle_star, bind, lift. by rewrite Hbad.
Qed.

(** ** Deleting and renaming one's own session *)

Lemma delete_optimization_owned w sid oid uid d :
  ObjectId sid = Ok oid ->
  optimizations w !! oid = Some d -> OptDoc.user_id d = uid ->
  delete_optimization sid uid w = (Ok true, without_session oid w).
Proof.
  intros Hid Hd Hu. unfold delete_optimization, bind, lift, delete_one.
  rewrite Hid. cbn. rewrite Hd. by rewrite bool_decide_eq_true_2.
Qed.

(** X3. Deleting a session of the caller returns true and answers 200
    [{"deleted": true}]; the record is gone, every other record and the
    users are as before, and the session can then no longer be fetched,
    deleted again or starred: those calls answer as for a session that
    never was. *)
Theorem delete_own_session w sid oid d (g : G) :
  ObjectId sid = Ok oid ->
  optimizations w !! oid = Some d ->
  OptDoc.user_id d = user_id g ->
  let w' := without_session oid w in
  delete_optimization sid (user_id g) w = (Ok true, w')
  /\ flask (delete_session sid g) w
     = (MkResponse (JObj [("deleted", JBool true)]) 200, w')
  /\ optimizations w' !! oid = None
  /\ (forall oid', oid' <> oid ->
                   optimizations w' !! oid' = optimizations w !! oid')
  /\ users w' = users w
  /\ get_optimization_by_id sid (user_id g) w' = (Ok JNull, w')
  /\ flask (delete_session sid g) w' = (NotFoundOrForbidden, w')
  /\ flask (star_session sid g) w' = (NotFoundOrForbidden, w').
Proof.
  intros Hid Hd Hu w'.
  pose proof (delete_optimization_owned _ _ _ _ _ Hid Hd Hu) as Hdel.
  assert (Hgone : optimizations w' !! oid = None) by apply lookup_delete_eq.
  destruct (unknown_session_404_aux w' sid oid g Hid Hgone) as (Hg & Hd' & Hs).
  repeat split; try done.
  - unfold flask, delete_session, bind. by rewrite Hdel.
  - intros oid' Hne. by apply lookup_delete_ne.
Qed.


(** ** Saving and reading sessions *)

(** X5. A session that is saved can be read back by its owner and by nobody
    else. When the insert fails for no reason and the ObjectId is new,
    [save_optimization] stores the record unstarred under that id, its
    date being the second clock reading cut to the millisecond, and
    returns the serialisation, with [_id], of the record as it built it,
    the date in microseconds; [get_optimization_by_id] with that id then
    returns the stored record, the same dict but for the date under
    "created_at", to the owner and None to every other user. No other
    record and no user is touched. *)
Theorem save_then_fetch w env uid original_code optimized_code level changes
    original_analysis optimized_analysis error :
  server_error env = None ->
  optimizations w !! new_oid env = None ->
  ObjectId (new_oid env) = Ok (new_oid env) ->
  let d := OptDoc.Make uid ("Session · " ++ strftime_name (utcnow env 0))
                       original_code optimized_code level changes
                       original_analysis optimized_analysis error
                       false (utcnow env 1) in
  let stored := OptDoc.set_created_at (utcnow env 1 - utcnow env 1 mod 1000)
                                      d in
  let w' := with_session (new_oid env) stored w in
  save_optimization uid original_code optimized_code level changes
                    original_analysis optimized_analysis error env w
  = (Ok (_serialize_optimization_dict (new_oid env) d), w')
  /\ dict_lookup "_id" (_serialize_optimization_dict (new_oid env) d)
     = Some (JStr (new_oid env))
  /\ dict_lookup "starred" (_serialize_optimization_dict (new_oid env) d)
     = Some (JBool false)
  /\ dict_lookup "created_at" (_serialize_optimization_dict (new_oid env) d)
     = Some (JStr (isoformat (utcnow env 1)))
  /\ get_optimization_by_id (new_oid env) uid w'
     = (Ok (JObj (_serialize_optimization_dict (new_oid env) stored)), w')
  /\ _serialize_optimization_dict (new_oid env) stored
     = dict_set "created_at"
                (JStr (isoformat (utcnow env 1 - utcnow env 1 mod 1000)))
                (_serialize_optimization_dict (new_oid env) d)
  /\ (forall other, other <> uid ->
                    get_optimization_by_id (new_oid env) other w'
                    = (Ok JNull, w'))
  /\ (forall oid', oid' <> new_oid env ->
                   optimizations w' !! oid' = optimizations w !! oid')
  /\ users w' = users w.
Proof.
  intros Hsrv Hfresh Hid d stored w'.
  assert (Hd : optimizations w' !! new_oid env = Some stored)
    by apply lookup_insert_eq.
  repeat split; try done.
  - unfold save_optimization, bind, insert_one. rewrite Hsrv.
    rewrite decide_False; [done|]. rewrite Hfresh. by intros [].
  - unfold get_optimization_by_id, bind, lift. rewrite Hid.
    by rewrite (find_one_owned _ _ uid _ Hd).
  - intros other Hne. unfold get_optimization_by_id, bind, lift. rewrite Hid.
    rewrite (find_one_foreign _ _ other _ Hd); [done|].
    cbn. congruence.
  - intros oid' Hne. by apply lookup_insert_ne.
Qed.

(** A save that fails writes nothing. *)
Lemma save_optimization_raises uid oc opc level changes oa opa err env w e w' :
  save_optimization uid oc opc level changes oa opa err env w = (Raise e, w') ->
  w' = w.
Proof.
  unfold save_optimization, bind, insert_one.
  destruct (server_error env); [by intros [= _ <-]|].
  case_decide; by intros [= _ <-].
Qed.

#[local] Instance newer_first_total : Total newer_first.
Proof. intros a b. unfold newer_first. lia. Qed.

#[local] Instance newer_first_trans : Transitive newer_first.
Proof. intros a b c. unfold newer_first. lia. Qed.

Lemma StronglySorted_lookup_lt {A} (R : relation A) l :
  StronglySorted R l ->
  forall (i j : nat) a b, (i < j)%nat -> l !! i = Some a -> l !! j = Some b ->
                          R a b.
Proof.
  induction 1 as [|x l Hl IH Hx]; intros i j a b Hij Hi Hj.
  - by rewrite lookup_nil in Hi.
  - destruct j as [|j]; [lia|]. cbn in Hj.
    destruct i as [|i]; cbn in Hi.
    + injection Hi as <-. eapply Forall_forall; [exact Hx|].
      by eapply list_elem_of_lookup_2.
    + apply (IH i j); [lia | done..].
Qed.

(** X6. The history of a user is the list of that user's sessions, each
    exactly once and none of anybody else, newest first: a session
    listed before another was created no earlier. The route answers 200
    with that list under [sessions] and changes nothing. *)
Theorem history_newest_first w (g : G) :
  exists l : list (string * OptDoc.t),
    get_user_optimizations (user_id g) w
    = (Ok ((fun doc => _serialize_optimization (Some doc)) <$> l), w)
    /\ flask (get_history g) w
       = (MkResponse
            (JObj [("sessions",
                    JArr ((fun doc => _serialize_optimization (Some doc))
                            <$> l))]) 200, w)
    /\ (forall oid d, (oid, d) ∈ l
                      <-> optimizations w !! oid = Some d
                          /\ OptDoc.user_id d = user_id g)
    /\ NoDup l.*1
    /\ (forall (i j : nat) a b,
          (i < j)%nat -> l !! i = Some a -> l !! j = Some b ->
          OptDoc.created_at b.2 <= OptDoc.created_at a.2).
Proof.
  exists (sort_created_at_desc (find_by_user (user_id g) w)).
  assert (Hperm : sort_created_at_desc (find_by_user (user_id g) w)
                  ≡ₚ find_by_user (user_id g) w)
    by apply merge_sort_Permutation.
  split; [reflexivity|]. split; [reflexivity|]. split; [|split].
  - intros oid d. rewrite Hperm. apply find_by_user_spec.
  - rewrite Hperm. apply find_by_user_NoDup.
  - apply (StronglySorted_lookup_lt newer_first).
    apply StronglySorted_merge_sort; apply _.
Qed.

(** ** Statistics and the writes of the store *)

Lemma fold_left_comm_perm {A B} (f : A -> B -> A) :
  (forall a x y, f (f a x) y = f (f a y) x) ->
  forall l l', l ≡ₚ l' -> forall a, fold_left f l a = fold_left f l' a.
Proof.
  intros Hcomm l l' Hp.
  induction Hp as [|x l l' _ IH|x y l|l l' l'' _ IH1 _ IH2]; intros a; cbn.
  - reflexivity.
  - apply IH.
  - by rewrite Hcomm.
  - by rewrite IH1.
Qed.

Lemma group_step_comm r x y :
  group_step (group_step r x) y = group_step (group_step r y) x.
Proof.
  unfold group_step; cbn. f_equal; try lia.
  destruct (last_active r); cbn; f_equal; lia.
Qed.

Lemma group_all_perm l l' : l ≡ₚ l' -> group_all l = group_all l'.
Proof.
  intros Hp. unfold group_all.
  destruct l as [|x l], l' as [|x' l'].
  - reflexivity.
  - by apply Permutation_nil_cons in Hp.
  - symmetry in Hp. by apply Permutation_nil_cons in Hp.
  - by rewrite (fold_left_comm_perm _ group_step_comm _ _ Hp).
Qed.

Lemma find_by_user_perm u w w' :
  same_sessions_of u w w' -> find_by_user u w ≡ₚ find_by_user u w'.
Proof.
  intros Hsame. apply NoDup_Permutation.
  - eapply NoDup_fmap_1, find_by_user_NoDup.
  - eapply NoDup_fmap_1, find_by_user_NoDup.
  - intros [oid d]. rewrite !find_by_user_spec.
    split; intros [Hd Hu]; (split; [by apply (Hsame oid d Hu)|done]).
Qed.

(** The statistics of a user depend on that user's sessions only. *)
Lemma get_user_stats_same_sessions u w w' :
  same_sessions_of u w w' ->
  (get_user_stats u w').1 = (get_user_stats u w).1.
Proof.
  intros Hsame.
  assert (E : group_all (find_by_user u w').*2 = group_all (find_by_user u w).*2).
  { apply group_all_perm, fmap_Permutation. symmetry.
    by apply find_by_user_perm. }
  unfold get_user_stats, bind, aggregate, gets. cbv beta. rewrite E.
  destruct (group_all (find_by_user u w).*2); reflexivity.
Qed.

Lemma same_sessions_insert_other u oid d w :
  OptDoc.user_id d <> u ->
  (forall d0, optimizations w !! oid = Some d0 -> OptDoc.user_id d0 <> u) ->
  same_sessions_of u w (with_session oid d w).
Proof.
  intros Hd Hold oid' d' Hu. unfold with_session; cbn.
  destruct (decide (oid' = oid)) as [->|Hne].
  - rewrite lookup_insert_eq. split.
    + intros Hd'. by apply Hold in Hd'.
    + intros [= <-]. done.
  - by rewrite lookup_insert_ne.
Qed.

Lemma same_sessions_delete_other u oid w :
  (forall d0, optimizations w !! oid = Some d0 -> OptDoc.user_id d0 <> u) ->
  same_sessions_of u w (without_session oid w).
Proof.
  intros Hold oid' d' Hu. unfold without_session; cbn.
  destruct (decide (oid' = oid)) as [->|Hne].
  - rewrite lookup_delete_eq. split; [|done].
    intros Hd'. by apply Hold in Hd'.
  - by rewrite lookup_delete_ne.
Qed.

(** X7. What a user writes never shows in the statistics of another: when B
    stars, renames or deletes a session of B's, or saves a new one, the
    statistics of every other user A are what they were. *)
Theorem stats_unchanged_by_other_users w sid oid d (A B : string) new_name
    env original_code optimized_code level changes original_analysis
    optimized_analysis error :
  A <> B ->
  ObjectId sid = Ok oid ->
  optimizations w !! oid = Some d ->
  OptDoc.user_id d = B ->
  let stats_after (w' : World) := (get_user_stats A w').1 in
  stats_after (toggle_star sid B w).2 = (get_user_stats A w).1
  /\ stats_after (rename_optimization sid B new_name w).2
     = (get_user_stats A w).1
  /\ stats_after (delete_optimization sid B w).2 = (get_user_stats A w).1
  /\ stats_after (save_optimization B original_code optimized_code level
                    changes original_analysis optimized_analysis error
                    env w).2
     = (get_user_stats A w).1.
Proof.
  intros Hne Hid Hd HB stats_after. unfold stats_after.
  assert (Hold : forall d0, optimizations w !! oid = Some d0 ->
                            OptDoc.user_id d0 <> A) by (intros; congruence).
  repeat split.
  - rewrite (toggle_star_owned _ _ _ _ _ Hid Hd HB). cbn [snd].
    apply get_user_stats_same_sessions.
    apply (same_sessions_insert_other A oid _ w); [|done].
    cbn. congruence.
  - unfold rename_optimization, bind, lift, update_one. rewrite Hid. cbn.
    rewrite Hd, bool_decide_eq_true_2 by done. cbn [snd].
    apply get_user_stats_same_sessions.
    apply (same_sessions_insert_other A oid _ w); [|done].
    cbn. congruence.
  - rewrite (delete_optimization_owned _ _ _ _ _ Hid Hd HB). cbn [snd].
    apply get_user_stats_same_sessions.
    by apply same_sessions_delete_other.
  - unfold save_optimization, bind, insert_one.
    destruct (server_error env); [done|].
    case_decide as Hfresh; [done|]. cbn [snd].
    apply get_user_stats_same_sessions.
    apply (same_sessions_insert_other A (new_oid env) _ w); [cbn; congruence|].
    intros d0 Hd0. destruct Hfresh. by rewrite Hd0.
Qed.

Lemma stat_total u w :
  stat "total" u w = JNum (Z.of_nat (length (find_by_user u w).*2)).
Proof.
  unfold stat, get_user_stats, bind, aggregate, gets, group_all. cbv beta.
  destruct (find_by_user u w).*2 as [|d l] eqn:E; [reflexivity|].
  rewrite group_fold. reflexivity.
Qed.

Lemma stat_starred_count u w :
  stat "starred_count" u w
  = JNum (Z.of_nat (length (filter (fun d => OptDoc.starred d = true)
                                   (find_by_user u w).*2))).
Proof.
  unfold stat, get_user_stats, bind, aggregate, gets, group_all. cbv beta.
  destruct (find_by_user u w).*2 as [|d l] eqn:E; [reflexivity|].
  rewrite group_fold. reflexivity.
Qed.

Lemma find_by_user_with_new_session u oid d w :
  optimizations w !! oid = None -> OptDoc.user_id d = u ->
  find_by_user u (with_session oid d w) ≡ₚ (oid, d) :: find_by_user u w.
Proof.
  intros Hnone Hu. unfold find_by_user, with_session; cbn.
  rewrite (map_to_list_insert _ _ _ Hnone), filter_cons.
  by rewrite decide_True.
Qed.

Lemma with_session_without oid d w :
  optimizations w !! oid = Some d ->
  with_session oid d (without_session oid w) = w.
Proof.
  intros Hd. unfold with_session, without_session; cbn.
  rewrite insert_delete_id by done. by destruct w.
Qed.

Lemma with_session_replace oid d' w :
  with_session oid d' w = with_session oid d' (without_session oid w).
Proof.
  unfold with_session, without_session; cbn. by rewrite insert_delete_eq.
Qed.

Lemma find_by_user_split u oid d w :
  optimizations w !! oid = Some d -> OptDoc.user_id d = u ->
  find_by_user u w ≡ₚ (oid, d) :: find_by_user u (without_session oid w).
Proof.
  intros Hd Hu. rewrite <- (with_session_without oid d w Hd) at 1.
  apply find_by_user_with_new_session; [apply lookup_delete_eq | done].
Qed.

(** X8. A saved session counts once in the statistics of its owner: when
    [save_optimization] succeeds, [total] grows by one and
    [starred_count] stays, the new session being unstarred. *)
Theorem save_adds_one_to_total w env uid original_code optimized_code level
    changes original_analysis optimized_analysis error doc w' :
  save_optimization uid original_code optimized_code level changes
                    original_analysis optimized_analysis error env w
  = (Ok doc, w') ->
  exists n, stat "total" uid w = JNum n
            /\ stat "total" uid w' = JNum (n + 1)
            /\ stat "starred_count" uid w' = stat "starred_count" uid w.
Proof.
  unfold save_optimization, bind, insert_one.
  destruct (server_error env); [done|].
  case_decide as Hfresh; [done|]. intros [= _ <-].
  apply eq_None_not_Some in Hfresh.
  set (d := OptDoc.set_created_at _ _).
  fold (with_session (new_oid env) d w).
  pose proof (find_by_user_with_new_session uid _ d w Hfresh eq_refl) as Hp.
  apply (fmap_Permutation snd) in Hp. cbn [fmap list_fmap snd] in Hp.
  exists (Z.of_nat (length (find_by_user uid w).*2)).
  rewrite !stat_total, !stat_starred_count, Hp. cbn [length].
  split; [reflexivity|]. split; [f_equal; lia|].
  rewrite filter_cons, decide_False by done. reflexivity.
Qed.

(** X9. Starring and deleting show in the statistics of the owner: a toggle
    of one's own session leaves [total] as it is and moves
    [starred_count] by one, up when the session was unstarred and down
    when it was starred; deleting it takes one off [total]. *)
Theorem own_writes_move_stats w sid oid d uid :
  ObjectId sid = Ok oid ->
  optimizations w !! oid = Some d ->
  OptDoc.user_id d = uid ->
  exists n s,
    stat "total" uid w = JNum n
    /\ stat "starred_count" uid w = JNum s
    /\ stat "total" uid (toggle_star sid uid w).2 = JNum n
    /\ stat "starred_count" uid (toggle_star sid uid w).2
       = JNum (if OptDoc.starred d then s - 1 else s + 1)
    /\ stat "total" uid (delete_optimization sid uid w).2 = JNum (n - 1).
Proof.
  intros Hid Hd Hu.
  rewrite (toggle_star_owned _ _ _ _ _ Hid Hd Hu),
    (delete_optimization_owned _ _ _ _ _ Hid Hd Hu). cbn [snd].
  pose proof (find_by_user_split uid oid d w Hd Hu) as Hw.
  set (d' := OptDoc.set_starred (negb (OptDoc.starred d)) d).
  assert (Hw' : find_by_user uid (with_starred oid (negb (OptDoc.starred d)) d w)
                ≡ₚ (oid, d') :: find_by_user uid (without_session oid w)).
  { change (with_starred oid (negb (OptDoc.starred d)) d w)
      with (with_session oid d' w).
    rewrite with_session_replace.
    apply find_by_user_with_new_session; [apply lookup_delete_eq|].
    by destruct d. }
  apply (fmap_Permutation snd) in Hw, Hw'. cbn [fmap list_fmap snd] in Hw, Hw'.
  set (rest := (find_by_user uid (without_session oid w)).*2) in *.
  exists (Z.of_nat (length (d :: rest))),
         (Z.of_nat (length (filter (fun x => OptDoc.starred x = true)
                                   (d :: rest)))).
  rewrite !stat_total, !stat_starred_count, Hw, Hw'.
  split; [reflexivity|]. split; [reflexivity|]. split; [reflexivity|]. split.
  - rewrite !filter_cons. unfold d'.
    change (OptDoc.starred (OptDoc.set_starred ?b d)) with b.
    destruct (OptDoc.starred d); cbn [negb].
    + rewrite decide_False, decide_True by done. cbn [length]. f_equal.
      rewrite Nat2Z.inj_succ. unfold Z.succ. rewrite Z.add_simpl_r.
      reflexivity.
    + rewrite decide_True, decide_False by done. cbn [length]. f_equal.
      rewrite Nat2Z.inj_succ. reflexivity.
  - cbn [length]. f_equal.
    rewrite Nat2Z.inj_succ. unfold Z.succ. by rewrite Z.add_simpl_r.
Qed.

(** ** Analysis requests *)

(** Run [analyse] up to the pipeline call on a request that passes
    validation. *)
Ltac analyse_to_pipeline Hv :=
  let d := fresh "d" in
  let d' := fresh "d" in
  let Hcode := fresh "Hcode" in
  let Hne := fresh "Hne" in
  let Hlevel := fresh "Hlevel" in
  let Hvalid := fresh "Hvalid" in
  destruct Hv as ((d & -> & Hcode) & Hne & (d' & [= <-] & Hlevel) & Hvalid);
  unfold flask, analyse; unfold bind at 1, lift at 1, get;
  unfold dict_get at 1; rewrite Hcode, Hne;
  unfold bind at 1, lift at 1; unfold bind at 1, lift at 1; rewrite Hlevel;
  rewrite Hvalid; cbn [negb];
  unfold bind at 1, try_except, bind at 1, lift at 1.

(** X10. A request without JSON, or whose [code] is missing, is not a string
    or is blank, is refused with 400 before the pipeline is called and
    nothing is written; the level is not even looked at. *)
Theorem analyse_requires_code w env (g : G) :
  flask (analyse JNull g env) w
  = (_error "Request body must be valid JSON" 400, w)
  /\ forall d,
      match dict_get d "code" (JStr "") with
      | JStr code => is_empty (strip code) = true
      | _ => True
      end ->
      flask (analyse (JObj d) g env) w
      = (_error "'code' field is required and must be a non-empty string"
                400, w).
Proof.
  split; [reflexivity|]. intros d Hcode.
  unfold flask, analyse, bind, lift, get.
  destruct (dict_get d "code" (JStr "")); try reflexivity.
  by rewrite Hcode.
Qed.

(** X11. When the pipeline raises, the answer is 500 with a fixed message
    that says nothing of the exception; the exception is printed on
    standard error, and no session is saved. *)
Theorem analyse_pipeline_failure_500 w env (g : G) body code level e :
  valid_analysis body code level ->
  run_pipeline code level = Raise e ->
  flask (analyse body g env) w
  = (_error ("Internal server error — check "
             ++ "server logs for details.") 500,
     with_traceback e w)
  /\ optimizations (with_traceback e w) = optimizations w.
Proof.
  intros Hv Hrun. split; [|reflexivity].
  analyse_to_pipeline Hv. rewrite Hrun. reflexivity.
Qed.

(** X12. A result that does not pass the error check is returned with 200
    and a null [session_id], and is not saved: the store is left as it
    was. *)
Theorem analyse_failed_check_not_saved w env (g : G) body code level result :
  valid_analysis body code level ->
  run_pipeline code level = Ok result ->
  truthy (dict_get result "passed_error_check" JNull) = false ->
  flask (analyse body g env) w
  = (MkResponse (JObj (dict_set "session_id" JNull result)) 200, w)
  /\ dict_lookup "session_id" (dict_set "session_id" JNull result)
     = Some JNull
  /\ (forall k, k <> "session_id" ->
                dict_lookup k (dict_set "session_id" JNull result)
                = dict_lookup k result).
Proof.
  intros Hv Hrun Hpass.
  split; [|split; [apply dict_lookup_set_eq
                  | intros k Hk; by apply dict_lookup_set_ne]].
  analyse_to_pipeline Hv. rewrite Hrun. cbn [ret].
  unfold bind. rewrite Hpass. reflexivity.
Qed.

(** X13. A result that passes the error check is saved for the caller. With
    an insert that fails for no reason and a new ObjectId, the answer is
    200 with the pipeline result, the new id under [session_id] and the
    other entries as the pipeline gave them, and the store gains exactly
    one session: the caller's, unstarred, with the canonical level and
    the change list of that level, dated to the millisecond. *)
Theorem analyse_saves_session w env (g : G) body code level result changes :
  valid_analysis body code level ->
  run_pipeline code level = Ok result ->
  truthy (dict_get result "passed_error_check" JNull) = true ->
  changes_for level result = Ok changes ->
  server_error env = None ->
  optimizations w !! new_oid env = None ->
  let d := OptDoc.set_created_at
             (utcnow env 1 - utcnow env 1 mod 1000)
             (session_of_result (user_id g) level changes result env) in
  flask (analyse body g env) w
  = (MkResponse (JObj (dict_set "session_id" (JStr (new_oid env)) result)) 200,
     with_session (new_oid env) d w)
  /\ dict_lookup "session_id"
                 (dict_set "session_id" (JStr (new_oid env)) result)
     = Some (JStr (new_oid env))
  /\ (forall k, k <> "session_id" ->
                dict_lookup k (dict_set "session_id" (JStr (new_oid env))
                                        result)
                = dict_lookup k result)
  /\ OptDoc.user_id d = user_id g
  /\ OptDoc.starred d = false
  /\ OptDoc.level d = level
  /\ In level ["none"; "level1"; "level2"].
Proof.
  intros Hv Hrun Hpass Hchanges Hsrv Hfresh d.
  split; [|split; [apply dict_lookup_set_eq
                  |split; [intros k Hk; by apply dict_lookup_set_ne
                          |repeat split]]].
  - analyse_to_pipeline Hv. rewrite Hrun. cbn [ret].
    unfold bind at 1. rewrite Hpass.
    unfold bind at 1, lift at 1. rewrite Hchanges.
    unfold try_except, bind at 1, save_optimization, bind at 1, insert_one.
    rewrite Hsrv, decide_False; [reflexivity|].
    rewrite Hfresh. by intros [].
  - destruct Hv as (_ & _ & _ & Hvalid). unfold str_in, VALID_LEVELS in Hvalid.
    cbn [existsb] in Hvalid.
    repeat match type of Hvalid with
           | context [String.eqb ?a ?b] =>
               destruct (String.eqb_spec a b) as [->|]
           end; cbn; auto. discriminate.
Qed.

(** X14. A request that names no level is served as one that asks for
    "none". *)
Theorem analyse_default_level w env (g : G) d :
  dict_lookup "optimization_level" d = None ->
  analyse (JObj d) g env w
  = analyse (JObj (dict_set "optimization_level" (JStr "none") d)) g env w.
Proof.
  intros Hd. unfold analyse, bind, lift, get.
  rewrite dict_get_set_eq, dict_get_set_ne by done.
  unfold dict_get at 2. rewrite Hd. reflexivity.
Qed.

(** X15. At level2 the change list is read inside the "l2" entry of the
    result. When the result passes the error check and has under "l2"
    something that is not an object (null, say), reading it raises
    outside any [try]: the answer is 500 and the result is neither
    returned nor saved. *)
Theorem analyse_level2_needs_object w env (g : G) body code result v :
  valid_analysis body code "level2" ->
  run_pipeline code "level2" = Ok result ->
  truthy (dict_get result "passed_error_check" JNull) = true ->
  dict_lookup "l2" result = Some v ->
  (forall d, v <> JObj d) ->
  flask (analyse body g env) w = (InternalServerError, w).
Proof.
  intros Hv Hrun Hpass Hl2 Hobj.
  analyse_to_pipeline Hv. rewrite Hrun. cbn [ret].
  unfold bind at 1. rewrite Hpass.
  unfold bind at 1, lift at 1, changes_for. cbn [String.eqb Ascii.eqb Bool.eqb].
  unfold dict_get at 1. rewrite Hl2.
  destruct v as [| | | | |l2]; try reflexivity. by destruct (Hobj l2).
Qed.

(** ** Registration and login *)

(** A field that is absent or null reads as the empty string, also when
    the body is not JSON at all or is an empty value. *)
Lemma field_missing body key :
  truthy body = false
  \/ (exists d, body = JObj d
                /\ (dict_lookup key d = None \/ dict_lookup key d = Some JNull)) ->
  field (or_ body (JObj [])) key = Ok "".
Proof.
  intros [Hf | (d & -> & Hk)]; unfold field, or_, get, dict_get.
  - by rewrite Hf.
  - destruct (truthy (JObj d)); [|destruct Hk as [Hk|Hk]].
    + by destruct Hk as [-> | ->].
    + reflexivity.
    + reflexivity.
Qed.

(** A field whose value is true, a number other than 0, a non-empty
    array or a non-empty object cannot be trimmed. *)
Lemma field_not_text d key v :
  dict_lookup key d = Some v -> truthy v = true -> (forall s, v <> JStr s) ->
  field (or_ (JObj d) (JObj [])) key = Raise (AttributeError v "strip").
Proof.
  intros Hk Ht Hs. unfold field, or_, get, dict_get.
  destruct d as [|kv d]; [discriminate Hk|]. cbn [truthy]. rewrite Hk, Ht.
  destruct v; try reflexivity. by destruct (Hs s).
Qed.

(** X16. Registration checks its three fields, trimmed, before anything else:
    when one of them is empty the answer is 400 "name, email and password
    are all required"; otherwise, when the trimmed password has fewer
    than 6 characters, it is 400 "Password must be at least 6
    characters". In both cases nothing is written. *)
Theorem register_validation w env body n e p :
  field (or_ body (JObj [])) "name" = Ok n ->
  field (or_ body (JObj [])) "email" = Ok e ->
  field (or_ body (JObj [])) "password" = Ok p ->
  (n = "" \/ e = "" \/ p = "" ->
   flask (register body env) w
   = (_error "name, email and password are all required" 400, w))
  /\ (n <> "" -> e <> "" -> (0 < String.length p < 6)%nat ->
      flask (register body env) w
      = (_error "Password must be at least 6 characters" 400, w)).
Proof.
  intros Hn He Hp. split.
  - intros Hempty. unfold flask, register, bind, lift. rewrite Hn, He, Hp.
    rewrite is_empty_str_lower.
    replace (is_empty n || is_empty e || is_empty p) with true; [done|].
    symmetry. rewrite !orb_true_iff, !is_empty_true. tauto.
  - intros Hnn Hen [Hp0 Hp6]. unfold flask, register, bind, lift.
    rewrite Hn, He, Hp, is_empty_str_lower.
    apply is_empty_false in Hnn as ->. apply is_empty_false in Hen as ->.
    replace (is_empty p) with false by (by destruct p; [cbn in Hp0; lia|]).
    cbn [orb].
    replace (len p <? 6)%nat with true; [reflexivity|].
    symmetry. apply Nat.ltb_lt. pose proof (len_le_length p). lia.
Qed.

(** X17. A credential that is JSON but not text makes the route fail before
    it validates anything: when the name, the email or the password of a
    registration, or the email or the password of a login, is true, a
    number other than 0, a non-empty array or a non-empty object, the
    answer is 500, not 400, and nothing is written. *)
Theorem credentials_not_text_500 w env d key v :
  dict_lookup key d = Some v ->
  truthy v = true ->
  (forall s, v <> JStr s) ->
  (In key ["name"; "email"; "password"] ->
   flask (register (JObj d) env) w = (InternalServerError, w))
  /\ (In key ["email"; "password"] ->
      flask (login (JObj d) env) w = (InternalServerError, w)).
Proof.
  intros Hk Ht Hs.
  pose proof (field_not_text d key v Hk Ht Hs) as Hraise.
  split; intros Hin; cbn in Hin.
  - unfold flask, register, bind, lift.
    destruct Hin as [<-|[<-|[<-|[]]]].
    + by rewrite Hraise.
    + destruct (field _ "name"); [|done]. by rewrite Hraise.
    + destruct (field _ "name"); [|done].
      destruct (field _ "email"); [|done]. by rewrite Hraise.
  - unfold flask, login, bind, lift.
    destruct Hin as [<-|[<-|[]]].
    + by rewrite Hraise.
    + destruct (field _ "email"); [|done]. by rewrite Hraise.
Qed.

(** What a registration that goes through does. *)
Lemma register_ok w env body N E P h :
  carries body "name" N ->
  carries body "email" E ->
  carries body "password" P ->
  strip N <> "" -> strip E <> "" ->
  (6 <= len (strip P))%nat ->
  hashpw (strip P) (gensalt env) = Ok h ->
  server_error env = None ->
  users w !! new_oid env = None ->
  (forall oid d, users w !! oid = Some d ->
                 UserDoc.email d <> stored_address E) ->
  let d := UserDoc.Make (strip N) (stored_address E) h
                        (utcnow env 0 - utcnow env 0 mod 1000) in
  flask (register body env) w
  = (MkResponse
       (JObj [("token",
               JStr (jwt_encode
                       (Payload.Make (JStr (new_oid env)) (JStr (strip N))
                                     (JStr (stored_address E))
                                     (now_utc env 0)
                                     (now_utc env 1 + 604800000000))));
              ("user",
               JObj [("_id", JStr (new_oid env));
                     ("name", JStr (strip N));
                     ("email", JStr (stored_address E));
                     ("created_at", JStr (isoformat (utcnow env 0)))])])
       201,
     with_user (new_oid env) d w)
  /\ users (with_user (new_oid env) d w) !! new_oid env = Some d
  /\ optimizations (with_user (new_oid env) d w) = optimizations w.
Proof.
  intros HN%field_carries HE%field_carries HP%field_carries HNn HEn HPl Hh
         Hsrv Hfresh Hnew d.
  split; [|split; [apply lookup_insert_eq | reflexivity]].
  unfold flask, register. unfold bind at 1, lift at 1. rewrite HN.
  unfold bind at 1, lift at 1. rewrite HE.
  unfold bind at 1, lift at 1. rewrite HP.
  rewrite is_empty_str_lower.
  apply is_empty_false in HNn as ->. apply is_empty_false in HEn as ->.
  replace (is_empty (strip P)) with false
    by (symmetry; apply is_empty_false, len_empty; lia).
  cbn [orb]. apply Nat.ltb_ge in HPl as ->.
  unfold bind at 1, lift at 1. rewrite Hh.
  unfold bind, try_except, create_user, bind, users_insert_one.
  rewrite Hsrv, decide_False by (rewrite Hfresh; by intros []).
  rewrite decide_False; [reflexivity|].
  intros (oid & d0 & Hd0 & He0). by apply (Hnew oid d0).
Qed.

(** X18. A successful registration: with a name, an email and a password of
    6 characters or more once trimmed, a password bcrypt hashes, an
    address no user has, a new ObjectId and an insert that fails for no
    reason, the answer is 201 with the token of the new user, which
    expires 7 days after it is made, and the user's public fields, the
    date as the clock gave it. The user is stored with the trimmed name,
    the address trimmed and lowercased, the hash bcrypt made of the
    trimmed password and the date cut to the millisecond; the answer
    carries neither the password nor its hash. *)
Theorem register_creates_user w env body N E P h :
  carries body "name" N ->
  carries body "email" E ->
  carries body "password" P ->
  strip N <> "" -> strip E <> "" ->
  (6 <= len (strip P))%nat ->
  hashpw (strip P) (gensalt env) = Ok h ->
  server_error env = None ->
  users w !! new_oid env = None ->
  (forall oid d, users w !! oid = Some d ->
                 UserDoc.email d <> stored_address E) ->
  let d := UserDoc.Make (strip N) (stored_address E) h
                        (utcnow env 0 - utcnow env 0 mod 1000) in
  flask (register body env) w
  = (MkResponse
       (JObj [("token",
               JStr (jwt_encode
                       (Payload.Make (JStr (new_oid env)) (JStr (strip N))
                                     (JStr (stored_address E))
                                     (now_utc env 0)
                                     (now_utc env 1 + 604800000000))));
              ("user",
               JObj [("_id", JStr (new_oid env));
                     ("name", JStr (strip N));
                     ("email", JStr (stored_address E));
                     ("created_at", JStr (isoformat (utcnow env 0)))])])
       201,
     with_user (new_oid env) d w)
  /\ users (with_user (new_oid env) d w) !! new_oid env = Some d
  /\ optimizations (with_user (new_oid env) d w) = optimizations w.
Proof. apply register_ok. Qed.

(** A login with a variant of the address of a stored user. *)
Lemma login_with_variant w env oid d body E E' P' :
  unique_emails (users w) ->
  users w !! oid = Some d ->
  UserDoc.email d = stored_address E ->
  email_variant E E' ->
  carries body "email" E' ->
  carries body "password" P' ->
  strip E <> "" -> strip P' <> "" ->
  flask (login body env) w
  = (login_answer oid d env (checkpw (strip P') (UserDoc.password d)), w).
Proof.
  intros Hinv Hd He Hvar HE' HP' HEn HPn.
  rewrite (login_checks_stored_hash w env body E' P' oid d); try done.
  - unfold email_variant in Hvar.
    rewrite <- Hvar, is_empty_str_lower. by apply is_empty_false.
  - by apply is_empty_false.
  - by rewrite <- (variant_stored E E').
Qed.

(** The invariant of the users holds on. *)
Lemma later_users_inv w w' :
  users_inv (users w) -> later w w' -> users_inv (users w').
Proof.
  intros Hw. induction 1 as [|w' r env _ IH]; [done|].
  rewrite flask_world.
  destruct r; cbn [view];
    try (by rewrite ?keeps_login, ?keeps_me, ?keeps_analyse,
           ?keeps_get_history, ?keeps_delete_session,
           ?keeps_rename_session, ?keeps_star_session,
           ?keeps_profile_stats).
  by apply register_users_inv.
Qed.

(** X19. Registering, then logging in. After a successful registration, and
    after any further requests, a login with any case or whitespace
    variant of the registered address and a password that is not blank
    is decided by [bcrypt.checkpw] alone, on the trimmed password of the
    login and the hash made at registration. When it accepts, the answer
    is 200 with a token whose subject is the [_id] of the registered
    user, issued at the first clock reading and expiring 7 days
    (604800000000 microseconds) after the second, and with the user's
    [_id], name and address, and no hash; when it refuses, the answer is
    the 401 of an unknown address; when it raises, or when
    [password.encode()] does, the answer is 500. The login writes
    nothing. *)
Theorem register_then_login w env env' body body' N E P h E' P' w2 :
  users_inv (users w) ->
  carries body "name" N ->
  carries body "email" E ->
  carries body "password" P ->
  strip N <> "" -> strip E <> "" ->
  (6 <= len (strip P))%nat ->
  hashpw (strip P) (gensalt env) = Ok h ->
  server_error env = None ->
  users w !! new_oid env = None ->
  (forall oid d, users w !! oid = Some d ->
                 UserDoc.email d <> stored_address E) ->
  later (flask (register body env) w).2 w2 ->
  email_variant E E' ->
  carries body' "email" E' ->
  carries body' "password" P' ->
  strip P' <> "" ->
  status (flask (register body env) w).1 = 201
  /\ flask (login body' env') w2
     = (match checkpw (strip P') h with
        | Ok true =>
            MkResponse
              (JObj [("token",
                      JStr (jwt_encode
                              (Payload.Make (JStr (new_oid env))
                                            (JStr (strip N))
                                            (JStr (stored_address E))
                                            (now_utc env' 0)
                                            (now_utc env' 1 + 604800000000))));
                     ("user", JObj [("_id", JStr (new_oid env));
                                    ("name", JStr (strip N));
                                    ("email", JStr (stored_address E))])])
              200
        | Ok false =>
            MkResponse (JObj [("error", JStr "Invalid email or password")])
                       401
        | Raise _ => MkResponse (JStr "Internal Server Error") 500
        end,
        w2).
Proof.
  intros Hinv HN HE HP HNn HEn HPl Hh Hsrv Hfresh Hnew Hlater Hvar HE' HP'
         HPn.
  destruct (register_ok w env body N E P h) as (Hreg & Hd & _); try done.
  rewrite Hreg in Hlater |- *. cbn [fst snd status] in *.
  split; [reflexivity|].
  set (d := UserDoc.Make _ _ _ _) in *.
  assert (Hinv1 : users_inv (users (with_user (new_oid env) d w))).
  { apply users_inv_insert; try done.
    - by exists E.
    - intros (oid & d0 & Hd0 & He0). by apply (Hnew oid d0). }
  rewrite (login_with_variant w2 env' (new_oid env) d body' E E' P');
    try done.
  - by apply (later_users_inv _ _ Hinv1 Hlater).
  - by apply (later_users _ _ _ _ Hlater).
Qed.

(** ** The current user and the token check *)

(** What [me] answers for an identity. *)
Lemma me_cases w (g : G) :
  flask (me g) w
  = (match ObjectId (user_id g) with
     | Raise _ => InternalServerError
     | Ok oid =>
         match users w !! oid with
         | Some d =>
             MkResponse
               (JObj [("user",
                       JObj [("_id", JStr oid);
                             ("name", JStr (UserDoc.name d));
                             ("email", JStr (UserDoc.email d));
                             ("created_at",
                              JStr (isoformat (UserDoc.created_at d)))])])
               200
         | None => _error "User not found" 404
         end
     end, w).
Proof.
  unfold flask, me, find_user_by_id, bind, lift, users_find_one_by_id, gets.
  destruct (ObjectId (user_id g)) as [oid|e]; [|reflexivity].
  by destruct (users w !! oid).
Qed.

(** X20. [me] answers with the public fields of the user whose [_id] the
    identity names: [_id], name, address and creation date, never the
    password hash. It answers 404 "User not found" when no user has that
    [_id], and 500 when the identity is a string [ObjectId] refuses. It
    writes nothing. *)
Theorem me_public_fields w (g : G) :
  (forall oid d,
      ObjectId (user_id g) = Ok oid -> users w !! oid = Some d ->
      flask (me g) w
      = (MkResponse
           (JObj [("user", JObj (_serialize_user_dict oid d))]) 200, w)
      /\ dict_lookup "password" (_serialize_user_dict oid d) = None)
  /\ (forall oid,
        ObjectId (user_id g) = Ok oid -> users w !! oid = None ->
        flask (me g) w = (_error "User not found" 404, w))
  /\ (malformed_id (user_id g) ->
      flask (me g) w = (InternalServerError, w)).
Proof.
  rewrite me_cases. split; [|split].
  - intros oid d Hid Hd. by rewrite Hid, Hd.
  - intros oid Hid Hd. by rewrite Hid, Hd.
  - intros Hbad%ObjectId_malformed. by rewrite Hbad.
Qed.

Lemma split_space_1_Bearer token :
  item_1 (split_space_1 ("Bearer " ++ token)) = Ok token.
Proof. reflexivity. Qed.

Lemma prefix_Bearer s :
  String.prefix "Bearer " s = true -> exists token, s = "Bearer " ++ token.
Proof.
  intros Hp.
  do 7 (destruct s as [|? s]; [discriminate Hp|];
        cbn [String.prefix] in Hp;
        match type of Hp with
        | context [ascii_dec ?a ?b] =>
            destruct (ascii_dec a b) as [<-|]; [|discriminate Hp]
        end).
  by exists s.
Qed.

Lemma prefix_Bearer_true token :
  String.prefix "Bearer " ("Bearer " ++ token) = true.
Proof. simpl. by destruct token. Qed.

(** The decorator on a header that starts with "Bearer ". *)
Lemma require_auth_Bearer (f : G -> M Response) token w :
  require_auth f (Some ("Bearer " ++ token)) w
  = match jwt_decode token with
    | ExpiredSignatureError =>
        (Ok (_error "Token has expired — please log in again" 401), w)
    | InvalidTokenError => (Ok (_error "Invalid token" 401), w)
    | Decoded payload =>
        match claim_sub payload with
        | None => (Raise (KeyError "sub"), w)
        | Some sub =>
            f (MkG sub (payload_get (claim_name payload) (JStr ""))
                       (payload_get (claim_email payload) (JStr ""))) w
        end
    end.
Proof.
  unfold require_auth. cbv zeta. cbn [header_get].
  rewrite prefix_Bearer_true. cbn [negb]. unfold bind, lift.
  rewrite split_space_1_Bearer.
  destruct (jwt_decode token) as [payload| |]; try reflexivity.
  by destruct (claim_sub payload).
Qed.

(** X21. No view behind [require_auth] runs without a token that decodes.
    Unless the Authorization header is "Bearer " followed by a token
    PyJWT decodes, the answer is 401 with one of three messages (header
    missing or malformed, token expired, token invalid), the view is not
    called and nothing is written. *)
Theorem require_auth_rejects (f : G -> M Response) authorization w :
  (forall token payload,
      authorization = Some ("Bearer " ++ token) ->
      jwt_decode token <> Decoded payload) ->
  exists message,
    flask (require_auth f authorization) w = (_error message 401, w)
    /\ In message ["Missing or invalid Authorization header";
                   "Token has expired — please log in again";
                   "Invalid token"].
Proof.
  intros Hno. unfold flask.
  destruct (String.prefix "Bearer " (header_get authorization "")) eqn:Hp.
  - destruct authorization as [h|]; [|discriminate Hp]. cbn [header_get] in Hp.
    destruct (prefix_Bearer h Hp) as [token ->].
    rewrite require_auth_Bearer. specialize (Hno token).
    destruct (jwt_decode token) as [payload| |].
    + by destruct (Hno payload).
    + eexists. split; [reflexivity|]. cbn. auto.
    + eexists. split; [reflexivity|]. cbn. auto.
  - unfold require_auth. cbv zeta. rewrite Hp.
    eexists. split; [reflexivity|]. cbn. auto.
Qed.

(** X22. With the header "Bearer " followed by a token that decodes,
    [require_auth] runs the view with the identity of the payload: its
    [sub] as user id, its name and email, each the empty string when
    absent. The token is everything after the first space of the header,
    spaces included. A payload without [sub] makes the decorator raise
    KeyError: the answer is 500 and the view is not called. *)
Theorem require_auth_accepts (f : G -> M Response) token payload w :
  jwt_decode token = Decoded payload ->
  (forall uid,
      claim_sub payload = Some uid ->
      require_auth f (Some ("Bearer " ++ token)) w
      = f (MkG uid (payload_get (claim_name payload) (JStr ""))
                   (payload_get (claim_email payload) (JStr ""))) w)
  /\ (claim_sub payload = None ->
      flask (require_auth f (Some ("Bearer " ++ token))) w
      = (InternalServerError, w)).
Proof.
  intros Hdec. split; [intros uid Hsub|intros Hsub]; unfold flask;
    by rewrite require_auth_Bearer, Hdec, Hsub.
Qed.

(** X23. From login to [me]. Provided PyJWT decodes the token a login has
    just issued to a payload with the subject that was signed, that
    token opens [/api/auth/me]: with the header "Bearer " and the token,
    the route answers 200 with the public fields of the user who logged
    in, the address being the one the program keeps for the address of
    the login. *)
Theorem login_token_opens_me w env oid d body E P token :
  (forall p s, jwt_encode p = token -> Payload.sub p = JStr s ->
               exists c, jwt_decode token = Decoded c
                         /\ claim_sub c = Some s) ->
  users_inv (users w) ->
  users w !! oid = Some d ->
  ObjectId oid = Ok oid ->
  UserDoc.email d = stored_address E ->
  carries body "email" E ->
  carries body "password" P ->
  strip E <> "" -> strip P <> "" ->
  checkpw (strip P) (UserDoc.password d) = Ok true ->
  dict_lookup "token"
    match app.body (flask (login body env) w).1 with JObj r => r | _ => [] end
  = Some (JStr token) ->
  flask (require_auth me (Some ("Bearer " ++ token))) w
  = (MkResponse (JObj [("user", JObj (_serialize_user_dict oid d))]) 200, w).
Proof.
  intros Hjwt [_ Huniq] Hd Hid He HE HP HEn HPn Hpw Htoken.
  rewrite (login_checks_stored_hash w env body E P oid d) in Htoken;
    try done; try by apply is_empty_false.
  2: { rewrite is_empty_str_lower. by apply is_empty_false. }
  rewrite Hpw in Htoken. cbn in Htoken. injection Htoken as <-.
  destruct (Hjwt (Payload.Make (JStr oid) (JStr (UserDoc.name d))
                               (JStr (UserDoc.email d)) (now_utc env 0)
                               (now_utc env 1 + 604800000000)) oid
                 eq_refl eq_refl)
    as (c & Hdec & Hsub).
  unfold flask at 1. rewrite require_auth_Bearer, Hdec, Hsub.
  pose proof (me_cases w (MkG oid (payload_get (claim_name c) (JStr ""))
                              (payload_get (claim_email c) (JStr "")))) as Hme.
  cbn [user_id] in Hme. rewrite Hid, Hd in Hme.
  exact Hme.
Qed.

(** ** Bodies that are not objects, inserts that fail *)

(** X24. A request body that is JSON but not an object. [register], [login]
    and [rename_session] replace a body that Python counts as false
    (null, false, 0, the empty string or array) by the empty object and
    answer their 400 for a missing field; any other such body makes them
    raise, and the answer is 500. [analyse] only replaces nothing: every
    body other than null and an object makes it raise. Nothing is
    written. *)
Theorem body_not_an_object w env (g : G) sid body :
  (forall d, body <> JObj d) ->
  (truthy body = false ->
   flask (register body env) w
   = (_error "name, email and password are all required" 400, w)
   /\ flask (login body env) w
      = (_error "email and password are required" 400, w)
   /\ flask (rename_session sid body g) w = (_error "'name' is required" 400, w))
  /\ (truthy body = true ->
      flask (register body env) w = (InternalServerError, w)
      /\ flask (login body env) w = (InternalServerError, w)
      /\ flask (rename_session sid body g) w = (InternalServerError, w))
  /\ (body <> JNull ->
      flask (analyse body g env) w = (InternalServerError, w)).
Proof.
  intros Hobj. split; [|split].
  - intros Hf.
    assert (Hfield : forall key, field (or_ body (JObj [])) key = Ok "")
      by (intros key; apply field_missing; by left).
    unfold flask, register, login, rename_session, bind, lift.
    rewrite !Hfield, is_empty_str_lower. repeat split; reflexivity.
  - intros Ht. unfold flask, register, login, rename_session, bind, lift,
      field, or_. rewrite Ht.
    destruct body as [| | | | |d]; try discriminate Ht;
      try (repeat split; reflexivity). by destruct (Hobj d).
  - intros Hnull. unfold flask, analyse, bind, lift.
    destruct body as [| | | | |d]; try reflexivity; [done|].
    by destruct (Hobj d).
Qed.

(** X25. When the insert of the user fails, [register] tells a conflict from
    another failure by the text of the exception: for a registration
    that passes validation and whose password bcrypt hashes, the answer
    is 409 "An account with that email already exists" when the text,
    lowercased, contains "duplicate" or the text contains "11000",
    whatever raised it; otherwise the exception is printed and the answer
    is 500 "Could not create account". In both cases no user is
    created. *)
Theorem register_insert_failure w env body N E P h e :
  carries body "name" N ->
  carries body "email" E ->
  carries body "password" P ->
  strip N <> "" -> strip E <> "" ->
  (6 <= len (strip P))%nat ->
  hashpw (strip P) (gensalt env) = Ok h ->
  server_error env = Some e ->
  flask (register body env) w
  = if contains "duplicate" (str_lower (exn_str e))
       || contains "11000" (exn_str e)
    then (MkResponse
            (JObj [("error",
                    JStr "An account with that email already exists")]) 409,
          w)
    else (MkResponse (JObj [("error", JStr "Could not create account")]) 500,
          MkWorld (users w) (optimizations w) (stderr w ++ [e])).
Proof.
  intros HN%field_carries HE%field_carries HP%field_carries HNn HEn HPl Hh
         Hsrv.
  unfold flask, register. unfold bind at 1, lift at 1. rewrite HN.
  unfold bind at 1, lift at 1. rewrite HE.
  unfold bind at 1, lift at 1. rewrite HP.
  rewrite is_empty_str_lower.
  apply is_empty_false in HNn as ->. apply is_empty_false in HEn as ->.
  replace (is_empty (strip P)) with false
    by (symmetry; apply is_empty_false, len_empty; lia).
  cbn [orb]. apply Nat.ltb_ge in HPl as ->.
  unfold bind at 1, lift at 1. rewrite Hh.
  unfold bind, try_except, create_user, bind, users_insert_one.
  rewrite Hsrv. by destruct (_ || _).
Qed.

(** X26. The rule on the length of the password counts characters, as
    [len] does, not bytes: a registration whose fields are not blank and
    whose trimmed password has fewer than 6 characters, whatever their
    encoding takes, is answered 400 "Password must be at least 6
    characters", and nothing is written. *)
Theorem password_length_in_characters w env body N E P :
  carries body "name" N ->
  carries body "email" E ->
  carries body "password" P ->
  strip N <> "" -> strip E <> "" -> strip P <> "" ->
  (len (strip P) < 6)%nat ->
  flask (register body env) w
  = (MkResponse
       (JObj [("error", JStr "Password must be at least 6 characters")]) 400,
     w).
Proof.
  intros HN%field_carries HE%field_carries HP%field_carries HNn HEn HPn HPl.
  unfold flask, register. unfold bind at 1, lift at 1. rewrite HN.
  unfold bind at 1, lift at 1. rewrite HE.
  unfold bind at 1, lift at 1. rewrite HP.
  rewrite is_empty_str_lower.
  apply is_empty_false in HNn as ->. apply is_empty_false in HEn as ->.
  apply is_empty_false in HPn as ->.
  cbn [orb]. by apply Nat.ltb_lt in HPl as ->.
Qed.

(** X27. A password that cannot be hashed. When [password.encode()] raises
    (a lone surrogate in the password) or [bcrypt.hashpw] does (with
    bcrypt 5, a password of more than 72 bytes), on a registration that
    passes validation, the exception is raised outside the [try] of the
    route: the answer is 500, whether the address is taken or not, and
    nothing is written. *)
Theorem register_hash_failure w env body N E P e :
  carries body "name" N ->
  carries body "email" E ->
  carries body "password" P ->
  strip N <> "" -> strip E <> "" ->
  (6 <= len (strip P))%nat ->
  hashpw (strip P) (gensalt env) = Raise e ->
  flask (register body env) w
  = (MkResponse (JStr "Internal Server Error") 500, w).
Proof.
  intros HN%field_carries HE%field_carries HP%field_carries HNn HEn HPl Hh.
  unfold flask, register. unfold bind at 1, lift at 1. rewrite HN.
  unfold bind at 1, lift at 1. rewrite HE.
  unfold bind at 1, lift at 1. rewrite HP.
  rewrite is_empty_str_lower.
  apply is_empty_false in HNn as ->. apply is_empty_false in HEn as ->.
  replace (is_empty (strip P)) with false
    by (symmetry; apply is_empty_false, len_empty; lia).
  cbn [orb]. apply Nat.ltb_ge in HPl as ->.
  unfold bind at 1, lift at 1. by rewrite Hh.
Qed.

End MoreProperties.

(* ===================================================================== *)
(** * Whitespace around an address                                        *)
(* ===================================================================== *)

Section Whitespace.
Context `{Libs}.

Ltac bool_to_prop H :=
  repeat first [ rewrite andb_true_iff in H | rewrite orb_true_iff in H
               | rewrite Nat.eqb_eq in H | rewrite Nat.leb_le in H ].

(** Settles a fact on the bytes of the whitespace characters. *)
Ltac bytes :=
  unfold is_space, is_space2, is_space3 in *; cbv zeta in *;
  repeat match goal with
         | H : _ = true |- _ => progress bool_to_prop H
         | H : _ && _ = true |- _ => progress bool_to_prop H
         | H : _ || _ = true |- _ => progress bool_to_prop H
         end;
  try (apply not_true_iff_false;
       let H := fresh in intros H; bool_to_prop H);
  lia.

Lemma is_space2_first a b : is_space2 a b = true -> is_space a = false.
Proof. intros Hs. bytes. Qed.

Lemma is_space2_last a b : is_space2 a b = true -> is_space b = false.
Proof. intros Hs. bytes. Qed.

Lemma is_space3_first a b c :
  is_space3 a b c = true -> is_space a = false /\ is_space2 a b = false.
Proof. intros Hs. split; bytes. Qed.

Lemma is_space3_last a b c :
  is_space3 a b c = true -> is_space c = false /\ is_space2 b c = false.
Proof. intros Hs. split; bytes. Qed.

#[local] Arguments String.append : simpl nomatch.

Lemma space_width_le s : (space_width s <= String.length s)%nat.
Proof.
  destruct s as [|a [|b [|c s]]]; cbn [space_width String.length];
    repeat case_match; lia.
Qed.

Lemma space_width_rev_le s : (space_width_rev s <= String.length s)%nat.
Proof.
  destruct s as [|a [|b [|c s]]]; cbn [space_width_rev String.length];
    repeat case_match; lia.
Qed.

Lemma length_drop_bytes k s :
  String.length (drop_bytes k s) = (String.length s - k)%nat.
Proof. revert s. induction k as [|k IH]; intros [|a s]; cbn; auto. Qed.

Lemma strip_front_fuel width n m s :
  (forall t, (width t <= String.length t)%nat) ->
  (String.length s <= n)%nat -> (String.length s <= m)%nat ->
  strip_front width n s = strip_front width m s.
Proof.
  intros Hle. revert m s. induction n as [|n IH]; intros m s Hn Hm.
  - destruct s; [|cbn in Hn; lia].
    destruct m; cbn; [done|].
    specialize (Hle ""). cbn in Hle. by destruct (width ""); [|lia].
  - destruct m as [|m].
    + destruct s; [|cbn in Hm; lia]. cbn.
      specialize (Hle ""). cbn in Hle. by destruct (width ""); [|lia].
    + cbn [strip_front]. destruct (width s) as [|k] eqn:Hk; [done|].
      apply IH; rewrite length_drop_bytes;
        pose proof (Hle s) as Hs; rewrite Hk in Hs; lia.
Qed.

Lemma strip_front_stop width s :
  width s = 0%nat -> strip_front width (String.length s) s = s.
Proof. intros Hw. destruct s; cbn; [done|]. by rewrite Hw. Qed.

Lemma strip_front_step width s k :
  (forall t, (width t <= String.length t)%nat) ->
  width s = S k ->
  strip_front width (String.length s) s
  = strip_front width (String.length (drop_bytes (S k) s))
                (drop_bytes (S k) s).
Proof.
  intros Hle Hw. destruct s as [|a s].
  - specialize (Hle ""). rewrite Hw in Hle. cbn in Hle. lia.
  - cbn [String.length strip_front]. rewrite Hw.
    apply strip_front_fuel; [done| |done].
    rewrite length_drop_bytes. cbn. lia.
Qed.

Lemma lstrip_blank l s : blank l -> lstrip (l ++ s) = lstrip s.
Proof.
  unfold lstrip. induction 1 as [|a l Ha _ IH|a b l Hab _ IH|a b c l Habc _ IH];
    [done|..].
  - rewrite (strip_front_step _ _ 0 space_width_le);
      [exact IH | simpl; by rewrite Ha].
  - rewrite (strip_front_step _ _ 1 space_width_le);
      [exact IH | simpl; by rewrite (is_space2_first a b), Hab].
  - destruct (is_space3_first a b c Habc) as [Ha Hab].
    rewrite (strip_front_step _ _ 2 space_width_le);
      [exact IH | simpl; by rewrite Ha, Hab, Habc].
Qed.

Lemma append_assoc s t u : (s ++ t) ++ u = s ++ (t ++ u).
Proof. induction s as [|a s IH]; simpl; [done|]. by rewrite IH. Qed.

Lemma rev_onto_app s acc : rev_onto s acc = reverse s ++ acc.
Proof.
  unfold reverse. revert acc. induction s as [|a s IH]; intros acc; cbn; [done|].
  rewrite IH, (IH (String a "")). by rewrite append_assoc.
Qed.

Lemma reverse_cons a s : reverse (String a s) = reverse s ++ String a "".
Proof. unfold reverse at 1. cbn. apply rev_onto_app. Qed.

Lemma append_empty_r s : s ++ "" = s.
Proof. induction s as [|a s IH]; simpl; [done|]. by rewrite IH. Qed.

Lemma reverse_app s t : reverse (s ++ t) = reverse t ++ reverse s.
Proof.
  induction s as [|a s IH]; simpl.
  - by rewrite append_empty_r.
  - by rewrite !reverse_cons, IH, append_assoc.
Qed.

Lemma reverse_involutive s : reverse (reverse s) = s.
Proof.
  induction s as [|a s IH]; [done|].
  by rewrite reverse_cons, reverse_app, IH.
Qed.

Lemma length_append s t :
  String.length (s ++ t) = (String.length s + String.length t)%nat.
Proof. induction s as [|a s IH]; simpl; [done|]. by rewrite IH. Qed.

Lemma length_reverse s : String.length (reverse s) = String.length s.
Proof.
  induction s as [|a s IH]; [done|].
  rewrite reverse_cons, length_append, IH. cbn. lia.
Qed.

Lemma blank_rev_app s t : blank_rev s -> blank_rev t -> blank_rev (s ++ t).
Proof.
  intros Hs Ht. induction Hs; simpl; [done|..]; by constructor.
Qed.

Lemma blank_reverse l : blank l -> blank_rev (reverse l).
Proof.
  induction 1 as [|a l Ha _ IH|a b l Hab _ IH|a b c l Habc _ IH];
    [constructor|..]; rewrite !reverse_cons, ?append_assoc;
    apply blank_rev_app; try done; simpl.
  - by repeat constructor.
  - apply blank_rev_2; [done | constructor].
  - apply blank_rev_3; [done | constructor].
Qed.

(** Stripping eats a blank string whole. *)
Lemma strip_blank_rev rl t :
  blank_rev rl ->
  strip_front space_width_rev (String.length (rl ++ t)) (rl ++ t)
  = strip_front space_width_rev (String.length t) t.
Proof.
  induction 1 as [|a l Ha _ IH|a b l Hab _ IH|a b c l Habc _ IH]; [done|..].
  - rewrite (strip_front_step _ _ 0 space_width_rev_le);
      [exact IH | simpl; by rewrite Ha].
  - rewrite (strip_front_step _ _ 1 space_width_rev_le);
      [exact IH | simpl; by rewrite (is_space2_last a b), Hab].
  - destruct (is_space3_last a b c Habc) as [Hc Hbc].
    rewrite (strip_front_step _ _ 2 space_width_rev_le);
      [exact IH | simpl; by rewrite Hc, Hbc, Habc].
Qed.

Lemma rstrip_blank s r : blank r -> rstrip (s ++ r) = rstrip s.
Proof.
  intros Hr%blank_reverse. unfold rstrip.
  rewrite <- (length_reverse (s ++ r)), <- (length_reverse s), reverse_app.
  by rewrite strip_blank_rev.
Qed.

(** The last byte of a blank string starts no character, and the byte
    before it starts none of three bytes. *)
Lemma blank_rev_head a s b :
  blank_rev (String a s) -> is_space2 a b = false.
Proof. inversion 1; subst; bytes. Qed.

Lemma blank_rev_head3 a s b c :
  blank_rev (String a s) -> is_space3 a b c = false.
Proof. inversion 1; subst; bytes. Qed.

Lemma blank_rev_second a b s c d :
  blank_rev (String b (String a s)) -> is_space3 a c d = false.
Proof.
  inversion 1 as [|? ? ? Hs|? ? ? ? Hs|? ? ? ? ? Hs]; subst.
  - by apply (blank_rev_head3 a s).
  - bytes.
  - bytes.
Qed.

(** Whitespace before a string makes no byte of the string whitespace. *)
Lemma space_width_rev_before u rl :
  u <> "" -> space_width_rev u = 0%nat -> blank_rev rl ->
  space_width_rev (u ++ rl) = 0%nat.
Proof.
  intros Hu Hw Hrl.
  destruct u as [|c [|b [|a u]]]; [done|..]; simpl in *.
  - destruct (is_space c); [done|].
    destruct rl as [|b rl]; [done|].
    rewrite (blank_rev_head b rl c Hrl).
    destruct rl as [|a rl]; [done|].
    by rewrite (blank_rev_second a b rl b c Hrl).
  - destruct (is_space c); [done|]. destruct (is_space2 b c); [done|].
    destruct rl as [|a rl]; [done|].
    by rewrite (blank_rev_head3 a rl b c Hrl).
  - done.
Qed.

Lemma space_width_rev_app u t k :
  space_width_rev u = S k -> space_width_rev (u ++ t) = S k.
Proof.
  destruct u as [|c [|b [|a u]]]; simpl; [done|..].
  - by destruct (is_space c).
  - destruct (is_space c); [done|]. by destruct (is_space2 b c).
  - done.
Qed.

Lemma drop_bytes_app k u t :
  (k <= String.length u)%nat -> drop_bytes k (u ++ t) = drop_bytes k u ++ t.
Proof.
  revert u. induction k as [|k IH]; intros [|a u] Hk; simpl in *;
    try done; try lia.
  apply IH. lia.
Qed.

(** Stripping a string that comes after whitespace stops where it stops
    on the string alone, unless it eats the string whole. *)
Lemma strip_rev_before rl n u :
  blank_rev rl -> (String.length u <= n)%nat ->
  let stripped := strip_front space_width_rev (String.length u) u in
  strip_front space_width_rev (String.length (u ++ rl)) (u ++ rl)
  = if decide (stripped = "") then "" else stripped ++ rl.
Proof.
  intros Hrl. revert u. induction n as [|n IH]; intros u Hn stripped.
  - destruct u; [|simpl in Hn; lia]. subst stripped. simpl.
    rewrite <- (append_empty_r rl). by rewrite strip_blank_rev.
  - destruct (decide (u = "")) as [->|Hu].
    { subst stripped. simpl.
      rewrite <- (append_empty_r rl). by rewrite strip_blank_rev. }
    subst stripped.
    destruct (space_width_rev u) as [|k] eqn:Hw.
    + rewrite (strip_front_stop _ u Hw).
      rewrite strip_front_stop by (by apply space_width_rev_before).
      by rewrite decide_False.
    + pose proof (space_width_rev_le u) as Hle. rewrite Hw in Hle.
      rewrite (strip_front_step _ u k space_width_rev_le Hw).
      rewrite (strip_front_step _ (u ++ rl) k space_width_rev_le)
        by (by apply space_width_rev_app).
      rewrite drop_bytes_app by done.
      apply IH. rewrite length_drop_bytes. lia.
Qed.

Lemma reverse_empty s : reverse s = "" -> s = "".
Proof.
  intros Hs. apply (f_equal String.length) in Hs.
  rewrite length_reverse in Hs. by destruct s.
Qed.

(** [s.strip()] drops whatever whitespace surrounds a string. *)
Lemma strip_padded l s r :
  blank l -> blank r -> strip (l ++ s ++ r) = strip s.
Proof.
  intros Hl Hr. unfold strip.
  rewrite <- append_assoc, rstrip_blank by done.
  unfold rstrip at 1.
  rewrite <- (length_reverse (l ++ s)), reverse_app.
  rewrite (strip_rev_before _ (String.length (reverse s)))
    by (by apply blank_reverse || done).
  unfold rstrip. rewrite (length_reverse s).
  case_decide as Hempty.
  - by rewrite Hempty.
  - rewrite reverse_app, reverse_involutive. by apply lstrip_blank.
Qed.

(** X28. Whitespace around an address does not count. Whatever whitespace
    characters, of ASCII or not, come before and after it, a field of a
    request is read as the same string, and the program keeps the same
    address for it; two addresses whose cores, trimmed and lowercased,
    are the same string are variants of each other whatever whitespace
    surrounds them. *)
Theorem padded_address_is_variant body body' key l E r l' E' r' :
  blank l -> blank r -> blank l' -> blank r' ->
  (carries body key (l ++ E ++ r) -> carries body' key E ->
   field (or_ body (JObj [])) key = field (or_ body' (JObj [])) key)
  /\ stored_address (l ++ E ++ r) = stored_address E
  /\ (str_lower (strip E) = str_lower (strip E') ->
      email_variant (l ++ E ++ r) (l' ++ E' ++ r')).
Proof.
  intros Hl Hr Hl' Hr'. split; [|split].
  - intros Hb%field_carries Hb'%field_carries.
    by rewrite Hb, Hb', strip_padded.
  - unfold stored_address. by rewrite strip_padded.
  - intros Hcore. unfold email_variant. by rewrite !strip_padded.
Qed.

End Whitespace.

(* ===================================================================== *)
(** * The further properties at work on the sample data                   *)
(* ===================================================================== *)


Lemma malformed_session_id_500_witness :
  flask (delete_session "42" Sample.alice) Sample.world
  = (InternalServerError, Sample.world).
Proof.
  destruct (malformed_session_id_500 (H := Sample.libs) Sample.world "42" Sample.alice)
    as (_ & Hd & _); [left; cbn; lia | exact Hd].
Defined.

Lemma delete_own_session_witness :
  flask (delete_session Sample.sid Sample.alice) Sample.world
  = (MkResponse (JObj [("deleted", JBool true)]) 200,
     without_session Sample.sid Sample.world)
  /\ flask (delete_session Sample.sid Sample.alice)
           (without_session Sample.sid Sample.world)
     = (NotFoundOrForbidden, without_session Sample.sid Sample.world).
Proof.
  destruct (delete_own_session (H := Sample.libs) Sample.world Sample.sid Sample.sid
              (Sample.session "alice" "level1" false 100000) Sample.alice)
    as (_ & Hd & _ & _ & _ & _ & Hd' & _); try reflexivity.
  split; assumption.
Defined.


Lemma save_then_fetch_witness :
  let w' := with_session MoreSamples.other_sid
              (OptDoc.Make "alice" "Session · 01 Jan 1970, 00:00"
                           (JStr "x = 1") (JStr "x = 1") "none" (JArr [])
                           (JObj []) (JObj []) JNull false 600000)
              Sample.world in
  save_optimization (H := Sample.libs) "alice" (JStr "x = 1") (JStr "x = 1")
                    "none" (JArr []) (JObj []) (JObj []) JNull
                    (MoreSamples.env_micro MoreSamples.other_sid) Sample.world
  = (Ok [("_id", JStr MoreSamples.other_sid);
         ("user_id", JStr "alice");
         ("name", JStr "Session · 01 Jan 1970, 00:00");
         ("original_code", JStr "x = 1");
         ("optimized_code", JStr "x = 1");
         ("level", JStr "none");
         ("changes", JArr []);
         ("original_analysis", JObj []);
         ("optimized_analysis", JObj []);
         ("error", JNull);
         ("starred", JBool false);
         ("created_at", JStr "1970-01-01T00:00:00.600250")], w')
  /\ get_optimization_by_id (H := Sample.libs) MoreSamples.other_sid "alice" w'
     = (Ok (JObj [("_id", JStr MoreSamples.other_sid);
                  ("user_id", JStr "alice");
                  ("name", JStr "Session · 01 Jan 1970, 00:00");
                  ("original_code", JStr "x = 1");
                  ("optimized_code", JStr "x = 1");
                  ("level", JStr "none");
                  ("changes", JArr []);
                  ("original_analysis", JObj []);
                  ("optimized_analysis", JObj []);
                  ("error", JNull);
                  ("starred", JBool false);
                  ("created_at", JStr "1970-01-01T00:00:00.600000")]), w').
Proof.
  destruct (save_then_fetch (H := Sample.libs) Sample.world
              (MoreSamples.env_micro MoreSamples.other_sid) "alice"
              (JStr "x = 1") (JStr "x = 1") "none" (JArr []) (JObj [])
              (JObj []) JNull)
    as (Hs & _ & _ & _ & Hg & _); [reflexivity.. |].
  split; [exact Hs | exact Hg].
Defined.

Lemma stats_unchanged_by_other_users_witness :
  (get_user_stats (H := Sample.libs) "bob"
     (toggle_star Sample.sid "alice" Sample.world).2).1
  = (get_user_stats (H := Sample.libs) "bob" Sample.world).1.
Proof.
  destruct (stats_unchanged_by_other_users (H := Sample.libs) Sample.world
              Sample.sid Sample.sid
              (Sample.session "alice" "level1" false 100000)
              "bob" "alice" "n" (Sample.env MoreSamples.other_sid)
              JNull JNull "none" JNull JNull JNull JNull)
    as (Ht & _); [discriminate | reflexivity.. | exact Ht].
Defined.

Lemma save_adds_one_to_total_witness :
  exists n,
    stat (H := Sample.libs) "total" "alice" Sample.world = JNum n
    /\ stat (H := Sample.libs) "total" "alice"
         (save_optimization (H := Sample.libs) "alice" JNull JNull "none"
            JNull JNull JNull JNull (Sample.env MoreSamples.other_sid)
            Sample.world).2
       = JNum (n + 1).
Proof.
  destruct (save_adds_one_to_total (H := Sample.libs) Sample.world
              (Sample.env MoreSamples.other_sid) "alice" JNull JNull "none"
              JNull JNull JNull JNull _ _ eq_refl) as (n & H1 & H2 & _).
  exists n. split; assumption.
Defined.

Lemma own_writes_move_stats_witness :
  exists n s,
    stat (H := Sample.libs) "total" "alice" Sample.world = JNum n
    /\ stat (H := Sample.libs) "starred_count" "alice" Sample.world = JNum s
    /\ stat (H := Sample.libs) "starred_count" "alice"
         (toggle_star Sample.sid "alice" Sample.world).2 = JNum (s + 1)
    /\ stat (H := Sample.libs) "total" "alice"
         (delete_optimization Sample.sid "alice" Sample.world).2
       = JNum (n - 1).
Proof.
  destruct (own_writes_move_stats (H := Sample.libs) Sample.world Sample.sid
              Sample.sid (Sample.session "alice" "level1" false 100000) "alice")
    as (n & s & Hn & Hs & _ & Ht & Hd); [reflexivity..|].
  exists n, s. repeat split; assumption.
Defined.

Lemma analyse_pipeline_failure_500_witness :
  flask (analyse (H := MoreSamples.libs_crashing)
                 (MoreSamples.analysis_request "level1") Sample.alice
                 (Sample.env MoreSamples.other_sid)) Sample.world
  = (_error ("Internal server error — check "
             ++ "server logs for details.") 500,
     with_traceback MoreSamples.crash Sample.world).
Proof.
  destruct (analyse_pipeline_failure_500 (H := MoreSamples.libs_crashing)
              Sample.world (Sample.env MoreSamples.other_sid) Sample.alice
              (MoreSamples.analysis_request "level1") "x = 1 + 1" "level1"
              MoreSamples.crash) as (Hr & _).
  - unfold valid_analysis. split; [eexists; split; reflexivity|].
    split; [reflexivity|].
    split; [eexists; split; reflexivity | reflexivity].
  - reflexivity.
  - exact Hr.
Defined.

Lemma analyse_failed_check_not_saved_witness :
  flask (analyse (H := MoreSamples.libs_rejecting)
                 (MoreSamples.analysis_request "level1") Sample.alice
                 (Sample.env MoreSamples.other_sid)) Sample.world
  = (MkResponse
       (JObj [("original_code", JStr "x = 1 + 1");
              ("passed_error_check", JBool false);
              ("error", JStr "SyntaxError: invalid syntax");
              ("session_id", JNull)]) 200,
     Sample.world).
Proof.
  destruct (analyse_failed_check_not_saved (H := MoreSamples.libs_rejecting)
              Sample.world (Sample.env MoreSamples.other_sid) Sample.alice
              (MoreSamples.analysis_request "level1") "x = 1 + 1" "level1"
              (MoreSamples.rejected_result "x = 1 + 1")) as (Hr & _).
  - unfold valid_analysis. split; [eexists; split; reflexivity|].
    split; [reflexivity|].
    split; [eexists; split; reflexivity | reflexivity].
  - reflexivity.
  - reflexivity.
  - exact Hr.
Defined.

Lemma analyse_saves_session_witness :
  flask (analyse (H := Sample.libs) (MoreSamples.analysis_request "LEVEL_2")
                 Sample.alice (MoreSamples.env_micro MoreSamples.other_sid))
        Sample.world
  = (MkResponse
       (JObj [("original_code", JStr "x = 1 + 1");
              ("optimized_code", JStr "x = 1 + 1");
              ("passed_error_check", JBool true);
              ("l1_changes", JArr [JStr "constant folding"]);
              ("l2", JObj [("changes_applied", JArr [JStr "loop unrolling"])]);
              ("session_id", JStr MoreSamples.other_sid)]) 200,
     with_session MoreSamples.other_sid
       (OptDoc.Make "alice" "Session · 01 Jan 1970, 00:00"
                    (JStr "x = 1 + 1") (JStr "x = 1 + 1") "level2"
                    (JArr [JStr "loop unrolling"]) (JObj []) (JObj []) JNull
                    false 600000)
       Sample.world).
Proof.
  destruct (analyse_saves_session (H := Sample.libs) Sample.world
              (MoreSamples.env_micro MoreSamples.other_sid) Sample.alice
              (MoreSamples.analysis_request "LEVEL_2") "x = 1 + 1" "level2"
              (Sample.pipeline_result "x = 1 + 1")
              (JArr [JStr "loop unrolling"])) as (Hr & _).
  - unfold valid_analysis. split; [eexists; split; reflexivity|].
    split; [reflexivity|].
    split; [eexists; split; reflexivity | reflexivity].
  - reflexivity.
  - reflexivity.
  - reflexivity.
  - reflexivity.
  - reflexivity.
  - exact Hr.
Defined.

Lemma analyse_default_level_witness :
  analyse (H := Sample.libs) (JObj [("code", JStr "x = 1 + 1")]) Sample.alice
          (Sample.env MoreSamples.other_sid) Sample.world
  = analyse (H := Sample.libs) (MoreSamples.analysis_request "none")
            Sample.alice (Sample.env MoreSamples.other_sid) Sample.world.
Proof.
  apply (analyse_default_level (H := Sample.libs) Sample.world
           (Sample.env MoreSamples.other_sid) Sample.alice
           [("code", JStr "x = 1 + 1")]).
  reflexivity.
Defined.

Lemma analyse_level2_needs_object_witness :
  flask (analyse (H := MoreSamples.libs_null_l2)
                 (MoreSamples.analysis_request "level2") Sample.alice
                 (Sample.env MoreSamples.other_sid)) Sample.world
  = (InternalServerError, Sample.world).
Proof.
  apply (analyse_level2_needs_object (H := MoreSamples.libs_null_l2)
           Sample.world (Sample.env MoreSamples.other_sid) Sample.alice
           (MoreSamples.analysis_request "level2") "x = 1 + 1"
           (MoreSamples.result_without_l2 "x = 1 + 1") JNull).
  - unfold valid_analysis. split; [eexists; split; reflexivity|].
    split; [reflexivity|].
    split; [eexists; split; reflexivity | reflexivity].
  - reflexivity.
  - reflexivity.
  - reflexivity.
  - discriminate.
Defined.

Lemma register_validation_witness :
  flask (register (H := Sample.libs)
           (JObj [("name", JStr "Ada"); ("email", JStr "ada@x.com");
                  ("password", JStr "  abc   ")])
           (Sample.env Sample.sid)) empty_world
  = (_error "Password must be at least 6 characters" 400, empty_world).
Proof.
  destruct (register_validation (H := Sample.libs) empty_world
              (Sample.env Sample.sid)
              (JObj [("name", JStr "Ada"); ("email", JStr "ada@x.com");
                     ("password", JStr "  abc   ")])
              "Ada" "ada@x.com" "abc") as (_ & Hshort);
    [reflexivity.. |].
  apply Hshort; [discriminate | discriminate | cbn; lia].
Defined.

Lemma credentials_not_text_500_witness :
  flask (login (H := Sample.libs)
               (JObj [("email", JStr "ada@x.com"); ("password", JNum 123456)])
               (Sample.env Sample.sid)) Sample.world_ada
  = (InternalServerError, Sample.world_ada).
Proof.
  destruct (credentials_not_text_500 (H := Sample.libs) Sample.world_ada
              (Sample.env Sample.sid)
              [("email", JStr "ada@x.com"); ("password", JNum 123456)]
              "password" (JNum 123456)) as (_ & Hl);
    [reflexivity | reflexivity | discriminate |].
  apply Hl. cbn. auto.
Defined.

Lemma register_creates_user_witness :
  flask (register (H := Sample.libs) (Sample.registration " Ada@X.com ")
                  (MoreSamples.env_micro Sample.sid)) empty_world
  = (MkResponse
       (JObj [("token", JStr "header.payload.signature");
              ("user", JObj [("_id", JStr Sample.sid);
                             ("name", JStr "Ada");
                             ("email", JStr "ada@x.com");
                             ("created_at",
                              JStr "1970-01-01T00:00:00.600250")])])
       201,
     with_user Sample.sid Sample.ada empty_world).
Proof.
  destruct (register_creates_user (H := Sample.libs) empty_world
              (MoreSamples.env_micro Sample.sid)
              (Sample.registration " Ada@X.com ")
              "Ada" " Ada@X.com " "secret1" "$2b$12$secret1")
    as (Hr & _).
  - eexists; split; reflexivity.
  - eexists; split; reflexivity.
  - eexists; split; reflexivity.
  - discriminate.
  - discriminate.
  - vm_compute. lia.
  - reflexivity.
  - reflexivity.
  - reflexivity.
  - intros oid d Hd. cbn in Hd. by rewrite lookup_empty in Hd.
  - exact Hr.
Defined.

Lemma register_then_login_witness :
  status (flask (login (H := Sample.libs)
                   (Sample.credentials MoreSamples.ada_variant " secret1")
                   (Sample.env MoreSamples.other_sid))
                MoreSamples.world_ada_later).1
  = 200.
Proof.
  destruct (register_then_login (H := Sample.libs) empty_world
              (Sample.env Sample.sid) (Sample.env MoreSamples.other_sid)
              (Sample.registration "ada@x.com")
              (Sample.credentials MoreSamples.ada_variant " secret1")
              "Ada" "ada@x.com" "secret1" "$2b$12$secret1"
              MoreSamples.ada_variant " secret1" MoreSamples.world_ada_later)
    as (_ & Hl).
  - split; [intros i d | intros i j di dj]; cbn; by rewrite lookup_empty.
  - eexists; split; reflexivity.
  - eexists; split; reflexivity.
  - eexists; split; reflexivity.
  - discriminate.
  - discriminate.
  - vm_compute. lia.
  - reflexivity.
  - reflexivity.
  - reflexivity.
  - intros oid d Hd. cbn in Hd. by rewrite lookup_empty in Hd.
  - exact sample_later.
  - by vm_compute.
  - eexists; split; reflexivity.
  - eexists; split; reflexivity.
  - discriminate.
  - rewrite Hl. reflexivity.
Defined.

Lemma require_auth_rejects_witness :
  exists message,
    flask (require_auth (H := MoreSamples.jwt) (me (H := Sample.libs))
                        (Some "Bearer expired")) Sample.world_ada
    = (_error message 401, Sample.world_ada).
Proof.
  destruct (require_auth_rejects (H0 := MoreSamples.jwt)
              (me (H := Sample.libs)) (Some "Bearer expired")
              Sample.world_ada) as (message & Hr & _).
  - intros token payload Heq.
    injection Heq as Heq. cbv in Heq. subst token. discriminate.
  - exists message. exact Hr.
Defined.

Lemma require_auth_accepts_witness :
  require_auth (H := MoreSamples.jwt) (me (H := Sample.libs))
               (Some ("Bearer " ++ Sample.sid)) Sample.world_ada
  = me (H := Sample.libs) (MkG Sample.sid (JStr "") (JStr ""))
       Sample.world_ada.
Proof.
  destruct (require_auth_accepts (H0 := MoreSamples.jwt)
              (me (H := Sample.libs)) Sample.sid
              (MkClaims (Some Sample.sid) None None) Sample.world_ada)
    as (Hr & _); [reflexivity|].
  apply Hr. reflexivity.
Defined.

Lemma login_token_opens_me_witness :
  flask (require_auth (H := MoreSamples.jwt) (me (H := MoreSamples.libs))
                      (Some ("Bearer " ++ Sample.sid))) Sample.world_ada
  = (MkResponse
       (JObj [("user",
               JObj (_serialize_user_dict (H := MoreSamples.libs)
                       Sample.sid Sample.ada))]) 200,
     Sample.world_ada).
Proof.
  apply (login_token_opens_me (H := MoreSamples.libs)
           (H0 := MoreSamples.jwt) Sample.world_ada
           (Sample.env MoreSamples.other_sid) Sample.sid Sample.ada
           (Sample.credentials "ADA@X.COM" "secret1") "ADA@X.COM" "secret1").
  - intros [sub name email iat exp] s Henc Hs. cbn in Henc, Hs. subst sub.
    subst s. eexists. split; reflexivity.
  - replace Sample.world_ada
      with (flask (view (H := Sample.libs)
                        (PostRegister (Sample.registration "ada@x.com"))
                        (Sample.env Sample.sid)) empty_world).2
      by reflexivity.
    apply (reachable_users_inv (H := Sample.libs)), reachable_step,
      reachable_init.
  - reflexivity.
  - reflexivity.
  - reflexivity.
  - eexists; split; reflexivity.
  - eexists; split; reflexivity.
  - discriminate.
  - discriminate.
  - reflexivity.
  - reflexivity.
Defined.

Lemma body_not_an_object_witness :
  flask (register (H := Sample.libs) (JArr []) (Sample.env Sample.sid))
        empty_world
  = (_error "name, email and password are all required" 400, empty_world)
  /\ flask (analyse (H := Sample.libs) (JArr []) Sample.alice
                    (Sample.env Sample.sid)) empty_world
     = (InternalServerError, empty_world).
Proof.
  destruct (body_not_an_object (H := Sample.libs) empty_world
              (Sample.env Sample.sid) Sample.alice Sample.sid (JArr []))
    as (Hfalse & _ & Hanalyse); [discriminate|].
  split.
  - by apply Hfalse.
  - by apply Hanalyse.
Defined.

Lemma register_insert_failure_witness :
  flask (register (H := Sample.libs) (Sample.registration "ada@x.com")
                  (Sample.env_down Sample.sid)) empty_world
  = (MkResponse (JObj [("error", JStr "Could not create account")]) 500,
     MkWorld ∅ ∅ [Sample.outage]).
Proof.
  rewrite (register_insert_failure (H := Sample.libs) empty_world
             (Sample.env_down Sample.sid) (Sample.registration "ada@x.com")
             "Ada" "ada@x.com" "secret1" "$2b$12$secret1" Sample.outage).
  - reflexivity.
  - eexists; split; reflexivity.
  - eexists; split; reflexivity.
  - eexists; split; reflexivity.
  - discriminate.
  - discriminate.
  - vm_compute. lia.
  - reflexivity.
  - reflexivity.
Defined.

Lemma history_newest_first_witness :
  exists l : list (string * OptDoc.t),
    get_user_optimizations (H := Sample.libs) "alice" Sample.world_stats
    = (Ok ((fun doc => _serialize_optimization (H := Sample.libs) (Some doc))
             <$> l), Sample.world_stats)
    /\ NoDup l.*1
    /\ forall (i j : nat) a b,
        (i < j)%nat -> l !! i = Some a -> l !! j = Some b ->
        OptDoc.created_at b.2 <= OptDoc.created_at a.2.
Proof.
  destruct (history_newest_first (H := Sample.libs) Sample.world_stats
              Sample.alice) as (l & Hl & _ & _ & Hnd & Hsorted).
  exists l. split; [exact Hl|]. split; assumption.
Defined.

(** The history of the owner of the sample statistics, by date. *)
Example get_user_optimizations_example :
  (fun doc => dict_get match doc with JObj d => d | _ => [] end "_id" JNull)
    <$> match (get_user_optimizations (H := Sample.libs) "alice"
                 Sample.world_stats).1 with
        | Ok l => l
        | Raise _ => []
        end
  = [JStr "65a1b2c3d4e5f60718293a02"; JStr "65a1b2c3d4e5f60718293a03";
     JStr "65a1b2c3d4e5f60718293a04"; JStr "65a1b2c3d4e5f60718293a01"].
Proof. vm_compute. reflexivity. Qed.

Lemma analyse_requires_code_witness :
  flask (analyse (H := Sample.libs)
                 (JObj [("code", JStr "   "); ("optimization_level", JNum 7)])
                 Sample.alice (Sample.env Sample.sid)) Sample.world
  = (_error "'code' field is required and must be a non-empty string" 400,
     Sample.world).
Proof.
  destruct (analyse_requires_code (H := Sample.libs) Sample.world
              (Sample.env Sample.sid) Sample.alice) as (_ & Hcode).
  apply Hcode. reflexivity.
Defined.

Lemma me_public_fields_witness :
  flask (me (H := Sample.libs) (MkG Sample.sid (JStr "Ada") (JStr "ada@x.com")))
        Sample.world_ada
  = (MkResponse
       (JObj [("user",
               JObj [("_id", JStr Sample.sid); ("name", JStr "Ada");
                     ("email", JStr "ada@x.com");
                     ("created_at", JStr "1970-01-01T00:00:00.600000")])])
       200, Sample.world_ada).
Proof.
  destruct (me_public_fields (H := Sample.libs) Sample.world_ada
              (MkG Sample.sid (JStr "Ada") (JStr "ada@x.com")))
    as (Hfound & _).
  destruct (Hfound Sample.sid Sample.ada) as (Hr & _);
    [reflexivity | reflexivity | exact Hr].
Defined.

Lemma password_length_in_characters_witness :
  String.length "ééé" = 6%nat
  /\ flask (register (H := Sample.libs)
                     (JObj [("name", JStr "Ada"); ("email", JStr "ada@x.com");
                            ("password", JStr " ééé ")])
                     (Sample.env Sample.sid)) empty_world
     = (MkResponse
          (JObj [("error", JStr "Password must be at least 6 characters")])
          400,
        empty_world).
Proof.
  split; [reflexivity|].
  apply (password_length_in_characters (H := Sample.libs) empty_world
           (Sample.env Sample.sid) _ "Ada" "ada@x.com" " ééé ").
  - eexists; split; reflexivity.
  - eexists; split; reflexivity.
  - eexists; split; reflexivity.
  - discriminate.
  - discriminate.
  - discriminate.
  - vm_compute. lia.
Defined.

Lemma register_hash_failure_witness :
  flask (register (H := Sample.libs)
                  (JObj [("name", JStr "Ada"); ("email", JStr "ada@x.com");
                         ("password",
                          JStr ("secret" ++ MoreSamples.lone_surrogate))])
                  (Sample.env Sample.sid)) empty_world
  = (MkResponse (JStr "Internal Server Error") 500, empty_world)
  /\ flask (register (H := Sample.libs)
                     (JObj [("name", JStr "Ada"); ("email", JStr "ada@x.com");
                            ("password", JStr MoreSamples.letters_73)])
                     (Sample.env Sample.sid)) Sample.world_ada
     = (MkResponse (JStr "Internal Server Error") 500, Sample.world_ada).
Proof.
  split.
  - apply (register_hash_failure (H := Sample.libs) empty_world
             (Sample.env Sample.sid) _ "Ada" "ada@x.com"
             ("secret" ++ MoreSamples.lone_surrogate)
             (UnicodeEncodeError 6 MoreSamples.lone_surrogate)).
    + eexists; split; reflexivity.
    + eexists; split; reflexivity.
    + eexists; split; reflexivity.
    + discriminate.
    + discriminate.
    + vm_compute. lia.
    + reflexivity.
  - apply (register_hash_failure (H := Sample.libs) Sample.world_ada
             (Sample.env Sample.sid) _ "Ada" "ada@x.com"
             MoreSamples.letters_73 Sample.too_long).
    + eexists; split; reflexivity.
    + eexists; split; reflexivity.
    + eexists; split; reflexivity.
    + discriminate.
    + discriminate.
    + vm_compute. lia.
    + reflexivity.
Defined.

Lemma padded_address_is_variant_witness :
  stored_address (H := Sample.libs)
    (String "009" " " ++ "Ada@x.com"
     ++ String "194" (String "160" (String "010" EmptyString)))
  = stored_address (H := Sample.libs) "Ada@x.com"
  /\ email_variant (H := Sample.libs)
       (String "009" " " ++ "Ada@x.com"
        ++ String "194" (String "160" (String "010" EmptyString)))
       (" " ++ "ADA@X.COM" ++ String "226" (String "128" (String "168" " "))).
Proof.
  destruct (padded_address_is_variant (H := Sample.libs) JNull JNull "email"
              (String "009" " ") "Ada@x.com"
              (String "194" (String "160" (String "010" EmptyString)))
              " " "ADA@X.COM"
              (String "226" (String "128" (String "168" " "))))
    as (_ & Hstored & Hvariant).
  - apply blank_1; [reflexivity|]. apply blank_1; [reflexivity|].
    apply blank_nil.
  - apply blank_2; [reflexivity|]. apply blank_1; [reflexivity|].
    apply blank_nil.
  - apply blank_1; [reflexivity|]. apply blank_nil.
  - apply blank_3; [reflexivity|]. apply blank_1; [reflexivity|].
    apply blank_nil.
  - split; [exact Hstored | apply Hvariant; reflexivity].
Defined.
